(** * Vendor Voice: the database layer and its two clients

    The repository is a Supabase application.  Its behaviour lives in two SQL
    migrations (table definitions, row-level-security policies, triggers) and in
    the React pages that query the tables.  This development embeds the
    migrations as executable functions over an explicit database state and
    proves properties of the statements the pages issue.

    - [Part000] is the migration with enum types, the [average_rating] and
      [total_ratings] columns of [vendors] and the trigger
      [update_vendor_rating].
    - [Part001] is the migration with text columns under CHECK constraints,
      the ON DELETE clauses and the trigger [handle_new_user].
    - [Pages] holds the client functions [fetchVendors] (Vendors.tsx) and
      [handleSubmit] (Ratings.tsx, Complaints page).

    A statement is a function from a session and a database to a [result]:
    either the new database with the number of rows it affected, or the
    SQLSTATE condition that aborted it.  An aborted statement leaves the
    database as it was ([commit]). *)

From Stdlib Require Import ZArith NArith String List Bool Lia QArith Qabs.
From Stdlib Require Import Sorted Permutation.
Import ListNotations.
Local Open Scope Z_scope.

(** ** Values *)

Definition UUID := N.
Bind Scope N_scope with UUID.
Definition timestamptz := Z.

(** DECIMAL(2,1): a fixed-point number with one fractional digit, held as its
    number of tenths ([43] is 4.3). *)
Definition decimal1 := Z.

Definition decimal1_to_Q (t : decimal1) : Q := t # 10.

(** The conditions a statement of the migrations can be aborted with. *)
Inductive sqlstate : Type :=
| unique_violation
| check_violation
| foreign_key_violation
| insufficient_privilege
| invalid_text_representation.

Inductive result (A : Type) : Type :=
| Ok (a : A)
| Err (e : sqlstate).
Arguments Ok {A} a.
Arguments Err {A} e.

Definition bind {A B : Type} (r : result A) (k : A -> result B) : result B :=
  match r with
  | Ok a => k a
  | Err e => Err e
  end.

Definition guard (b : bool) (e : sqlstate) : result unit :=
  if b then Ok tt else Err e.

Notation "'check' b 'else' e ;; k" := (bind (guard b e) (fun _ => k))
  (at level 10, b at level 0, e at level 0, k at level 200).

(** The caller of a statement.  [bypassrls] holds for the table owner and the
    service role, which row-level security does not apply to; [auth_uid]
    is the value of [auth.uid()], NULL for an anonymous request. *)
Record Session : Type := {
  bypassrls : bool;
  auth_uid : option UUID
}.

(** [x = auth.uid()] in a policy: NULL compares to nothing. *)
Definition is_auth_uid (s : Session) (x : UUID) : bool :=
  match auth_uid s with
  | Some u => N.eqb x u
  | None => false
  end.

Definition COALESCE {A : Type} (a b : option A) : option A :=
  match a with
  | Some _ => a
  | None => b
  end.

(** [COALESCE(x, d)] with a non-NULL [d]; also a column DEFAULT. *)
Definition or_default {A : Type} (x : option A) (d : A) : A :=
  match x with
  | Some a => a
  | None => d
  end.

(** Comparison of a nullable reference column with a key. *)
Definition refers_to (x : option UUID) (k : UUID) : bool :=
  match x with
  | Some y => N.eqb y k
  | None => false
  end.

(** A nullable foreign key holds when it is NULL or names a key of the list. *)
Definition fk_nullable (x : option UUID) (keys : list UUID) : bool :=
  match x with
  | Some y => existsb (N.eqb y) keys
  | None => true
  end.

(** ** Aggregates *)

Definition SUM (l : list Z) : Z := fold_right Z.add 0 l.

Definition COUNT {A : Type} (l : list A) : Z := Z.of_nat (length l).

(** AVG over an integer column: NULL over no rows. *)
Definition AVG (l : list Z) : option Q :=
  match l with
  | [] => None
  | _ :: _ => Some (SUM l # Pos.of_nat (length l))
  end.

(** ROUND(x, 1) on numeric: to the nearest tenth, a tie away from zero; the
    result in tenths.  The quotient is taken exactly: the digits numeric
    division keeps decide the tenth for every table of fewer than 2^31
    rows, the range of [total_ratings].  Ratings lie in 1..5, so the value
    fits DECIMAL(2,1). *)
Definition round1 (q : Q) : decimal1 :=
  let n := Qnum q in
  let d := Z.pos (Qden q) in
  if 0 <=? n then (20 * n + d) / (2 * d)
  else - ((20 * (- n) + d) / (2 * d)).

Definition ROUND1 (x : option Q) : option decimal1 := option_map round1 x.

(** * The enum-typed migration (part_000) *)

Module Part000.

Inductive complaint_status : Type := pending | investigating | resolved | dismissed.

Inductive complaint_category : Type :=
| food_quality | pricing | hygiene | location_issue | licensing | other.

Inductive user_role : Type := consumer | vendor | authority | admin.

(** ** Tables: one row type per CREATE TABLE, NULL-able columns as [option] *)

Module areas.
Record Row : Type := {
  id : UUID;
  name : string;
  district : string;
  state : string;
  pincode : option string;
  created_at : timestamptz
}.
End areas.

Module profiles.
Record Row : Type := {
  id : UUID;
  user_id : UUID;
  full_name : string;
  phone : option string;
  area_id : option UUID;
  role : user_role;
  is_verified : option bool;
  created_at : timestamptz;
  updated_at : timestamptz
}.

(** SET role = r *)
Definition set_role (r : user_role) (p : Row) : Row :=
  {| id := id p; user_id := user_id p; full_name := full_name p;
     phone := phone p; area_id := area_id p; role := r;
     is_verified := is_verified p; created_at := created_at p;
     updated_at := updated_at p |}.

(** SET full_name = n, phone = ph, area_id = a *)
Definition set_contact (n : string) (ph : option string) (a : option UUID)
    (p : Row) : Row :=
  {| id := id p; user_id := user_id p; full_name := n;
     phone := ph; area_id := a; role := role p;
     is_verified := is_verified p; created_at := created_at p;
     updated_at := updated_at p |}.

Definition set_updated_at (t : timestamptz) (p : Row) : Row :=
  {| id := id p; user_id := user_id p; full_name := full_name p;
     phone := phone p; area_id := area_id p; role := role p;
     is_verified := is_verified p; created_at := created_at p;
     updated_at := t |}.

End profiles.

Module vendors.
Record Row : Type := {
  id : UUID;
  profile_id : UUID;
  business_name : string;
  license_number : option string;
  area_id : UUID;
  location_description : string;
  food_types : option (list string);
  is_licensed : option bool;
  average_rating : option decimal1;
  total_ratings : option Z;
  created_at : timestamptz;
  updated_at : timestamptz
}.

(** SET average_rating = a, total_ratings = n *)
Definition set_aggregates (a : option decimal1) (n : option Z) (v : Row) : Row :=
  {| id := id v; profile_id := profile_id v; business_name := business_name v;
     license_number := license_number v; area_id := area_id v;
     location_description := location_description v;
     food_types := food_types v; is_licensed := is_licensed v;
     average_rating := a; total_ratings := n;
     created_at := created_at v; updated_at := updated_at v |}.

Definition set_updated_at (t : timestamptz) (v : Row) : Row :=
  {| id := id v; profile_id := profile_id v; business_name := business_name v;
     license_number := license_number v; area_id := area_id v;
     location_description := location_description v;
     food_types := food_types v; is_licensed := is_licensed v;
     average_rating := average_rating v; total_ratings := total_ratings v;
     created_at := created_at v; updated_at := t |}.
End vendors.

Module complaints.
Record Row : Type := {
  id : UUID;
  complainant_id : UUID;
  vendor_id : option UUID;
  area_id : UUID;
  category : complaint_category;
  title : string;
  description : string;
  status : complaint_status;
  priority : option Z;
  assigned_to : option UUID;
  resolution_notes : option string;
  resolved_at : option timestamptz;
  created_at : timestamptz;
  updated_at : timestamptz
}.

Definition set_updated_at (t : timestamptz) (c : Row) : Row :=
  {| id := id c; complainant_id := complainant_id c; vendor_id := vendor_id c;
     area_id := area_id c; category := category c; title := title c;
     description := description c; status := status c; priority := priority c;
     assigned_to := assigned_to c; resolution_notes := resolution_notes c;
     resolved_at := resolved_at c; created_at := created_at c;
     updated_at := t |}.

(** SET status = st *)
Definition set_status (st : complaint_status) (c : Row) : Row :=
  {| id := id c; complainant_id := complainant_id c; vendor_id := vendor_id c;
     area_id := area_id c; category := category c; title := title c;
     description := description c; status := st; priority := priority c;
     assigned_to := assigned_to c; resolution_notes := resolution_notes c;
     resolved_at := resolved_at c; created_at := created_at c;
     updated_at := updated_at c |}.

(** The columns an INSERT may give; a column with a DEFAULT is optional,
    and [priority], nullable with DEFAULT 1, may also be given as NULL. *)
Module Insert.
Record t : Type := {
  id : option UUID;
  complainant_id : UUID;
  vendor_id : option UUID;
  area_id : UUID;
  category : complaint_category;
  title : string;
  description : string;
  status : option complaint_status;
  priority : option (option Z);
  assigned_to : option UUID;
  resolution_notes : option string;
  resolved_at : option timestamptz;
  created_at : option timestamptz;
  updated_at : option timestamptz
}.
End Insert.

(** The row an INSERT stores: [gen] is the value of gen_random_uuid(),
    [now] of now(). *)
Definition of_insert (gen : UUID) (now : timestamptz) (i : Insert.t) : Row :=
  {| id := or_default (Insert.id i) gen;
     complainant_id := Insert.complainant_id i;
     vendor_id := Insert.vendor_id i;
     area_id := Insert.area_id i;
     category := Insert.category i;
     title := Insert.title i;
     description := Insert.description i;
     status := or_default (Insert.status i) pending;
     priority := or_default (Insert.priority i) (Some 1);
     assigned_to := Insert.assigned_to i;
     resolution_notes := Insert.resolution_notes i;
     resolved_at := Insert.resolved_at i;
     created_at := or_default (Insert.created_at i) now;
     updated_at := or_default (Insert.updated_at i) now |}.
End complaints.

Module ratings.
Record Row : Type := {
  id : UUID;
  vendor_id : UUID;
  customer_id : UUID;
  rating : Z;
  review : option string;
  food_quality_rating : option Z;
  price_rating : option Z;
  hygiene_rating : option Z;
  created_at : timestamptz
}.

(** SET rating = x *)
Definition set_rating (x : Z) (r : Row) : Row :=
  {| id := id r; vendor_id := vendor_id r; customer_id := customer_id r;
     rating := x; review := review r;
     food_quality_rating := food_quality_rating r;
     price_rating := price_rating r; hygiene_rating := hygiene_rating r;
     created_at := created_at r |}.

(** SET vendor_id = v *)
Definition set_vendor_id (v : UUID) (r : Row) : Row :=
  {| id := id r; vendor_id := v; customer_id := customer_id r;
     rating := rating r; review := review r;
     food_quality_rating := food_quality_rating r;
     price_rating := price_rating r; hygiene_rating := hygiene_rating r;
     created_at := created_at r |}.
End ratings.

(** The database: the five public tables, and the keys of [auth.users] that
    [profiles.user_id] refers to. *)
Record DB : Type := {
  auth_users : list UUID;
  areas : list areas.Row;
  profiles : list profiles.Row;
  vendors : list vendors.Row;
  complaints : list complaints.Row;
  ratings : list ratings.Row
}.

Definition with_vendors (l : list vendors.Row) (db : DB) : DB :=
  {| auth_users := auth_users db; areas := areas db; profiles := profiles db;
     vendors := l; complaints := complaints db; ratings := ratings db |}.

Definition with_complaints (l : list complaints.Row) (db : DB) : DB :=
  {| auth_users := auth_users db; areas := areas db; profiles := profiles db;
     vendors := vendors db; complaints := l; ratings := ratings db |}.

Definition with_ratings (l : list ratings.Row) (db : DB) : DB :=
  {| auth_users := auth_users db; areas := areas db; profiles := profiles db;
     vendors := vendors db; complaints := complaints db; ratings := l |}.

(** The state a statement leaves: its own on success, the old one when it
    was aborted. *)
Definition commit (db : DB) (r : result (DB * nat)) : DB :=
  match r with
  | Ok (db', _) => db'
  | Err _ => db
  end.

(** ** Row-level security

    Every table has RLS enabled; a session that does not bypass it sees, for
    each command, the rows its policies admit, and none where no policy
    exists for the command. *)

(** [SELECT id FROM public.profiles WHERE user_id = auth.uid()] *)
Definition own_profiles (s : Session) (db : DB) : list UUID :=
  map profiles.id
    (filter (fun p => is_auth_uid s (profiles.user_id p)) (profiles db)).

Definition is_elevated (r : user_role) : bool :=
  match r with
  | authority | admin => true
  | consumer | vendor => false
  end.

(** [EXISTS (SELECT 1 FROM public.profiles WHERE user_id = auth.uid()
    AND role IN ('authority', 'admin'))] *)
Definition has_elevated_role (s : Session) (db : DB) : bool :=
  existsb (fun p => is_auth_uid s (profiles.user_id p) && is_elevated (profiles.role p))
    (profiles db).

(** "Vendors can update their own data": the vendor's profile belongs to the
    caller. *)
Definition vendors_update_policy (s : Session) (db : DB) (v : vendors.Row) : bool :=
  bypassrls s ||
  existsb (fun p => N.eqb (profiles.id p) (vendors.profile_id v)
                    && is_auth_uid s (profiles.user_id p))
    (profiles db).

(** "Users can rate vendors" (INSERT, WITH CHECK) and "Users can update
    their own ratings" (UPDATE, USING; also its WITH CHECK, no other being
    given): [customer_id] is one of the caller's profiles. *)
Definition ratings_write_policy (s : Session) (db : DB) (r : ratings.Row) : bool :=
  bypassrls s || existsb (N.eqb (ratings.customer_id r)) (own_profiles s db).

(** No policy covers DELETE on [vendors] or [ratings]. *)
Definition delete_policy (s : Session) : bool := bypassrls s.

(** "Authorities can update complaints".  Whoever it admits is also admitted
    by the SELECT policy of the table, which the WHERE clause is read
    under. *)
Definition complaints_update_policy (s : Session) (db : DB) (c : complaints.Row) : bool :=
  bypassrls s || has_elevated_role s db.

(** "Users can file complaints" *)
Definition complaints_insert_policy (s : Session) (db : DB) (c : complaints.Row) : bool :=
  bypassrls s || existsb (N.eqb (complaints.complainant_id c)) (own_profiles s db).

(** ** Constraints of [ratings] *)

Definition in_1_5 (x : Z) : bool := (1 <=? x) && (x <=? 5).

(** A CHECK on a NULL column is not violated. *)
Definition null_or_in_1_5 (x : option Z) : bool :=
  match x with
  | Some y => in_1_5 y
  | None => true
  end.

Definition ratings_check (r : ratings.Row) : bool :=
  in_1_5 (ratings.rating r)
  && null_or_in_1_5 (ratings.food_quality_rating r)
  && null_or_in_1_5 (ratings.price_rating r)
  && null_or_in_1_5 (ratings.hygiene_rating r).

Definition same_pair (a b : ratings.Row) : bool :=
  N.eqb (ratings.vendor_id a) (ratings.vendor_id b)
  && N.eqb (ratings.customer_id a) (ratings.customer_id b).

(** PRIMARY KEY (id) and UNIQUE (vendor_id, customer_id) against the rows
    [others]. *)
Definition ratings_unique (r : ratings.Row) (others : list ratings.Row) : bool :=
  negb (existsb (fun x => N.eqb (ratings.id x) (ratings.id r)) others)
  && negb (existsb (same_pair r) others).

Definition ratings_fkeys (r : ratings.Row) (db : DB) : bool :=
  existsb (fun v => N.eqb (vendors.id v) (ratings.vendor_id r)) (vendors db)
  && existsb (fun p => N.eqb (profiles.id p) (ratings.customer_id r)) (profiles db).

(** ** The trigger [update_vendor_rating] *)

(** [SELECT rating FROM public.ratings WHERE vendor_id = t] *)
Definition ratings_of (t : UUID) (db : DB) : list Z :=
  map ratings.rating
    (filter (fun r => N.eqb (ratings.vendor_id r) t) (ratings db)).

(** The function runs AFTER each row of an INSERT, UPDATE or DELETE on
    [ratings], with the rights of the session that issued the statement (it
    is not SECURITY DEFINER): its UPDATE reaches the vendor rows the
    session's UPDATE policy admits.  The BEFORE UPDATE trigger of [vendors]
    stamps each row it changes. *)
Definition update_vendor_rating (s : Session) (now : timestamptz)
    (NEW OLD : option ratings.Row) (db : DB) : DB :=
  match COALESCE (option_map ratings.vendor_id NEW) (option_map ratings.vendor_id OLD) with
  | None => db
  | Some t =>
      with_vendors
        (map (fun v =>
                if N.eqb (vendors.id v) t && vendors_update_policy s db v
                then vendors.set_updated_at now
                       (vendors.set_aggregates
                          (ROUND1 (AVG (ratings_of t db)))
                          (Some (COUNT (ratings_of t db))) v)
                else v)
             (vendors db))
        db
  end.

(** ** Statements on [ratings] *)

(** INSERT INTO ratings VALUES (r): policy, CHECKs, unique indexes, foreign
    keys, then the trigger. *)
Definition insert_rating (s : Session) (now : timestamptz) (r : ratings.Row)
    (db : DB) : result (DB * nat) :=
  check (ratings_write_policy s db r) else insufficient_privilege ;;
  check (ratings_check r) else check_violation ;;
  check (ratings_unique r (ratings db)) else unique_violation ;;
  check (ratings_fkeys r db) else foreign_key_violation ;;
  Ok (update_vendor_rating s now (Some r) None
        (with_ratings (ratings db ++ [r]) db), 1%nat).

(** UPDATE ratings SET ... WHERE id = rid; [set] is the SET clause.  A row
    the UPDATE policy does not admit is not seen: nothing is changed and
    nothing is raised. *)
Definition update_rating (s : Session) (now : timestamptz) (rid : UUID)
    (set : ratings.Row -> ratings.Row) (db : DB) : result (DB * nat) :=
  match find (fun r => N.eqb (ratings.id r) rid) (ratings db) with
  | None => Ok (db, 0%nat)
  | Some old =>
      if ratings_write_policy s db old then
        let new := set old in
        let others := filter (fun r => negb (N.eqb (ratings.id r) rid)) (ratings db) in
        check (ratings_write_policy s db new) else insufficient_privilege ;;
        check (ratings_check new) else check_violation ;;
        check (ratings_unique new others) else unique_violation ;;
        check (ratings_fkeys new db) else foreign_key_violation ;;
        Ok (update_vendor_rating s now (Some new) (Some old)
              (with_ratings
                 (map (fun r => if N.eqb (ratings.id r) rid then new else r) (ratings db))
                 db), 1%nat)
      else Ok (db, 0%nat)
  end.

(** DELETE FROM ratings WHERE id = rid.  Nothing refers to a rating. *)
Definition delete_rating (s : Session) (now : timestamptz) (rid : UUID)
    (db : DB) : result (DB * nat) :=
  match find (fun r => N.eqb (ratings.id r) rid) (ratings db) with
  | None => Ok (db, 0%nat)
  | Some old =>
      if delete_policy s then
        Ok (update_vendor_rating s now None (Some old)
              (with_ratings
                 (filter (fun r => negb (N.eqb (ratings.id r) rid)) (ratings db))
                 db), 1%nat)
      else Ok (db, 0%nat)
  end.

(** The stored pair (average_rating, total_ratings) of the vendor [vid]. *)
Definition aggregate (vid : UUID) (db : DB) : option (option decimal1 * option Z) :=
  option_map (fun v => (vendors.average_rating v, vendors.total_ratings v))
    (find (fun v => N.eqb (vendors.id v) vid) (vendors db)).

(** ** Statements on [complaints] *)

Definition complaints_unique (c : complaints.Row) (others : list complaints.Row) : bool :=
  negb (existsb (fun x => N.eqb (complaints.id x) (complaints.id c)) others).

Definition complaints_fkeys (c : complaints.Row) (db : DB) : bool :=
  existsb (N.eqb (complaints.complainant_id c)) (map profiles.id (profiles db))
  && fk_nullable (complaints.vendor_id c) (map vendors.id (vendors db))
  && existsb (N.eqb (complaints.area_id c)) (map areas.id (areas db))
  && fk_nullable (complaints.assigned_to c) (map profiles.id (profiles db)).

Definition is_terminal (st : complaint_status) : bool :=
  match st with
  | resolved | dismissed => true
  | pending | investigating => false
  end.

Definition is_set {A : Type} (x : option A) : bool :=
  match x with
  | Some _ => true
  | None => false
  end.

(** [resolved_at] is set exactly when [status] is terminal. *)
Definition resolved_at_coherent (c : complaints.Row) : bool :=
  Bool.eqb (is_set (complaints.resolved_at c)) (is_terminal (complaints.status c)).

(** INSERT INTO complaints: the table has no CHECK and no AFTER trigger. *)
Definition insert_complaint (s : Session) (gen : UUID) (now : timestamptz)
    (i : complaints.Insert.t) (db : DB) : result (DB * nat) :=
  let c := complaints.of_insert gen now i in
  check (complaints_insert_policy s db c) else insufficient_privilege ;;
  check (complaints_unique c (complaints db)) else unique_violation ;;
  check (complaints_fkeys c db) else foreign_key_violation ;;
  Ok (with_complaints (complaints db ++ [c]) db, 1%nat).

(** The BEFORE UPDATE trigger [update_updated_at_column]. *)
Definition update_updated_at_column (now : timestamptz) (NEW : complaints.Row)
    : complaints.Row :=
  complaints.set_updated_at now NEW.

(** UPDATE complaints SET ... WHERE id = cid. *)
Definition update_complaint (s : Session) (now : timestamptz) (cid : UUID)
    (set : complaints.Row -> complaints.Row) (db : DB) : result (DB * nat) :=
  match find (fun c => N.eqb (complaints.id c) cid) (complaints db) with
  | None => Ok (db, 0%nat)
  | Some old =>
      if complaints_update_policy s db old then
        let new := update_updated_at_column now (set old) in
        let others :=
          filter (fun c => negb (N.eqb (complaints.id c) cid)) (complaints db) in
        check (complaints_update_policy s db new) else insufficient_privilege ;;
        check (complaints_unique new others) else unique_violation ;;
        check (complaints_fkeys new db) else foreign_key_violation ;;
        Ok (with_complaints
              (map (fun c => if N.eqb (complaints.id c) cid then new else c)
                 (complaints db))
              db, 1%nat)
      else Ok (db, 0%nat)
  end.

(** ** DELETE FROM vendors WHERE id = vid

    [complaints.vendor_id] and [ratings.vendor_id] refer to [vendors] with
    no ON DELETE clause: a vendor that is referred to cannot be deleted. *)
Definition delete_vendor (s : Session) (vid : UUID) (db : DB) : result (DB * nat) :=
  match find (fun v => N.eqb (vendors.id v) vid) (vendors db) with
  | None => Ok (db, 0%nat)
  | Some _ =>
      if delete_policy s then
        check (negb (existsb (fun c => refers_to (complaints.vendor_id c) vid)
                       (complaints db)))
          else foreign_key_violation ;;
        check (negb (existsb (fun r => N.eqb (ratings.vendor_id r) vid) (ratings db)))
          else foreign_key_violation ;;
        Ok (with_vendors
              (filter (fun v => negb (N.eqb (vendors.id v) vid)) (vendors db))
              db, 1%nat)
      else Ok (db, 0%nat)
  end.

(** ** Reading [complaints]

    "Users can view complaints in their area or filed by them": the caller
    is the complainant, or the assignee, or has an elevated role. *)
Definition complaints_select_policy (s : Session) (db : DB) (c : complaints.Row)
    : bool :=
  bypassrls s
  || existsb (N.eqb (complaints.complainant_id c)) (own_profiles s db)
  || match complaints.assigned_to c with
     | Some a => existsb (N.eqb a) (own_profiles s db)
     | None => false
     end
  || has_elevated_role s db.

(** ** UPDATE profiles SET ... WHERE user_id = uid *)

(** "Users can update their own profile" *)
Definition profiles_update_policy (s : Session) (p : profiles.Row) : bool :=
  bypassrls s || is_auth_uid s (profiles.user_id p).

(** PRIMARY KEY (id) and UNIQUE (user_id) *)
Definition profiles_unique (p : profiles.Row) (others : list profiles.Row) : bool :=
  negb (existsb (fun x => N.eqb (profiles.id x) (profiles.id p)) others)
  && negb (existsb (fun x => N.eqb (profiles.user_id x) (profiles.user_id p)) others).

Definition profiles_fkeys (p : profiles.Row) (db : DB) : bool :=
  existsb (N.eqb (profiles.user_id p)) (auth_users db)
  && fk_nullable (profiles.area_id p) (map areas.id (areas db)).

(** Some vendor, complaint or rating names the profile [pid]. *)
Definition profile_is_referenced (pid : UUID) (db : DB) : bool :=
  existsb (fun v => N.eqb (vendors.profile_id v) pid) (vendors db)
  || existsb (fun c => N.eqb (complaints.complainant_id c) pid
                       || refers_to (complaints.assigned_to c) pid)
       (complaints db)
  || existsb (fun r => N.eqb (ratings.customer_id r) pid) (ratings db).

Definition with_profiles (l : list profiles.Row) (db : DB) : DB :=
  {| auth_users := auth_users db; areas := areas db; profiles := l;
     vendors := vendors db; complaints := complaints db; ratings := ratings db |}.

(** The policy has no column list: the SET clause may name any column,
    [role] included.  The BEFORE UPDATE trigger stamps the row.  A key that
    other rows name cannot be changed (no ON UPDATE clause). *)
Definition update_profile (s : Session) (now : timestamptz) (uid : UUID)
    (set : profiles.Row -> profiles.Row) (db : DB) : result (DB * nat) :=
  match find (fun p => N.eqb (profiles.user_id p) uid) (profiles db) with
  | None => Ok (db, 0%nat)
  | Some old =>
      if profiles_update_policy s old then
        let new := profiles.set_updated_at now (set old) in
        let others :=
          filter (fun p => negb (N.eqb (profiles.user_id p) uid)) (profiles db) in
        check (profiles_update_policy s new) else insufficient_privilege ;;
        check (profiles_unique new others) else unique_violation ;;
        check (profiles_fkeys new db) else foreign_key_violation ;;
        check (N.eqb (profiles.id new) (profiles.id old)
               || negb (profile_is_referenced (profiles.id old) db))
          else foreign_key_violation ;;
        Ok (with_profiles
              (map (fun p => if N.eqb (profiles.user_id p) uid then new else p)
                 (profiles db))
              db, 1%nat)
      else Ok (db, 0%nat)
  end.

(** ** DELETE FROM auth.users WHERE id = uid

    [profiles.user_id] and [vendors.profile_id] are ON DELETE CASCADE; the
    references of [complaints] and [ratings] have no ON DELETE clause, so a
    row of theirs that names a deleted profile or vendor aborts the
    statement. *)
Definition delete_auth_user (uid : UUID) (db : DB) : result (DB * nat) :=
  if existsb (N.eqb uid) (auth_users db) then
    let gone_profiles :=
      map profiles.id
        (filter (fun p => N.eqb (profiles.user_id p) uid) (profiles db)) in
    let gone_vendors :=
      map vendors.id
        (filter (fun v => existsb (N.eqb (vendors.profile_id v)) gone_profiles)
           (vendors db)) in
    check (negb (existsb
                   (fun c => existsb (N.eqb (complaints.complainant_id c)) gone_profiles
                             || existsb (refers_to (complaints.assigned_to c)) gone_profiles
                             || existsb (refers_to (complaints.vendor_id c)) gone_vendors)
                   (complaints db)))
      else foreign_key_violation ;;
    check (negb (existsb
                   (fun r => existsb (N.eqb (ratings.customer_id r)) gone_profiles
                             || existsb (N.eqb (ratings.vendor_id r)) gone_vendors)
                   (ratings db)))
      else foreign_key_violation ;;
    Ok ({| auth_users := filter (fun u => negb (N.eqb u uid)) (auth_users db);
           areas := areas db;
           profiles :=
             filter (fun p => negb (N.eqb (profiles.user_id p) uid)) (profiles db);
           vendors :=
             filter (fun v => negb (existsb (N.eqb (vendors.profile_id v)) gone_profiles))
               (vendors db);
           complaints := complaints db;
           ratings := ratings db |}, 1%nat)
  else Ok (db, 0%nat).

End Part000.

(** * The text-typed migration (part_001) *)

Module Part001.

(** The fields of an [auth.users] row that the migration reads;
    [raw_user_meta_data] is a JSON object, given by its text members. *)
Module auth_users.
Record Row : Type := {
  id : UUID;
  phone : option string;
  raw_user_meta_data : option (list (string * string))
}.
End auth_users.

Module areas.
Record Row : Type := {
  id : UUID;
  name : string;
  district : string;
  state : string;
  created_at : timestamptz
}.
End areas.

Module profiles.
Record Row : Type := {
  id : UUID;
  user_id : UUID;
  full_name : string;
  phone : option string;
  area_id : option UUID;
  user_type : string;
  created_at : timestamptz;
  updated_at : timestamptz
}.

(** SET user_type = t *)
Definition set_user_type (t : string) (p : Row) : Row :=
  {| id := id p; user_id := user_id p; full_name := full_name p;
     phone := phone p; area_id := area_id p; user_type := t;
     created_at := created_at p; updated_at := updated_at p |}.

Definition set_updated_at (t : timestamptz) (p : Row) : Row :=
  {| id := id p; user_id := user_id p; full_name := full_name p;
     phone := phone p; area_id := area_id p; user_type := user_type p;
     created_at := created_at p; updated_at := t |}.

End profiles.

Module vendors.
Record Row : Type := {
  id : UUID;
  profile_id : UUID;
  business_name : string;
  food_type : string;
  location_details : string;
  area_id : UUID;
  license_number : option string;
  is_verified : option bool;
  created_at : timestamptz;
  updated_at : timestamptz
}.
End vendors.

Module complaints.
Record Row : Type := {
  id : UUID;
  complainant_id : UUID;
  vendor_id : option UUID;
  area_id : UUID;
  title : string;
  description : string;
  complaint_type : string;
  status : string;
  priority : string;
  created_at : timestamptz;
  updated_at : timestamptz
}.

(** SET status = st *)
Definition set_status (st : string) (c : Row) : Row :=
  {| id := id c; complainant_id := complainant_id c; vendor_id := vendor_id c;
     area_id := area_id c; title := title c; description := description c;
     complaint_type := complaint_type c; status := st;
     priority := priority c; created_at := created_at c;
     updated_at := updated_at c |}.

Definition set_vendor_id (x : option UUID) (c : Row) : Row :=
  {| id := id c; complainant_id := complainant_id c; vendor_id := x;
     area_id := area_id c; title := title c; description := description c;
     complaint_type := complaint_type c; status := status c;
     priority := priority c; created_at := created_at c;
     updated_at := updated_at c |}.

Definition set_updated_at (t : timestamptz) (c : Row) : Row :=
  {| id := id c; complainant_id := complainant_id c; vendor_id := vendor_id c;
     area_id := area_id c; title := title c; description := description c;
     complaint_type := complaint_type c; status := status c;
     priority := priority c; created_at := created_at c;
     updated_at := t |}.
End complaints.

Module ratings.
Record Row : Type := {
  id : UUID;
  reviewer_id : UUID;
  vendor_id : UUID;
  rating : Z;
  review_text : option string;
  food_quality_rating : option Z;
  price_rating : option Z;
  hygiene_rating : option Z;
  created_at : timestamptz
}.
End ratings.

Record DB : Type := {
  auth_users : list auth_users.Row;
  areas : list areas.Row;
  profiles : list profiles.Row;
  vendors : list vendors.Row;
  complaints : list complaints.Row;
  ratings : list ratings.Row
}.

Definition commit (db : DB) (r : result (DB * nat)) : DB :=
  match r with
  | Ok (db', _) => db'
  | Err _ => db
  end.

(** [x IN ('a', 'b', ...)] on text *)
Definition text_in (x : string) (l : list string) : bool := existsb (String.eqb x) l.

(** ** Row-level security *)

(** [EXISTS (SELECT 1 FROM public.profiles WHERE profiles.id = pid AND
    profiles.user_id = auth.uid())]: the shape of every ownership policy
    of this migration. *)
Definition owns_profile (s : Session) (db : DB) (pid : UUID) : bool :=
  existsb (fun p => N.eqb (profiles.id p) pid && is_auth_uid s (profiles.user_id p))
    (profiles db).

(** "Complainants can update their complaints" *)
Definition complaints_update_policy (s : Session) (db : DB) (c : complaints.Row) : bool :=
  bypassrls s || owns_profile s db (complaints.complainant_id c).

(** "Users can create ratings" *)
Definition ratings_insert_policy (s : Session) (db : DB) (r : ratings.Row) : bool :=
  bypassrls s || owns_profile s db (ratings.reviewer_id r).

(** No policy is declared for DELETE on any table. *)
Definition delete_policy (s : Session) : bool := bypassrls s.

(** ** The trigger [handle_new_user] *)

(** [j ->> k]: the member [k] of the object as text, NULL when [j] is NULL or
    has no such member. *)
Definition json_text (j : option (list (string * string))) (k : string) : option string :=
  match j with
  | Some members => option_map snd (find (fun kv => String.eqb (fst kv) k) members)
  | None => None
  end.

Definition profiles_check (p : profiles.Row) : bool :=
  text_in (profiles.user_type p) ["consumer"; "vendor"; "admin"]%string.

(** PRIMARY KEY (id) and UNIQUE (user_id) *)
Definition profiles_unique (p : profiles.Row) (others : list profiles.Row) : bool :=
  negb (existsb (fun x => N.eqb (profiles.id x) (profiles.id p)) others)
  && negb (existsb (fun x => N.eqb (profiles.user_id x) (profiles.user_id p)) others).

Definition profiles_fkeys (p : profiles.Row) (db : DB) : bool :=
  existsb (N.eqb (profiles.user_id p)) (map auth_users.id (auth_users db))
  && fk_nullable (profiles.area_id p) (map areas.id (areas db)).

(** The function is SECURITY DEFINER: its INSERT runs as the owner of
    [profiles], whom no policy restricts.  The columns it does not list
    take their defaults; [gen] is the value of gen_random_uuid().  It has
    no EXCEPTION block: what the INSERT raises, the function raises. *)
Definition handle_new_user (gen : UUID) (now : timestamptz) (NEW : auth_users.Row)
    (db : DB) : result DB :=
  let p :=
    {| profiles.id := gen;
       profiles.user_id := auth_users.id NEW;
       profiles.full_name :=
         or_default (json_text (auth_users.raw_user_meta_data NEW) "full_name")
           "User"%string;
       profiles.phone := auth_users.phone NEW;
       profiles.area_id := None;
       profiles.user_type := "consumer";
       profiles.created_at := now;
       profiles.updated_at := now |} in
  check (profiles_check p) else check_violation ;;
  check (profiles_unique p (profiles db)) else unique_violation ;;
  check (profiles_fkeys p db) else foreign_key_violation ;;
  Ok {| auth_users := auth_users db; areas := areas db;
        profiles := profiles db ++ [p]; vendors := vendors db;
        complaints := complaints db; ratings := ratings db |}.

(** The creation of an identity: INSERT INTO auth.users, whose AFTER INSERT
    trigger [on_auth_user_created] runs [handle_new_user] in the same
    statement. *)
Definition insert_auth_user (gen : UUID) (now : timestamptz) (u : auth_users.Row)
    (db : DB) : result (DB * nat) :=
  check (negb (existsb (fun x => N.eqb (auth_users.id x) (auth_users.id u))
                 (auth_users db)))
    else unique_violation ;;
  bind (handle_new_user gen now u
          {| auth_users := auth_users db ++ [u]; areas := areas db;
             profiles := profiles db; vendors := vendors db;
             complaints := complaints db; ratings := ratings db |})
       (fun db' => Ok (db', 1%nat)).

(** ** Statements on [ratings]: no trigger in this migration *)

Definition ratings_check (r : ratings.Row) : bool :=
  Part000.in_1_5 (ratings.rating r)
  && Part000.null_or_in_1_5 (ratings.food_quality_rating r)
  && Part000.null_or_in_1_5 (ratings.price_rating r)
  && Part000.null_or_in_1_5 (ratings.hygiene_rating r).

Definition same_pair (a b : ratings.Row) : bool :=
  N.eqb (ratings.reviewer_id a) (ratings.reviewer_id b)
  && N.eqb (ratings.vendor_id a) (ratings.vendor_id b).

(** PRIMARY KEY (id) and UNIQUE (reviewer_id, vendor_id) *)
Definition ratings_unique (r : ratings.Row) (others : list ratings.Row) : bool :=
  negb (existsb (fun x => N.eqb (ratings.id x) (ratings.id r)) others)
  && negb (existsb (same_pair r) others).

Definition ratings_fkeys (r : ratings.Row) (db : DB) : bool :=
  existsb (N.eqb (ratings.reviewer_id r)) (map profiles.id (profiles db))
  && existsb (N.eqb (ratings.vendor_id r)) (map vendors.id (vendors db)).

Definition insert_rating (s : Session) (r : ratings.Row) (db : DB)
    : result (DB * nat) :=
  check (ratings_insert_policy s db r) else insufficient_privilege ;;
  check (ratings_check r) else check_violation ;;
  check (ratings_unique r (ratings db)) else unique_violation ;;
  check (ratings_fkeys r db) else foreign_key_violation ;;
  Ok ({| auth_users := auth_users db; areas := areas db; profiles := profiles db;
         vendors := vendors db; complaints := complaints db;
         ratings := ratings db ++ [r] |}, 1%nat).

(** ** UPDATE complaints SET ... WHERE id = cid *)

Definition complaints_check (c : complaints.Row) : bool :=
  text_in (complaints.complaint_type c)
    ["quality"; "pricing"; "hygiene"; "behavior"; "location"; "other"]%string
  && text_in (complaints.status c)
       ["pending"; "investigating"; "resolved"; "rejected"]%string
  && text_in (complaints.priority c) ["low"; "medium"; "high"; "urgent"]%string.

Definition complaints_unique (c : complaints.Row) (others : list complaints.Row) : bool :=
  negb (existsb (fun x => N.eqb (complaints.id x) (complaints.id c)) others).

Definition complaints_fkeys (c : complaints.Row) (db : DB) : bool :=
  existsb (N.eqb (complaints.complainant_id c)) (map profiles.id (profiles db))
  && fk_nullable (complaints.vendor_id c) (map vendors.id (vendors db))
  && existsb (N.eqb (complaints.area_id c)) (map areas.id (areas db)).

Definition with_complaints (l : list complaints.Row) (db : DB) : DB :=
  {| auth_users := auth_users db; areas := areas db; profiles := profiles db;
     vendors := vendors db; complaints := l; ratings := ratings db |}.

(** The BEFORE UPDATE trigger [update_updated_at_column]. *)
Definition update_updated_at_column (now : timestamptz) (NEW : complaints.Row)
    : complaints.Row :=
  complaints.set_updated_at now NEW.

Definition update_complaint (s : Session) (now : timestamptz) (cid : UUID)
    (set : complaints.Row -> complaints.Row) (db : DB) : result (DB * nat) :=
  match find (fun c => N.eqb (complaints.id c) cid) (complaints db) with
  | None => Ok (db, 0%nat)
  | Some old =>
      if complaints_update_policy s db old then
        let new := update_updated_at_column now (set old) in
        let others :=
          filter (fun c => negb (N.eqb (complaints.id c) cid)) (complaints db) in
        check (complaints_update_policy s db new) else insufficient_privilege ;;
        check (complaints_check new) else check_violation ;;
        check (complaints_unique new others) else unique_violation ;;
        check (complaints_fkeys new db) else foreign_key_violation ;;
        Ok (with_complaints
              (map (fun c => if N.eqb (complaints.id c) cid then new else c)
                 (complaints db))
              db, 1%nat)
      else Ok (db, 0%nat)
  end.

(** ** DELETE FROM vendors WHERE id = vid

    [ratings.vendor_id] is ON DELETE CASCADE, [complaints.vendor_id] is
    ON DELETE SET NULL.  The SET NULL action is an UPDATE of [complaints],
    so the BEFORE UPDATE trigger of that table stamps the rows it
    changes. *)
Definition on_delete_set_null (now : timestamptz) (vid : UUID) (c : complaints.Row)
    : complaints.Row :=
  if refers_to (complaints.vendor_id c) vid
  then update_updated_at_column now (complaints.set_vendor_id None c)
  else c.

Definition delete_vendor (s : Session) (now : timestamptz) (vid : UUID) (db : DB)
    : result (DB * nat) :=
  match find (fun v => N.eqb (vendors.id v) vid) (vendors db) with
  | None => Ok (db, 0%nat)
  | Some _ =>
      if delete_policy s then
        Ok ({| auth_users := auth_users db; areas := areas db;
               profiles := profiles db;
               vendors := filter (fun v => negb (N.eqb (vendors.id v) vid)) (vendors db);
               complaints := map (on_delete_set_null now vid) (complaints db);
               ratings :=
                 filter (fun r => negb (N.eqb (ratings.vendor_id r) vid)) (ratings db) |},
            1%nat)
      else Ok (db, 0%nat)
  end.

(** ** INSERT INTO vendors *)

(** "Users can create vendor profiles" *)
Definition vendors_insert_policy (s : Session) (db : DB) (v : vendors.Row) : bool :=
  bypassrls s || owns_profile s db (vendors.profile_id v).

Definition vendors_fkeys (v : vendors.Row) (db : DB) : bool :=
  existsb (N.eqb (vendors.profile_id v)) (map profiles.id (profiles db))
  && existsb (N.eqb (vendors.area_id v)) (map areas.id (areas db)).

(** The table has a primary key and no other unique constraint: a profile
    may own any number of vendors. *)
Definition insert_vendor (s : Session) (v : vendors.Row) (db : DB)
    : result (DB * nat) :=
  check (vendors_insert_policy s db v) else insufficient_privilege ;;
  check (negb (existsb (fun x => N.eqb (vendors.id x) (vendors.id v)) (vendors db)))
    else unique_violation ;;
  check (vendors_fkeys v db) else foreign_key_violation ;;
  Ok ({| auth_users := auth_users db; areas := areas db; profiles := profiles db;
         vendors := vendors db ++ [v]; complaints := complaints db;
         ratings := ratings db |}, 1%nat).

(** ** UPDATE profiles SET ... WHERE id = pid *)

(** "Users can update their own profile" *)
Definition profiles_update_policy (s : Session) (p : profiles.Row) : bool :=
  bypassrls s || is_auth_uid s (profiles.user_id p).

(** Some vendor, complaint or rating names the profile [pid]. *)
Definition profile_is_referenced (pid : UUID) (db : DB) : bool :=
  existsb (fun v => N.eqb (vendors.profile_id v) pid) (vendors db)
  || existsb (fun c => N.eqb (complaints.complainant_id c) pid) (complaints db)
  || existsb (fun r => N.eqb (ratings.reviewer_id r) pid) (ratings db).

Definition with_profiles (l : list profiles.Row) (db : DB) : DB :=
  {| auth_users := auth_users db; areas := areas db; profiles := l;
     vendors := vendors db; complaints := complaints db; ratings := ratings db |}.

Definition update_profile (s : Session) (now : timestamptz) (pid : UUID)
    (set : profiles.Row -> profiles.Row) (db : DB) : result (DB * nat) :=
  match find (fun p => N.eqb (profiles.id p) pid) (profiles db) with
  | None => Ok (db, 0%nat)
  | Some old =>
      if profiles_update_policy s old then
        let new := profiles.set_updated_at now (set old) in
        let others := filter (fun p => negb (N.eqb (profiles.id p) pid)) (profiles db) in
        check (profiles_update_policy s new) else insufficient_privilege ;;
        check (profiles_check new) else check_violation ;;
        check (profiles_unique new others) else unique_violation ;;
        check (profiles_fkeys new db) else foreign_key_violation ;;
        check (N.eqb (profiles.id new) (profiles.id old)
               || negb (profile_is_referenced (profiles.id old) db))
          else foreign_key_violation ;;
        Ok (with_profiles
              (map (fun p => if N.eqb (profiles.id p) pid then new else p)
                 (profiles db))
              db, 1%nat)
      else Ok (db, 0%nat)
  end.

(** ** DELETE FROM auth.users WHERE id = uid

    Every reference to a profile is ON DELETE CASCADE, and so is
    [ratings.vendor_id]; [complaints.vendor_id] is ON DELETE SET NULL. *)
Definition delete_auth_user (now : timestamptz) (uid : UUID) (db : DB)
    : result (DB * nat) :=
  if existsb (fun u => N.eqb (auth_users.id u) uid) (auth_users db) then
    let gone_profiles :=
      map profiles.id
        (filter (fun p => N.eqb (profiles.user_id p) uid) (profiles db)) in
    let gone_vendors :=
      map vendors.id
        (filter (fun v => existsb (N.eqb (vendors.profile_id v)) gone_profiles)
           (vendors db)) in
    Ok ({| auth_users :=
             filter (fun u => negb (N.eqb (auth_users.id u) uid)) (auth_users db);
           areas := areas db;
           profiles :=
             filter (fun p => negb (N.eqb (profiles.user_id p) uid)) (profiles db);
           vendors :=
             filter (fun v => negb (existsb (N.eqb (vendors.profile_id v)) gone_profiles))
               (vendors db);
           complaints :=
             map (fun c =>
                    if existsb (refers_to (complaints.vendor_id c)) gone_vendors
                    then update_updated_at_column now (complaints.set_vendor_id None c)
                    else c)
               (filter (fun c => negb (existsb (N.eqb (complaints.complainant_id c))
                                         gone_profiles))
                  (complaints db));
           ratings :=
             filter (fun r => negb (existsb (N.eqb (ratings.reviewer_id r)) gone_profiles)
                              && negb (existsb (N.eqb (ratings.vendor_id r)) gone_vendors))
               (ratings db) |}, 1%nat)
  else Ok (db, 0%nat).

End Part001.

(** * The pages *)

Module Pages.

(** What a submit handler shows: nothing (an early return), the success
    toast, or the destructive toast with the error's message. *)
Inductive message : Type :=
| Profile_not_found
| Database (e : sqlstate).

Inductive toast : Type :=
| Success
| Error (m : message).

(** The pages use the public key: their statements run under row-level
    security as the signed-in user. *)
Definition client (user : UUID) : Session :=
  {| bypassrls := false; auth_uid := Some user |}.

(** [x || null] on a number *)
Definition or_null (x : Z) : option Z := if x =? 0 then None else Some x.

(** [.select('id').eq('user_id', user.id).single()]: the row when there is
    exactly one. *)
Definition single {A : Type} (l : list A) : option A :=
  match l with
  | [x] => Some x
  | _ => None
  end.

(** ** Vendors.tsx

    The page selects every column of [vendors]; the rows are taken from
    part_000, whose table has the stored [average_rating] and
    [total_ratings] that the page overwrites. *)

Module Vendors.

(** [{ ...vendor, total_ratings, average_rating }]: the fetched row with
    the two members overwritten. *)
Record Vendor : Type := {
  row : Part000.vendors.Row;
  total_ratings : Z;
  average_rating : Q
}.

(** [.order('created_at', { ascending: false })] *)
Fixpoint insert_desc (v : Part000.vendors.Row) (l : list Part000.vendors.Row)
    : list Part000.vendors.Row :=
  match l with
  | [] => [v]
  | x :: l' =>
      if Part000.vendors.created_at x <=? Part000.vendors.created_at v
      then v :: l
      else x :: insert_desc v l'
  end.

Definition order_created_at_desc (l : list Part000.vendors.Row)
    : list Part000.vendors.Row :=
  fold_right insert_desc [] l.

(** The body of the [map] callback; [ratings] is the [data] of the
    ratings query, null when the query failed. *)
Definition with_ratings (vendor : Part000.vendors.Row) (ratings : option (list Z))
    : Vendor :=
  let totalRatings :=
    match ratings with
    | Some l => COUNT l
    | None => 0
    end in
  let reduce := fold_left (fun sum r => sum + r) (or_default ratings []) 0 in
  let averageRating :=
    if 0 <? totalRatings
    then (inject_Z reduce / inject_Z totalRatings)%Q
    else 0%Q in
  {| row := vendor; total_ratings := totalRatings; average_rating := averageRating |}.

(** The value [fetchVendors] passes to [setVendors].  Both tables are
    readable by everyone. *)
Definition fetchVendors (db : Part000.DB) : list Vendor :=
  map (fun vendor =>
         with_ratings vendor
           (Some (Part000.ratings_of (Part000.vendors.id vendor) db)))
      (order_created_at_desc (Part000.vendors db)).


(** The registration form of the page, written against the columns of
    part_001; [area_id] is the empty string until an area is chosen. *)
Record FormData : Type := {
  business_name : string;
  food_type : string;
  location_details : string;
  area_id : option UUID;
  license_number : string
}.

(** The handler inserts the vendor and then marks the profile as a vendor;
    it does not look at the outcome of that second statement. *)
Definition handleSubmit (user : option UUID) (gen : UUID) (now : timestamptz)
    (formData : FormData) (db : Part001.DB) : Part001.DB * option toast :=
  match user with
  | None => (db, None)
  | Some u =>
      match single (filter (fun p => N.eqb (Part001.profiles.user_id p) u)
                      (Part001.profiles db)) with
      | None => (db, Some (Error Profile_not_found))
      | Some profile =>
          match area_id formData with
          | None => (db, Some (Error (Database invalid_text_representation)))
          | Some area =>
              match
                Part001.insert_vendor (client u)
                  {| Part001.vendors.id := gen;
                     Part001.vendors.profile_id := Part001.profiles.id profile;
                     Part001.vendors.business_name := business_name formData;
                     Part001.vendors.food_type := food_type formData;
                     Part001.vendors.location_details := location_details formData;
                     Part001.vendors.area_id := area;
                     Part001.vendors.license_number := Some (license_number formData);
                     Part001.vendors.is_verified := Some false;
                     Part001.vendors.created_at := now;
                     Part001.vendors.updated_at := now |}
                  db
              with
              | Err e => (db, Some (Error (Database e)))
              | Ok (db1, _) =>
                  (Part001.commit db1
                     (Part001.update_profile (client u) now
                        (Part001.profiles.id profile)
                        (Part001.profiles.set_user_type "vendor") db1),
                   Some Success)
              end
          end
      end
  end.

End Vendors.

(** ** Ratings.tsx, written against the columns of part_001 *)

Module Ratings.

(** [vendor_id] is the empty string until a vendor is chosen. *)
Record FormData : Type := {
  vendor_id : option UUID;
  rating : Z;
  review_text : string;
  food_quality_rating : Z;
  price_rating : Z;
  hygiene_rating : Z
}.

Definition handleSubmit (user : option UUID) (gen : UUID) (now : timestamptz)
    (formData : FormData) (db : Part001.DB) : Part001.DB * option toast :=
  match user with
  | None => (db, None)
  | Some u =>
      if rating formData =? 0 then (db, None)
      else
        match single (filter (fun p => N.eqb (Part001.profiles.user_id p) u)
                        (Part001.profiles db)) with
        | None => (db, Some (Error Profile_not_found))
        | Some profile =>
            match vendor_id formData with
            | None => (db, Some (Error (Database invalid_text_representation)))
            | Some vid =>
                match
                  Part001.insert_rating (client u)
                    {| Part001.ratings.id := gen;
                       Part001.ratings.reviewer_id := Part001.profiles.id profile;
                       Part001.ratings.vendor_id := vid;
                       Part001.ratings.rating := rating formData;
                       Part001.ratings.review_text := Some (review_text formData);
                       Part001.ratings.food_quality_rating :=
                         or_null (food_quality_rating formData);
                       Part001.ratings.price_rating := or_null (price_rating formData);
                       Part001.ratings.hygiene_rating :=
                         or_null (hygiene_rating formData);
                       Part001.ratings.created_at := now |}
                    db
                with
                | Ok (db', _) => (db', Some Success)
                | Err e => (db, Some (Error (Database e)))
                end
            end
        end
  end.

End Ratings.

(** ** The complaints page, written against the columns of part_000 *)

Module Complaints.

(** [category] and [area_id] are the empty string until chosen. *)
Record FormData : Type := {
  title : string;
  description : string;
  category : option Part000.complaint_category;
  area_id : option UUID;
  vendor_id : option UUID;
  priority : Z
}.

Definition handleSubmit (user : option UUID) (gen : UUID) (now : timestamptz)
    (formData : FormData) (db : Part000.DB) : Part000.DB * option toast :=
  match user with
  | None => (db, None)
  | Some u =>
      match single (filter (fun p => N.eqb (Part000.profiles.user_id p) u)
                      (Part000.profiles db)) with
      | None => (db, Some (Error Profile_not_found))
      | Some profile =>
          match category formData, area_id formData with
          | Some cat, Some area =>
              match
                Part000.insert_complaint (client u) gen now
                  {| Part000.complaints.Insert.id := None;
                     Part000.complaints.Insert.complainant_id :=
                       Part000.profiles.id profile;
                     Part000.complaints.Insert.vendor_id := vendor_id formData;
                     Part000.complaints.Insert.area_id := area;
                     Part000.complaints.Insert.category := cat;
                     Part000.complaints.Insert.title := title formData;
                     Part000.complaints.Insert.description := description formData;
                     Part000.complaints.Insert.status := None;
                     Part000.complaints.Insert.priority := Some (Some (priority formData));
                     Part000.complaints.Insert.assigned_to := None;
                     Part000.complaints.Insert.resolution_notes := None;
                     Part000.complaints.Insert.resolved_at := None;
                     Part000.complaints.Insert.created_at := None;
                     Part000.complaints.Insert.updated_at := None |}
                  db
              with
              | Ok (db', _) => (db', Some Success)
              | Err e => (db, Some (Error (Database e)))
              end
          | _, _ => (db, Some (Error (Database invalid_text_representation)))
          end
      end
  end.

End Complaints.

(** ** Dashboard.tsx *)

Module Dashboard.

Record Stats : Type := {
  totalComplaints : Z;
  pendingComplaints : Z;
  resolvedComplaints : Z;
  totalVendors : Z;
  totalRatings : Z;
  averageRating : Q
}.

(** The statuses, vendor ids and ratings the three queries return to the
    caller: [complaints] is read under its SELECT policy, the other two
    tables are readable by everyone. *)
Definition fetchStats (user : option UUID) (db : Part000.DB) : Stats :=
  let s := {| bypassrls := false; auth_uid := user |} in
  let complaints :=
    map Part000.complaints.status
      (filter (Part000.complaints_select_policy s db) (Part000.complaints db)) in
  let vendors := map Part000.vendors.id (Part000.vendors db) in
  let ratings := map Part000.ratings.rating (Part000.ratings db) in
  let reduce := fold_left (fun sum r => sum + r) ratings 0 in
  {| totalComplaints := COUNT complaints;
     pendingComplaints :=
       COUNT (filter (fun st => match st with Part000.pending => true | _ => false end)
                complaints);
     resolvedComplaints :=
       COUNT (filter (fun st => match st with Part000.resolved => true | _ => false end)
                complaints);
     totalVendors := COUNT vendors;
     totalRatings := COUNT ratings;
     averageRating :=
       if COUNT ratings =? 0 then 0%Q
       else (inject_Z reduce / inject_Z (COUNT ratings))%Q |}.

End Dashboard.

(** ** Profile.tsx *)

Module Profile.

(** [area_id] is the empty string when no area is chosen. *)
Record FormData : Type := {
  full_name : string;
  phone : string;
  area_id : option UUID
}.

(** The form updates the row of part_000's [profiles] whose [user_id] is
    the caller's. *)
Definition handleSubmit (user : option UUID) (now : timestamptz)
    (formData : FormData) (db : Part000.DB) : Part000.DB * option toast :=
  match user with
  | None => (db, None)
  | Some u =>
      match
        Part000.update_profile (client u) now u
          (Part000.profiles.set_contact (full_name formData)
             (Some (phone formData)) (area_id formData))
          db
      with
      | Ok (db', _) => (db', Some Success)
      | Err e => (db, Some (Error (Database e)))
      end
  end.

Record UserStats : Type := {
  complaintsCount : Z;
  ratingsCount : Z;
  vendorInfo : option Part001.vendors.Row
}.

(** The value [fetchUserStats] passes to [setStats], written against the
    columns of part_001; [None] when it returns before setting anything. *)
Definition fetchUserStats (user : option UUID) (db : Part001.DB) : option UserStats :=
  match user with
  | None => None
  | Some u =>
      match single (filter (fun p => N.eqb (Part001.profiles.user_id p) u)
                      (Part001.profiles db)) with
      | None => None
      | Some profile =>
          let pid := Part001.profiles.id profile in
          Some {| complaintsCount :=
                    COUNT (filter (fun c => N.eqb (Part001.complaints.complainant_id c) pid)
                             (Part001.complaints db));
                  ratingsCount :=
                    COUNT (filter (fun r => N.eqb (Part001.ratings.reviewer_id r) pid)
                             (Part001.ratings db));
                  vendorInfo :=
                    single (filter (fun v => N.eqb (Part001.vendors.profile_id v) pid)
                              (Part001.vendors db)) |}
      end
  end.

End Profile.

End Pages.

(** * Sample data *)

Module Sample.

Import Part000.

(** A session that row-level security does not restrict. *)
Definition service : Session := {| bypassrls := true; auth_uid := None |}.

Definition profile (i u : UUID) (r : user_role) : profiles.Row :=
  {| profiles.id := i; profiles.user_id := u; profiles.full_name := "Asha";
     profiles.phone := None; profiles.area_id := None; profiles.role := r;
     profiles.is_verified := Some false; profiles.created_at := 0;
     profiles.updated_at := 0 |}.

Definition area : areas.Row :=
  {| areas.id := 1%N; areas.name := "Guntur City"; areas.district := "Guntur";
     areas.state := "Andhra Pradesh"; areas.pincode := Some "522001"%string;
     areas.created_at := 0 |}.

(** A vendor as INSERT leaves it: average_rating 0.0, total_ratings 0. *)
Definition vendor_row (i p : UUID) : vendors.Row :=
  {| vendors.id := i; vendors.profile_id := p; vendors.business_name := "Chaat";
     vendors.license_number := None; vendors.area_id := 1%N;
     vendors.location_description := "Main road"; vendors.food_types := Some [];
     vendors.is_licensed := Some false; vendors.average_rating := Some 0;
     vendors.total_ratings := Some 0; vendors.created_at := 0;
     vendors.updated_at := 0 |}.

Definition rating_row (i v c : UUID) (x : Z) : ratings.Row :=
  {| ratings.id := i; ratings.vendor_id := v; ratings.customer_id := c;
     ratings.rating := x; ratings.review := None;
     ratings.food_quality_rating := None; ratings.price_rating := None;
     ratings.hygiene_rating := None; ratings.created_at := 0 |}.

(** Users 1 to 4 with profiles 11 to 14: a vendor owner, two consumers, an
    authority.  Vendors 21 and 22 belong to profile 11. *)
Definition db0 : DB :=
  {| auth_users := [1; 2; 3; 4]%N;
     areas := [area];
     profiles := [profile 11 1 vendor; profile 12 2 consumer;
                  profile 13 3 consumer; profile 14 4 authority];
     vendors := [vendor_row 21 11; vendor_row 22 11];
     complaints := [];
     ratings := [] |}.

(** What the complaints page sends for a complaint about vendor 21. *)
Definition complaint_form : Pages.Complaints.FormData :=
  {| Pages.Complaints.title := "Stale oil";
     Pages.Complaints.description := "Oil reused for days";
     Pages.Complaints.category := Some hygiene;
     Pages.Complaints.area_id := Some 1%N;
     Pages.Complaints.vendor_id := Some 21%N;
     Pages.Complaints.priority := 1 |}.

(** [db0] after user 2 has filed that complaint, stored with id 41. *)
Definition db_complaint : DB :=
  fst (Pages.Complaints.handleSubmit (Some 2%N) 41 200 complaint_form db0).

End Sample.

Module Sample001.

Import Part001.

Definition user (i : UUID) : auth_users.Row :=
  {| auth_users.id := i; auth_users.phone := Some "9000000000"%string;
     auth_users.raw_user_meta_data := Some [("full_name", "Ravi")]%string |}.

(** An identity created with a phone number and no metadata. *)
Definition user_without_name (i : UUID) : auth_users.Row :=
  {| auth_users.id := i; auth_users.phone := Some "9000000001"%string;
     auth_users.raw_user_meta_data := None |}.

Definition profile (i u : UUID) : profiles.Row :=
  {| profiles.id := i; profiles.user_id := u; profiles.full_name := "Ravi";
     profiles.phone := None; profiles.area_id := None;
     profiles.user_type := "consumer"; profiles.created_at := 0;
     profiles.updated_at := 0 |}.

Definition area : areas.Row :=
  {| areas.id := 1%N; areas.name := "Guntur City"; areas.district := "Guntur";
     areas.state := "Andhra Pradesh"; areas.created_at := 0 |}.

Definition vendor_row (i p : UUID) : vendors.Row :=
  {| vendors.id := i; vendors.profile_id := p; vendors.business_name := "Chaat";
     vendors.food_type := "Snacks"; vendors.location_details := "Main road";
     vendors.area_id := 1%N; vendors.license_number := None;
     vendors.is_verified := Some false; vendors.created_at := 0;
     vendors.updated_at := 0 |}.

Definition complaint_row (i c : UUID) (v : option UUID) : complaints.Row :=
  {| complaints.id := i; complaints.complainant_id := c; complaints.vendor_id := v;
     complaints.area_id := 1%N; complaints.title := "Stale oil";
     complaints.description := "Oil reused for days";
     complaints.complaint_type := "hygiene"; complaints.status := "pending";
     complaints.priority := "medium"; complaints.created_at := 0;
     complaints.updated_at := 0 |}.

Definition rating_row (i c v : UUID) (x : Z) : ratings.Row :=
  {| ratings.id := i; ratings.reviewer_id := c; ratings.vendor_id := v;
     ratings.rating := x; ratings.review_text := None;
     ratings.food_quality_rating := None; ratings.price_rating := None;
     ratings.hygiene_rating := None; ratings.created_at := 0 |}.

(** Users 1 and 2 with profiles 11 and 12; vendor 21 of profile 11;
    complaints 41 (about vendor 21) and 42 (about no vendor) and rating 31,
    all by profile 12. *)
Definition db0 : DB :=
  {| auth_users := [user 1; user 2];
     areas := [area];
     profiles := [profile 11 1; profile 12 2];
     vendors := [vendor_row 21 11];
     complaints := [complaint_row 41 12 (Some 21%N); complaint_row 42 12 None];
     ratings := [rating_row 31 12 21 4] |}.

Definition rating_form (x : Z) : Pages.Ratings.FormData :=
  {| Pages.Ratings.vendor_id := Some 21%N; Pages.Ratings.rating := x;
     Pages.Ratings.review_text := "Good"; Pages.Ratings.food_quality_rating := 0;
     Pages.Ratings.price_rating := 0; Pages.Ratings.hygiene_rating := 0 |}.

End Sample001.

(** * What the specification asks of the roll-up *)

Module Spec.

Import Part000.

(** The arithmetic mean of a non-empty list of ratings. *)
Definition mean (l : list Z) : Q := SUM l # Pos.of_nat (length l).

(** Vendor [vid] is in sync: its [total_ratings] is the number of rating
    rows naming it, and its [average_rating] is a one-decimal number within
    half a tenth of their mean, 0.0 when there are none. *)
Definition in_sync (vid : UUID) (db : DB) : Prop :=
  forall v, In v (vendors db) -> vendors.id v = vid ->
    vendors.total_ratings v = Some (COUNT (ratings_of vid db)) /\
    match ratings_of vid db with
    | [] => vendors.average_rating v = Some 0
    | l => exists a, vendors.average_rating v = Some a /\
                     (Qabs (mean l - decimal1_to_Q a) <= 1 # 20)%Q
    end.

(** The session's UPDATE policy on [vendors] admits the rows of [vid]. *)
Definition may_update_vendor (s : Session) (db : DB) (vid : UUID) : Prop :=
  forall v, In v (vendors db) -> vendors.id v = vid ->
    vendors_update_policy s db v = true.


(** The foreign key of [profiles.user_id] holds in a part_001 database. *)
Definition profiles_have_users (db : Part001.DB) : Prop :=
  forall p, In p (Part001.profiles db) ->
    In (Part001.profiles.user_id p)
       (map Part001.auth_users.id (Part001.auth_users db)).


(** The primary key, the UNIQUE pair and the CHECKs of part_000's [ratings]
    hold of the stored rows. *)
Definition ratings_constraints (db : DB) : Prop :=
  NoDup (map ratings.id (ratings db)) /\
  NoDup (map (fun r => (ratings.vendor_id r, ratings.customer_id r)) (ratings db)) /\
  Forall (fun r => ratings_check r = true) (ratings db).

(** Every rating and complaint of part_000 names existing rows. *)
Definition references_hold (db : DB) : Prop :=
  Forall (fun r => ratings_fkeys r db = true) (ratings db) /\
  Forall (fun c => complaints_fkeys c db = true) (complaints db).

(** The primary key of part_000's [vendors] holds. *)
Definition vendors_key (db : DB) : Prop := NoDup (map vendors.id (vendors db)).

(** The keys of part_000's [profiles] hold, and their references. *)
Definition profiles_constraints (db : DB) : Prop :=
  NoDup (map profiles.id (profiles db)) /\
  NoDup (map profiles.user_id (profiles db)) /\
  Forall (fun p => profiles_fkeys p db = true) (profiles db).

(** In a part_001 database: no reviewer has two ratings of one vendor, and
    every rating names a stored vendor. *)
Definition one_rating_per_vendor (db : Part001.DB) : Prop :=
  NoDup (map (fun r => (Part001.ratings.reviewer_id r, Part001.ratings.vendor_id r))
           (Part001.ratings db)).

Definition ratings_name_vendors (db : Part001.DB) : Prop :=
  forall r, In r (Part001.ratings db) ->
    In (Part001.ratings.vendor_id r) (map Part001.vendors.id (Part001.vendors db)).

(** The keys and references of part_001's [profiles] hold. *)
Definition profiles001_constraints (db : Part001.DB) : Prop :=
  NoDup (map Part001.profiles.id (Part001.profiles db)) /\
  NoDup (map Part001.profiles.user_id (Part001.profiles db)) /\
  Forall (fun p => Part001.profiles_check p = true
                   /\ Part001.profiles_fkeys p db = true)
    (Part001.profiles db).




(** Every profile, vendor, complaint and rating of part_001 names existing
    rows. *)
Definition references001_hold (db : Part001.DB) : Prop :=
  Forall (fun p => Part001.profiles_fkeys p db = true) (Part001.profiles db) /\
  Forall (fun v => Part001.vendors_fkeys v db = true) (Part001.vendors db) /\
  Forall (fun c => Part001.complaints_fkeys c db = true) (Part001.complaints db) /\
  Forall (fun r => Part001.ratings_fkeys r db = true) (Part001.ratings db).

End Spec.

(** * Properties of the rating roll-up *)

Section RatingRollup.

Import Part000 Sample.

(** ** Rounding *)

Lemma round1_tenths (n : Z) (d : positive) :
  2 * Z.abs (10 * n - round1 (n # d) * Z.pos d) <= Z.pos d.
Proof.
  unfold round1; cbn [Qnum Qden].
  destruct (Z.leb_spec 0 n) as [Hn | Hn].
  - pose proof (Z.div_mod (20 * n + Z.pos d) (2 * Z.pos d) ltac:(lia)) as E.
    pose proof (Z.mod_pos_bound (20 * n + Z.pos d) (2 * Z.pos d) ltac:(lia)) as B.
    lia.
  - pose proof (Z.div_mod (20 * - n + Z.pos d) (2 * Z.pos d) ltac:(lia)) as E.
    pose proof (Z.mod_pos_bound (20 * - n + Z.pos d) (2 * Z.pos d) ltac:(lia)) as B.
    lia.
Qed.

(** ROUND(q, 1) is within half a tenth of [q]. *)
Lemma round1_nearest (q : Q) :
  (Qabs (q - decimal1_to_Q (round1 q)) <= 1 # 20)%Q.
Proof.
  destruct q as [n d].
  pose proof (round1_tenths n d) as H.
  unfold Qle, Qabs, Qminus, Qplus, Qopp, decimal1_to_Q. cbn [Qnum Qden].
  set (t := round1 (n # d)) in *.
  rewrite Pos2Z.inj_mul. lia.
Qed.

(** ** The trigger *)

Lemma bind_guard_ok {A : Type} (b : bool) (e : sqlstate) (k : result A) (x : A) :
  (check b else e ;; k) = Ok x -> b = true /\ k = Ok x.
Proof. destruct b; cbn; [auto | discriminate]. Qed.

Lemma trigger_ratings s now NEW OLD db :
  ratings (update_vendor_rating s now NEW OLD db) = ratings db.
Proof. unfold update_vendor_rating. destruct COALESCE; reflexivity. Qed.

Lemma trigger_ratings_of s now NEW OLD db t :
  ratings_of t (update_vendor_rating s now NEW OLD db) = ratings_of t db.
Proof. unfold ratings_of. now rewrite trigger_ratings. Qed.

(** The rows of the target vendor that the session may update carry the
    recomputed pair. *)
Lemma trigger_recomputes s now NEW OLD db t :
  COALESCE (option_map ratings.vendor_id NEW) (option_map ratings.vendor_id OLD)
    = Some t ->
  Spec.may_update_vendor s db t ->
  forall v, In v (vendors (update_vendor_rating s now NEW OLD db)) ->
    vendors.id v = t ->
    vendors.total_ratings v = Some (COUNT (ratings_of t db)) /\
    vendors.average_rating v = ROUND1 (AVG (ratings_of t db)).
Proof.
  intros Ht Hm v Hin Hid. unfold update_vendor_rating in Hin. rewrite Ht in Hin.
  cbn in Hin. apply in_map_iff in Hin as [v0 [Hv0 Hin0]].
  destruct (N.eqb_spec (vendors.id v0) t) as [E | E].
  - rewrite (Hm v0 Hin0 E) in Hv0. cbn in Hv0. subst v. cbn. auto.
  - cbn in Hv0. subst v0. contradiction.
Qed.

(** Every other vendor row is left as it was. *)
Lemma trigger_spares_other_vendors s now NEW OLD db v :
  In v (vendors db) ->
  COALESCE (option_map ratings.vendor_id NEW) (option_map ratings.vendor_id OLD)
    <> Some (vendors.id v) ->
  In v (vendors (update_vendor_rating s now NEW OLD db)).
Proof.
  intros Hin Hne. unfold update_vendor_rating.
  destruct COALESCE as [t |]; [| exact Hin].
  cbn. apply in_map_iff. exists v. split; [| exact Hin].
  destruct (N.eqb_spec (vendors.id v) t) as [E | E]; [| reflexivity].
  subst t. contradiction.
Qed.

(** A session whose policy admits no row of the target changes nothing:
    the function is not SECURITY DEFINER. *)
Lemma trigger_under_row_security s now NEW OLD db :
  (forall v, In v (vendors db) -> vendors_update_policy s db v = false) ->
  vendors (update_vendor_rating s now NEW OLD db) = vendors db.
Proof.
  intros H. unfold update_vendor_rating. destruct COALESCE as [t |]; [| reflexivity].
  cbn. rewrite <- (map_id (vendors db)) at 2. apply map_ext_in.
  intros v Hin. rewrite (H v Hin), andb_false_r. reflexivity.
Qed.

(** An INSERT by a session that may update the vendor leaves it in sync. *)
Lemma insert_rating_in_sync s now r db db' n :
  insert_rating s now r db = Ok (db', n) ->
  Spec.may_update_vendor s db (ratings.vendor_id r) ->
  Spec.in_sync (ratings.vendor_id r) db'.
Proof.
  unfold insert_rating. intros H Hm.
  apply bind_guard_ok in H as [_ H]. apply bind_guard_ok in H as [_ H].
  apply bind_guard_ok in H as [_ H]. apply bind_guard_ok in H as [_ H].
  injection H as <- _.
  set (db1 := with_ratings (ratings db ++ [r]) db).
  intros v Hin Hid.
  destruct (trigger_recomputes s now (Some r) None db1 (ratings.vendor_id r)
              eq_refl Hm v Hin Hid) as [Ht Ha].
  rewrite trigger_ratings_of. split; [exact Ht |].
  assert (Hne : ratings_of (ratings.vendor_id r) db1 <> []).
  { unfold ratings_of, db1. cbn. rewrite filter_app. cbn. rewrite N.eqb_refl.
    rewrite map_app. cbn. intros C. apply app_eq_nil in C as [_ C]. discriminate. }
  destruct (ratings_of (ratings.vendor_id r) db1) as [| x l] eqn:El; [contradiction |].
  exists (round1 (Spec.mean (x :: l))). split; [exact Ha | apply round1_nearest].
Qed.

(** An UPDATE that moves a rating leaves the rows of every vendor but the
    new one as they were, the old vendor's among them. *)
Lemma update_rating_spares_old_vendor s now rid set db db' n old v :
  find (fun r => N.eqb (ratings.id r) rid) (ratings db) = Some old ->
  update_rating s now rid set db = Ok (db', n) ->
  In v (vendors db) ->
  vendors.id v <> ratings.vendor_id (set old) ->
  In v (vendors db').
Proof.
  intros Hf H Hin Hne. unfold update_rating in H. rewrite Hf in H.
  destruct (ratings_write_policy s db old).
  - apply bind_guard_ok in H as [_ H]. apply bind_guard_ok in H as [_ H].
    apply bind_guard_ok in H as [_ H]. apply bind_guard_ok in H as [_ H].
    injection H as <- _.
    apply trigger_spares_other_vendors; [exact Hin |].
    cbn. intros C. injection C as C. congruence.
  - injection H as <- _. exact Hin.
Qed.

(** An UPDATE that reaches the row, and a DELETE, recompute the vendor the
    trigger aims at: the new [vendor_id] after an UPDATE, the old one after
    a DELETE. *)
Lemma update_rating_recomputes_new_vendor s now rid set db db' old v :
  find (fun r => N.eqb (ratings.id r) rid) (ratings db) = Some old ->
  update_rating s now rid set db = Ok (db', 1%nat) ->
  Spec.may_update_vendor s db (ratings.vendor_id (set old)) ->
  In v (vendors db') -> vendors.id v = ratings.vendor_id (set old) ->
  vendors.total_ratings v = Some (COUNT (ratings_of (vendors.id v) db')) /\
  vendors.average_rating v = ROUND1 (AVG (ratings_of (vendors.id v) db')).
Proof.
  intros Hf H Hm Hin Hid. unfold update_rating in H. rewrite Hf in H.
  destruct (ratings_write_policy s db old); [| discriminate].
  apply bind_guard_ok in H as [_ H]. apply bind_guard_ok in H as [_ H].
  apply bind_guard_ok in H as [_ H]. apply bind_guard_ok in H as [_ H].
  injection H as <-. rewrite Hid, trigger_ratings_of.
  match type of Hin with
  | In _ (vendors (update_vendor_rating _ _ _ _ ?d)) =>
      exact (trigger_recomputes s now (Some (set old)) (Some old) d
               (ratings.vendor_id (set old)) eq_refl Hm v Hin Hid)
  end.
Qed.

Lemma delete_rating_recomputes_old_vendor s now rid db db' old v :
  find (fun r => N.eqb (ratings.id r) rid) (ratings db) = Some old ->
  delete_rating s now rid db = Ok (db', 1%nat) ->
  In v (vendors db') -> vendors.id v = ratings.vendor_id old ->
  vendors.total_ratings v = Some (COUNT (ratings_of (vendors.id v) db')) /\
  vendors.average_rating v = ROUND1 (AVG (ratings_of (vendors.id v) db')).
Proof.
  intros Hf H Hin Hid. unfold delete_rating, delete_policy in H. rewrite Hf in H.
  destruct (bypassrls s) eqn:Hs; [| discriminate].
  injection H as <-. rewrite Hid, trigger_ratings_of.
  match type of Hin with
  | In _ (vendors (update_vendor_rating _ _ _ _ ?d)) =>
      refine (trigger_recomputes s now None (Some old) d
                (ratings.vendor_id old) eq_refl _ v Hin Hid)
  end.
  intros w _ _. unfold vendors_update_policy. rewrite Hs. reflexivity.
Qed.

(** Recomputing a vendor that no rating names stores NULL and 0. *)
Lemma trigger_on_no_ratings s now NEW OLD db t v :
  COALESCE (option_map ratings.vendor_id NEW) (option_map ratings.vendor_id OLD)
    = Some t ->
  Spec.may_update_vendor s db t ->
  ratings_of t db = [] ->
  In v (vendors (update_vendor_rating s now NEW OLD db)) ->
  vendors.id v = t ->
  vendors.average_rating v = None /\ vendors.total_ratings v = Some 0.
Proof.
  intros Ht Hm He Hin Hid.
  destruct (trigger_recomputes s now NEW OLD db t Ht Hm v Hin Hid) as [Hn Ha].
  rewrite He in Hn, Ha. auto.
Qed.

(** A consumer signed in through the pages rates vendor 21, which belongs
    to another user: the row is stored and the vendor's pair stays
    (0.0, 0). *)
Example rating_by_another_user_is_not_rolled_up :
  let db1 :=
    commit db0 (insert_rating (Pages.client 2) 100 (rating_row 31 21 12 4) db0) in
  ratings_of 21 db1 = [4] /\ aggregate 21 db1 = Some (Some 0, Some 0).
Proof. vm_compute. split; reflexivity. Qed.

(** C1 (code defect).  The walk-through of the specification holds step by
    step when the statements run unrestricted: 4 gives (4.0, 1), then 2 gives
    (3.0, 2), the first changed to 5 gives (3.5, 2), the second deleted
    gives (5.0, 1).  But when the remaining rating is then moved to vendor
    22, vendor 21 keeps (5.0, 1) although no rating row names it any more:
    its stored count is not the count of its rows. *)
Theorem C1_aggregate_drifts_from_rating_rows :
  let db1 := commit db0 (insert_rating service 100 (rating_row 31 21 12 4) db0) in
  let db2 := commit db1 (insert_rating service 101 (rating_row 32 21 13 2) db1) in
  let db3 := commit db2 (update_rating service 102 31 (ratings.set_rating 5) db2) in
  let db4 := commit db3 (delete_rating service 103 32 db3) in
  let db5 := commit db4 (update_rating service 104 31 (ratings.set_vendor_id 22) db4) in
  aggregate 21 db1 = Some (Some 40, Some 1) /\
  aggregate 21 db2 = Some (Some 30, Some 2) /\
  aggregate 21 db3 = Some (Some 35, Some 2) /\
  aggregate 21 db4 = Some (Some 50, Some 1) /\
  ratings_of 21 db5 = [] /\
  aggregate 21 db5 = Some (Some 50, Some 1).
Proof. vm_compute. repeat split; reflexivity. Qed.

(** C2 (code defect).  Moving a rating from vendor 21 to vendor 22 by an
    UPDATE stores the same rating rows as deleting it and inserting it for
    vendor 22, and vendor 22 is recomputed either way; vendor 21 is
    recomputed by the DELETE only, and keeps its old pair after the
    UPDATE. *)
Theorem C2_retarget_recomputes_new_vendor_only :
  let db1 := commit db0 (insert_rating service 100 (rating_row 31 21 12 4) db0) in
  let updated := commit db1 (update_rating service 101 31 (ratings.set_vendor_id 22) db1) in
  let deleted := commit db1 (delete_rating service 101 31 db1) in
  let reinserted :=
    commit deleted (insert_rating service 101 (rating_row 31 22 12 4) deleted) in
  ratings updated = ratings reinserted /\
  aggregate 22 updated = Some (Some 40, Some 1) /\
  aggregate 22 reinserted = Some (Some 40, Some 1) /\
  aggregate 21 reinserted = Some (None, Some 0) /\
  aggregate 21 updated = Some (Some 40, Some 1).
Proof. vm_compute. repeat split; reflexivity. Qed.

(** C3 (code defect).  Deleting the only rating of vendor 21 leaves it with
    total_ratings 0 and average_rating NULL, not 0.0. *)
Theorem C3_no_ratings_left_average_is_null :
  let db1 := commit db0 (insert_rating service 100 (rating_row 31 21 12 4) db0) in
  let db2 := commit db1 (delete_rating service 101 31 db1) in
  aggregate 21 db0 = Some (Some 0, Some 0) /\
  ratings_of 21 db2 = [] /\
  aggregate 21 db2 = Some (None, Some 0).
Proof. vm_compute. repeat split; reflexivity. Qed.

End RatingRollup.

(** * Constraints on rating rows *)

Section RatingConstraints.

Import Part000 Sample.

Lemma in_1_5_iff (x : Z) : in_1_5 x = true <-> 1 <= x <= 5.
Proof. unfold in_1_5. rewrite andb_true_iff, !Z.leb_le. tauto. Qed.


(** C4.  When a rating row for the same (vendor, customer) pair exists, an
    INSERT of another one never succeeds; from a caller the INSERT policy
    admits and with values in range it is aborted with unique_violation;
    and the database after the attempt is the database before it. *)
Theorem C4_second_rating_for_pair_is_a_conflict
    (s : Session) (now : timestamptz) (r : ratings.Row) (db : DB) :
  existsb (same_pair r) (ratings db) = true ->
  (ratings_write_policy s db r = true -> ratings_check r = true ->
   insert_rating s now r db = Err unique_violation) /\
  (exists e, insert_rating s now r db = Err e) /\
  commit db (insert_rating s now r db) = db.
Proof.
  intros Hdup.
  assert (Hu : ratings_unique r (ratings db) = false).
  { unfold ratings_unique. rewrite Hdup. apply andb_false_r. }
  unfold insert_rating. rewrite Hu.
  destruct (ratings_write_policy s db r), (ratings_check r); cbn;
    repeat split; eauto; intros; discriminate.
Qed.

(** After profile 12 has rated vendor 21, its second rating of that vendor
    is refused with unique_violation and changes nothing. *)
Lemma C4_witness :
  let db1 := commit db0 (insert_rating service 100 (rating_row 31 21 12 4) db0) in
  ratings db1 = [rating_row 31 21 12 4] /\
  insert_rating (Pages.client 2) 101 (rating_row 32 21 12 5) db1 = Err unique_violation /\
  commit db1 (insert_rating (Pages.client 2) 101 (rating_row 32 21 12 5) db1) = db1.
Proof.
  intros db1. split; [reflexivity |].
  destruct (C4_second_rating_for_pair_is_a_conflict
              (Pages.client 2) 101 (rating_row 32 21 12 5) db1 eq_refl)
    as [Hconflict [_ Hsame]].
  split; [apply Hconflict; reflexivity | exact Hsame].
Defined.



(** ** The same constraints under part_001, through the ratings page *)

Lemma or_null_in_range (x : Z) :
  0 <= x <= 5 -> null_or_in_1_5 (Pages.or_null x) = true.
Proof.
  intros H. unfold Pages.or_null. destruct (Z.eqb_spec x 0); [reflexivity |].
  cbn. apply in_1_5_iff. lia.
Qed.

Lemma single_inv {A : Type} (l : list A) (x : A) :
  Pages.single l = Some x -> l = [x].
Proof.
  destruct l as [| a [| b l]]; cbn; intros H; try discriminate.
  injection H as <-. reflexivity.
Qed.

(** A user who has rated a vendor and submits the form for it again gets
    the destructive toast with unique_violation; nothing is stored. *)
Lemma ratings_page_reports_the_conflict
    (u gen : UUID) (now : timestamptz) (formData : Pages.Ratings.FormData)
    (db : Part001.DB) (profile : Part001.profiles.Row) (vid : UUID)
    (r0 : Part001.ratings.Row) :
  Pages.single (filter (fun p => N.eqb (Part001.profiles.user_id p) u)
                  (Part001.profiles db)) = Some profile ->
  Pages.Ratings.vendor_id formData = Some vid ->
  1 <= Pages.Ratings.rating formData <= 5 ->
  0 <= Pages.Ratings.food_quality_rating formData <= 5 ->
  0 <= Pages.Ratings.price_rating formData <= 5 ->
  0 <= Pages.Ratings.hygiene_rating formData <= 5 ->
  In r0 (Part001.ratings db) ->
  Part001.ratings.reviewer_id r0 = Part001.profiles.id profile ->
  Part001.ratings.vendor_id r0 = vid ->
  Pages.Ratings.handleSubmit (Some u) gen now formData db
  = (db, Some (Pages.Error (Pages.Database unique_violation))).
Proof.
  intros Hp Hv Hr Hq Hc Hh Hin Hrev Hvid. unfold Pages.Ratings.handleSubmit.
  destruct (Z.eqb_spec (Pages.Ratings.rating formData) 0) as [E | _]; [lia |].
  rewrite Hp, Hv. unfold Part001.insert_rating.
  assert (Hown : Part001.ratings_insert_policy (Pages.client u) db
                   {| Part001.ratings.id := gen;
                      Part001.ratings.reviewer_id := Part001.profiles.id profile;
                      Part001.ratings.vendor_id := vid;
                      Part001.ratings.rating := Pages.Ratings.rating formData;
                      Part001.ratings.review_text :=
                        Some (Pages.Ratings.review_text formData);
                      Part001.ratings.food_quality_rating :=
                        Pages.or_null (Pages.Ratings.food_quality_rating formData);
                      Part001.ratings.price_rating :=
                        Pages.or_null (Pages.Ratings.price_rating formData);
                      Part001.ratings.hygiene_rating :=
                        Pages.or_null (Pages.Ratings.hygiene_rating formData);
                      Part001.ratings.created_at := now |} = true).
  { unfold Part001.ratings_insert_policy, Part001.owns_profile. cbn.
    apply existsb_exists. exists profile.
    apply single_inv in Hp.
    assert (Hm : In profile
                   (filter (fun p => N.eqb (Part001.profiles.user_id p) u)
                      (Part001.profiles db))) by (rewrite Hp; left; reflexivity).
    apply filter_In in Hm as [Hm Hu]. split; [exact Hm |].
    rewrite N.eqb_refl. exact Hu. }
  rewrite Hown. cbn [guard bind].
  unfold Part001.ratings_check. cbn [Part001.ratings.rating
    Part001.ratings.food_quality_rating Part001.ratings.price_rating
    Part001.ratings.hygiene_rating].
  rewrite (proj2 (in_1_5_iff _) Hr), !or_null_in_range by assumption.
  cbn [andb guard bind].
  replace (Part001.ratings_unique _ (Part001.ratings db)) with false; [reflexivity |].
  symmetry. unfold Part001.ratings_unique.
  replace (existsb (Part001.same_pair _) (Part001.ratings db)) with true;
    [apply andb_false_r |].
  symmetry. apply existsb_exists. exists r0. split; [exact Hin |].
  unfold Part001.same_pair. cbn. rewrite Hrev, Hvid, !N.eqb_refl. reflexivity.
Qed.

End RatingConstraints.

(** * Complaints *)

Section Complaints.

Import Sample.

(** C5, as stated, fails under part_000: user 2 owns profile 12, the
    complainant of complaint 41, and has no elevated role; the UPDATE of
    that complaint changes no row, and it raises nothing. *)
Lemma C5_counterexample :
  In 12%N (Part000.own_profiles (Pages.client 2) db_complaint) /\
  map (fun c => (Part000.complaints.id c, Part000.complaints.complainant_id c))
    (Part000.complaints db_complaint) = [(41%N, 12%N)] /\
  Part000.update_complaint (Pages.client 2) 300 41
    (Part000.complaints.set_status Part000.investigating) db_complaint
  = Ok (db_complaint, 0%nat).
Proof. vm_compute. repeat split; auto. Qed.

(** C5, amended.  Under part_000 the UPDATE of an existing complaint by a
    caller subject to row-level security reaches the row exactly when the
    caller has a profile with role authority or admin; under part_001,
    exactly when the caller owns the complainant profile.  A caller the
    policy does not admit changes no row and gets no error; a caller it
    admits, whose new row passes the policy, the CHECKs and the keys,
    rewrites the row, stamped with the time of the update. *)
Theorem C5_complaint_update_follows_the_migration_policy :
  (forall (s : Session) (now : timestamptz) (cid : UUID)
          (set : Part000.complaints.Row -> Part000.complaints.Row)
          (db : Part000.DB) (old : Part000.complaints.Row),
      bypassrls s = false ->
      find (fun c => N.eqb (Part000.complaints.id c) cid) (Part000.complaints db)
        = Some old ->
      (Part000.has_elevated_role s db = false ->
       Part000.update_complaint s now cid set db = Ok (db, 0%nat)) /\
      (Part000.has_elevated_role s db = true ->
       let new := Part000.complaints.set_updated_at now (set old) in
       Part000.complaints_unique new
         (filter (fun c => negb (N.eqb (Part000.complaints.id c) cid))
            (Part000.complaints db)) = true ->
       Part000.complaints_fkeys new db = true ->
       Part000.update_complaint s now cid set db
       = Ok (Part000.with_complaints
               (map (fun c => if N.eqb (Part000.complaints.id c) cid then new else c)
                  (Part000.complaints db)) db, 1%nat))) /\
  (forall (s : Session) (now : timestamptz) (cid : UUID)
          (set : Part001.complaints.Row -> Part001.complaints.Row)
          (db : Part001.DB) (old : Part001.complaints.Row),
      bypassrls s = false ->
      find (fun c => N.eqb (Part001.complaints.id c) cid) (Part001.complaints db)
        = Some old ->
      (Part001.owns_profile s db (Part001.complaints.complainant_id old) = false ->
       Part001.update_complaint s now cid set db = Ok (db, 0%nat)) /\
      (Part001.owns_profile s db (Part001.complaints.complainant_id old) = true ->
       let new := Part001.complaints.set_updated_at now (set old) in
       Part001.owns_profile s db (Part001.complaints.complainant_id new) = true ->
       Part001.complaints_check new = true ->
       Part001.complaints_unique new
         (filter (fun c => negb (N.eqb (Part001.complaints.id c) cid))
            (Part001.complaints db)) = true ->
       Part001.complaints_fkeys new db = true ->
       Part001.update_complaint s now cid set db
       = Ok (Part001.with_complaints
               (map (fun c => if N.eqb (Part001.complaints.id c) cid then new else c)
                  (Part001.complaints db)) db, 1%nat))).
Proof.
  split; intros s now cid set db old Hs Hf; split.
  - intros He. unfold Part000.update_complaint, Part000.complaints_update_policy.
    rewrite Hf, Hs, He. reflexivity.
  - intros He new Hu Hk.
    unfold Part000.update_complaint, Part000.complaints_update_policy,
      Part000.update_updated_at_column.
    rewrite Hf, Hs, He. cbn [orb]. fold new. rewrite Hu, Hk. reflexivity.
  - intros Ho. unfold Part001.update_complaint, Part001.complaints_update_policy.
    rewrite Hf, Hs, Ho. reflexivity.
  - intros Ho new Hn Hc Hu Hk.
    unfold Part001.update_complaint, Part001.complaints_update_policy,
      Part001.update_updated_at_column.
    rewrite Hf, Hs, Ho. cbn [orb]. fold new. rewrite Hn, Hc, Hu, Hk. reflexivity.
Qed.

(** Under part_000 the complainant (user 2) reaches no row and the
    authority (user 4) one; under part_001 the vendor's owner (user 1)
    reaches no row and the complainant (user 2) one. *)
Lemma C5_witness :
  (Part000.update_complaint (Pages.client 2) 300 41
     (Part000.complaints.set_status Part000.investigating) db_complaint
   = Ok (db_complaint, 0%nat) /\
   exists db', Part000.update_complaint (Pages.client 4) 300 41
                 (Part000.complaints.set_status Part000.investigating) db_complaint
               = Ok (db', 1%nat)) /\
  (Part001.update_complaint (Pages.client 1) 300 41
     (Part001.complaints.set_status "investigating") Sample001.db0
   = Ok (Sample001.db0, 0%nat) /\
   exists db', Part001.update_complaint (Pages.client 2) 300 41
                 (Part001.complaints.set_status "investigating") Sample001.db0
               = Ok (db', 1%nat)).
Proof.
  destruct C5_complaint_update_follows_the_migration_policy as [H0 H1].
  split; split.
  - apply (H0 (Pages.client 2) 300 41%N _ db_complaint _ eq_refl eq_refl). reflexivity.
  - eexists.
    apply (H0 (Pages.client 4) 300 41%N _ db_complaint _ eq_refl eq_refl); reflexivity.
  - apply (H1 (Pages.client 1) 300 41%N _ Sample001.db0 _ eq_refl eq_refl). reflexivity.
  - eexists.
    apply (H1 (Pages.client 2) 300 41%N _ Sample001.db0 _ eq_refl eq_refl); reflexivity.
Defined.

(** ** resolved_at and status *)

(** C6, as stated, fails: after the authority (user 4) sets complaint 41 to
    resolved, the stored row is resolved with a NULL resolved_at. *)
Lemma C6_counterexample :
  let db1 :=
    Part000.commit db_complaint
      (Part000.update_complaint (Pages.client 4) 300 41
         (Part000.complaints.set_status Part000.resolved) db_complaint) in
  map (fun c => (Part000.complaints.id c, Part000.complaints.status c,
                 Part000.complaints.resolved_at c))
    (Part000.complaints db1) = [(41%N, Part000.resolved, None)] /\
  forallb Part000.resolved_at_coherent (Part000.complaints db1) = false.
Proof. vm_compute. split; reflexivity. Qed.

Lemma forallb_replace {A : Type} (p q : A -> bool) (new : A) (l : list A) :
  forallb p l = true -> p new = true ->
  forallb p (map (fun x => if q x then new else x) l) = true.
Proof.
  intros Hl Hn. induction l as [| x l IH]; [reflexivity |].
  cbn in *. apply andb_true_iff in Hl as [Hx Hl].
  rewrite (IH Hl), andb_true_r. destruct (q x); assumption.
Qed.

Lemma insert_with_defaults_keeps_coherent (db : Part000.DB) s gen now i :
  forallb Part000.resolved_at_coherent (Part000.complaints db) = true ->
  Part000.complaints.Insert.status i = None ->
  Part000.complaints.Insert.resolved_at i = None ->
  forallb Part000.resolved_at_coherent
    (Part000.complaints
       (Part000.commit db (Part000.insert_complaint s gen now i db))) = true.
Proof.
  intros Hdb Hst Hat. unfold Part000.insert_complaint.
  destruct (Part000.complaints_insert_policy s db _); [| exact Hdb].
  destruct (Part000.complaints_unique _ _); [| exact Hdb].
  destruct (Part000.complaints_fkeys _ db); [| exact Hdb].
  cbn. rewrite forallb_app, Hdb. cbn.
  unfold Part000.resolved_at_coherent, Part000.complaints.of_insert. cbn.
  rewrite Hst, Hat. reflexivity.
Qed.

Lemma update_keeps_coherent (db : Part000.DB) s now cid set :
  forallb Part000.resolved_at_coherent (Part000.complaints db) = true ->
  (forall c, Part000.resolved_at_coherent c = true ->
             Part000.resolved_at_coherent (set c) = true) ->
  forallb Part000.resolved_at_coherent
    (Part000.complaints
       (Part000.commit db (Part000.update_complaint s now cid set db))) = true.
Proof.
  intros Hdb Hset. unfold Part000.update_complaint.
  destruct (find _ (Part000.complaints db)) as [old |] eqn:Hf; [| exact Hdb].
  destruct (Part000.complaints_update_policy s db old); [| exact Hdb].
  destruct (Part000.complaints_update_policy s db _); [| exact Hdb].
  destruct (Part000.complaints_unique _ _); [| exact Hdb].
  destruct (Part000.complaints_fkeys _ db); [| exact Hdb].
  cbn. apply forallb_replace; [exact Hdb |].
  apply Hset. apply find_some in Hf as [Hin _].
  exact (proj1 (forallb_forall _ _) Hdb old Hin).
Qed.

(** The complaints page never names [status] or [resolved_at]: whatever it
    submits, the stored complaints stay coherent. *)
Lemma complaint_form_keeps_coherent (db : Part000.DB) user gen now formData :
  forallb Part000.resolved_at_coherent (Part000.complaints db) = true ->
  forallb Part000.resolved_at_coherent
    (Part000.complaints
       (fst (Pages.Complaints.handleSubmit user gen now formData db))) = true.
Proof.
  intros Hdb. unfold Pages.Complaints.handleSubmit.
  destruct user as [u |]; [| exact Hdb].
  destruct (Pages.single _) as [profile |]; [| exact Hdb].
  destruct (Pages.Complaints.category formData) as [cat |]; [| exact Hdb].
  destruct (Pages.Complaints.area_id formData) as [ar |]; [| exact Hdb].
  match goal with
  | |- context [Part000.insert_complaint ?s ?g ?n ?i ?d] =>
      pose proof (insert_with_defaults_keeps_coherent d s g n i Hdb eq_refl eq_refl) as H;
      destruct (Part000.insert_complaint s g n i d) as [[db' k] | e]
  end; [exact H | exact Hdb].
Qed.

(** C6, amended.  No constraint or trigger relates the two columns; what
    holds is that the equivalence, once true of every stored complaint, is
    kept by an INSERT that leaves [status] and [resolved_at] to their
    defaults (pending, NULL) and by an UPDATE whose SET clause keeps it. *)
Theorem C6_resolved_at_coherent_is_kept_by_default (db : Part000.DB) :
  forallb Part000.resolved_at_coherent (Part000.complaints db) = true ->
  (forall s gen now i,
      Part000.complaints.Insert.status i = None ->
      Part000.complaints.Insert.resolved_at i = None ->
      forallb Part000.resolved_at_coherent
        (Part000.complaints
           (Part000.commit db (Part000.insert_complaint s gen now i db))) = true) /\
  (forall s now cid set,
      (forall c, Part000.resolved_at_coherent c = true ->
                 Part000.resolved_at_coherent (set c) = true) ->
      forallb Part000.resolved_at_coherent
        (Part000.complaints
           (Part000.commit db (Part000.update_complaint s now cid set db))) = true).
Proof.
  intros Hdb. split.
  - intros s gen now i. now apply insert_with_defaults_keeps_coherent.
  - intros s now cid set. now apply update_keeps_coherent.
Qed.

(** The complaint filed through the form is coherent, and stays so under an
    UPDATE that sets neither column. *)
Lemma C6_witness :
  forallb Part000.resolved_at_coherent (Part000.complaints db_complaint) = true /\
  forallb Part000.resolved_at_coherent
    (Part000.complaints
       (Part000.commit db_complaint
          (Part000.update_complaint (Pages.client 4) 300 41
             (fun c => c) db_complaint))) = true.
Proof.
  split.
  - exact (proj1 (C6_resolved_at_coherent_is_kept_by_default db0 eq_refl)
             (Pages.client 2) 41%N 200
             {| Part000.complaints.Insert.id := None;
                Part000.complaints.Insert.complainant_id := 12;
                Part000.complaints.Insert.vendor_id := Some 21%N;
                Part000.complaints.Insert.area_id := 1;
                Part000.complaints.Insert.category := Part000.hygiene;
                Part000.complaints.Insert.title := "Stale oil";
                Part000.complaints.Insert.description := "Oil reused for days";
                Part000.complaints.Insert.status := None;
                Part000.complaints.Insert.priority := Some (Some 1);
                Part000.complaints.Insert.assigned_to := None;
                Part000.complaints.Insert.resolution_notes := None;
                Part000.complaints.Insert.resolved_at := None;
                Part000.complaints.Insert.created_at := None;
                Part000.complaints.Insert.updated_at := None |}
             eq_refl eq_refl).
  - apply (proj2 (C6_resolved_at_coherent_is_kept_by_default db_complaint eq_refl)).
    intros c H. exact H.
Defined.

End Complaints.

(** * Deleting a vendor *)

Section DeleteVendor.


Import Part001.



End DeleteVendor.

(** * Profile provisioning *)

Section ProfileProvisioning.

Import Part001.

(** C9, as stated, fails in its last part: when the INSERT of the trigger
    is aborted (here the generated id is that of profile 11), the creation
    of identity 3 is aborted with it and [auth.users] is as before. *)
Lemma C9_counterexample :
  handle_new_user 11 600 (Sample001.user 3)
    {| auth_users := auth_users Sample001.db0 ++ [Sample001.user 3];
       areas := areas Sample001.db0; profiles := profiles Sample001.db0;
       vendors := vendors Sample001.db0; complaints := complaints Sample001.db0;
       ratings := ratings Sample001.db0 |}
  = Err unique_violation /\
  insert_auth_user 11 600 (Sample001.user 3) Sample001.db0 = Err unique_violation /\
  commit Sample001.db0 (insert_auth_user 11 600 (Sample001.user 3) Sample001.db0)
  = Sample001.db0.
Proof. vm_compute. repeat split; reflexivity. Qed.

Lemma existsb_eqb_false (x : UUID) (l : list UUID) :
  ~ In x l -> existsb (N.eqb x) l = false.
Proof.
  intros H. destruct (existsb (N.eqb x) l) eqn:E; [| reflexivity].
  apply existsb_exists in E as [y [Hy E]]. apply N.eqb_eq in E. subst y.
  contradiction.
Qed.

Lemma existsb_key_false {A : Type} (key : A -> UUID) (x : UUID) (l : list A) :
  ~ In x (map key l) -> existsb (fun a => N.eqb (key a) x) l = false.
Proof.
  intros H. destruct (existsb _ l) eqn:E; [| reflexivity].
  apply existsb_exists in E as [a [Ha E]]. apply N.eqb_eq in E.
  exfalso. apply H. rewrite <- E. now apply in_map.
Qed.

Lemma filter_key_nil {A : Type} (key : A -> UUID) (x : UUID) (l : list A) :
  ~ In x (map key l) -> filter (fun a => N.eqb (key a) x) l = [].
Proof.
  intros H. induction l as [| a l IH]; [reflexivity |]. cbn in *.
  destruct (N.eqb_spec (key a) x) as [E | E]; [exfalso; auto |].
  apply IH. auto.
Qed.

(** C9, amended.  In a database whose profiles all belong to existing
    identities, the creation of an identity with a new id (the generated
    profile id being new as well) succeeds and leaves exactly one profile
    for it: the name from the metadata or "User", the identity's phone, no
    area, type consumer.  The trigger has no handler: an error of its
    INSERT aborts the creation of the identity. *)
Theorem C9_new_identity_gets_exactly_one_profile
    (gen : UUID) (now : timestamptz) (u : auth_users.Row) (db : DB) :
  Spec.profiles_have_users db ->
  ~ In (auth_users.id u) (map auth_users.id (auth_users db)) ->
  ~ In gen (map profiles.id (profiles db)) ->
  (exists db',
     insert_auth_user gen now u db = Ok (db', 1%nat) /\
     auth_users db' = auth_users db ++ [u] /\
     filter (fun p => N.eqb (profiles.user_id p) (auth_users.id u)) (profiles db')
     = [ {| profiles.id := gen;
            profiles.user_id := auth_users.id u;
            profiles.full_name :=
              match json_text (auth_users.raw_user_meta_data u) "full_name" with
              | Some n => n
              | None => "User"%string
              end;
            profiles.phone := auth_users.phone u;
            profiles.area_id := None;
            profiles.user_type := "consumer";
            profiles.created_at := now;
            profiles.updated_at := now |} ]) /\
  (forall gen' e,
     handle_new_user gen' now u
       {| auth_users := auth_users db ++ [u]; areas := areas db;
          profiles := profiles db; vendors := vendors db;
          complaints := complaints db; ratings := ratings db |} = Err e ->
     insert_auth_user gen' now u db = Err e).
Proof.
  intros Hfk Hnew Hgen.
  assert (Hno : ~ In (auth_users.id u) (map profiles.user_id (profiles db))).
  { intros C. apply in_map_iff in C as [p [Hp C]]. apply Hfk in C.
    rewrite Hp in C. contradiction. }
  split.
  - unfold insert_auth_user.
    rewrite (existsb_key_false auth_users.id _ _ Hnew). cbn [negb guard bind].
    unfold handle_new_user, profiles_check, profiles_unique, profiles_fkeys.
    cbn [profiles.id profiles.user_id profiles.user_type profiles.area_id
         profiles auth_users areas fk_nullable].
    rewrite (existsb_key_false profiles.id _ _ Hgen).
    rewrite (existsb_key_false profiles.user_id _ _ Hno).
    rewrite map_app, existsb_app. cbn [map existsb]. rewrite N.eqb_refl, orb_true_r.
    cbn [negb andb guard bind]. eexists. split; [reflexivity |].
    cbn [auth_users profiles]. split; [reflexivity |].
    rewrite filter_app, (filter_key_nil profiles.user_id _ _ Hno).
    cbn [filter app profiles.user_id]. rewrite N.eqb_refl. reflexivity.
  - intros gen' e He. unfold insert_auth_user.
    rewrite (existsb_key_false auth_users.id _ _ Hnew). cbn [negb guard bind].
    rewrite He. reflexivity.
Qed.

(** Identity 3, created with a phone number and no metadata, gets the one
    profile 13, named "User". *)
Lemma C9_witness :
  exists db',
    insert_auth_user 13 600 (Sample001.user_without_name 3) Sample001.db0
    = Ok (db', 1%nat) /\
    map (fun p => (profiles.id p, profiles.full_name p, profiles.phone p,
                   profiles.area_id p, profiles.user_type p))
      (filter (fun p => N.eqb (profiles.user_id p) 3) (profiles db'))
    = [(13%N, "User"%string, Some "9000000001"%string, None, "consumer"%string)].
Proof.
  destruct (C9_new_identity_gets_exactly_one_profile
              13%N 600 (Sample001.user_without_name 3) Sample001.db0)
    as [[db' [Hins [_ Hone]]] _].
  - intros p Hp. cbn in Hp. cbn.
    destruct Hp as [<- | [<- | []]]; cbn; auto.
  - cbn. intros [C | [C | []]]; discriminate.
  - cbn. intros [C | [C | []]]; discriminate.
  - exists db'. split; [exact Hins |].
    change (auth_users.id (Sample001.user_without_name 3)) with 3%N in Hone.
    rewrite Hone. reflexivity.
Defined.

End ProfileProvisioning.

(** * The vendor list *)

Section VendorList.

Import Part000 Pages.Vendors.

Lemma reduce_is_SUM (l : list Z) (a : Z) :
  fold_left (fun sum r => sum + r) l a = a + SUM l.
Proof.
  unfold SUM. revert a. induction l as [| x l IH]; intros a; cbn.
  - lia.
  - rewrite IH. lia.
Qed.

Lemma In_insert_desc (v x : vendors.Row) (l : list vendors.Row) :
  In x (insert_desc v l) <-> x = v \/ In x l.
Proof.
  induction l as [| y l IH]; cbn.
  - intuition congruence.
  - destruct (vendors.created_at y <=? vendors.created_at v); cbn.
    + intuition congruence.
    + rewrite IH. intuition congruence.
Qed.




End VendorList.

(** * More on the rating roll-up *)

Section RollupMore.

Import Part000.

Lemma in_replaced {A : Type} (q : A -> bool) (new : A) (l : list A) (x : A) :
  find q l = Some x -> In new (map (fun y => if q y then new else y) l).
Proof.
  intros H. apply find_some in H as [Hin Hq].
  apply in_map_iff. exists x. rewrite Hq. auto.
Qed.

Lemma ratings_of_nonempty (t : UUID) (db : DB) (r : ratings.Row) :
  In r (ratings db) -> ratings.vendor_id r = t -> ratings_of t db <> [].
Proof.
  intros Hin Ht C. unfold ratings_of in C. apply map_eq_nil in C.
  assert (H : In r (filter (fun r0 => N.eqb (ratings.vendor_id r0) t) (ratings db))).
  { apply filter_In. split; [exact Hin |]. now apply N.eqb_eq. }
  rewrite C in H. contradiction.
Qed.

Lemma recomputed_in_sync (t : UUID) (db : DB) :
  ratings_of t db <> [] ->
  (forall v, In v (vendors db) -> vendors.id v = t ->
     vendors.total_ratings v = Some (COUNT (ratings_of t db)) /\
     vendors.average_rating v = ROUND1 (AVG (ratings_of t db))) ->
  Spec.in_sync t db.
Proof.
  intros Hne H v Hin Hid. destruct (H v Hin Hid) as [Hn Ha].
  split; [exact Hn |].
  destruct (ratings_of t db) as [| x l]; [contradiction |].
  exists (round1 (Spec.mean (x :: l))). split; [exact Ha | apply round1_nearest].
Qed.

(** X1.  After an INSERT of a rating, and after an UPDATE that reaches the
    row, by a session whose policy admits the update of the vendor the row
    now names, that vendor is in sync: [total_ratings] is the number of its
    rating rows and [average_rating] is within half a tenth of their
    mean. *)
Theorem write_resyncs_the_rated_vendor
    (s : Session) (now : timestamptz) (db db' : DB) :
  (forall r n,
      insert_rating s now r db = Ok (db', n) ->
      Spec.may_update_vendor s db (ratings.vendor_id r) ->
      Spec.in_sync (ratings.vendor_id r) db') /\
  (forall rid set old,
      find (fun r => N.eqb (ratings.id r) rid) (ratings db) = Some old ->
      update_rating s now rid set db = Ok (db', 1%nat) ->
      Spec.may_update_vendor s db (ratings.vendor_id (set old)) ->
      Spec.in_sync (ratings.vendor_id (set old)) db').
Proof.
  split.
  - intros r n H Hm. exact (insert_rating_in_sync s now r db db' n H Hm).
  - intros rid set old Hf H Hm.
    apply recomputed_in_sync.
    + apply (ratings_of_nonempty _ _ (set old)); [| reflexivity].
      unfold update_rating in H. rewrite Hf in H.
      destruct (ratings_write_policy s db old); [| discriminate].
      apply bind_guard_ok in H as [_ H]. apply bind_guard_ok in H as [_ H].
      apply bind_guard_ok in H as [_ H]. apply bind_guard_ok in H as [_ H].
      injection H as <-. rewrite trigger_ratings. cbn [ratings with_ratings].
      exact (in_replaced _ _ _ _ Hf).
    + intros v Hin Hid. rewrite <- Hid.
      exact (update_rating_recomputes_new_vendor s now rid set db db' old v
               Hf H Hm Hin Hid).
Qed.

(** Unrestricted, the first rating of vendor 21 and its move to vendor 22
    leave the vendor they name in sync. *)
Lemma write_resyncs_the_rated_vendor_witness :
  let db1 :=
    commit Sample.db0
      (insert_rating Sample.service 100 (Sample.rating_row 31 21 12 4) Sample.db0) in
  let db2 :=
    commit db1 (update_rating Sample.service 101 31 (ratings.set_vendor_id 22) db1) in
  Spec.in_sync 21 db1 /\ Spec.in_sync 22 db2.
Proof.
  intros db1 db2. split.
  - apply (proj1 (write_resyncs_the_rated_vendor Sample.service 100 Sample.db0 db1)
             (Sample.rating_row 31 21 12 4) 1%nat eq_refl).
    intros v _ _. reflexivity.
  - apply (proj2 (write_resyncs_the_rated_vendor Sample.service 101 db1 db2)
             31%N (ratings.set_vendor_id 22) (Sample.rating_row 31 21 12 4)
             eq_refl eq_refl).
    intros v _ _. reflexivity.
Defined.

(** X2.  After a DELETE that removes a rating, every row of the vendor it
    named has [total_ratings] equal to the number of rating rows left for
    the vendor, and [average_rating] within half a tenth of their mean, or
    NULL when none is left. *)
Theorem delete_recomputes_the_rated_vendor
    (s : Session) (now : timestamptz) (rid : UUID) (db db' : DB) (old : ratings.Row) :
  find (fun r => N.eqb (ratings.id r) rid) (ratings db) = Some old ->
  delete_rating s now rid db = Ok (db', 1%nat) ->
  forall v, In v (vendors db') -> vendors.id v = ratings.vendor_id old ->
    vendors.total_ratings v = Some (COUNT (ratings_of (ratings.vendor_id old) db')) /\
    match ratings_of (ratings.vendor_id old) db' with
    | [] => vendors.average_rating v = None
    | l => exists a, vendors.average_rating v = Some a /\
                     (Qabs (Spec.mean l - decimal1_to_Q a) <= 1 # 20)%Q
    end.
Proof.
  intros Hf H v Hin Hid.
  destruct (delete_rating_recomputes_old_vendor s now rid db db' old v Hf H Hin Hid)
    as [Hn Ha].
  rewrite Hid in Hn, Ha. split; [exact Hn |].
  destruct (ratings_of (ratings.vendor_id old) db') as [| x l]; [exact Ha |].
  exists (round1 (Spec.mean (x :: l))). split; [exact Ha | apply round1_nearest].
Qed.

Lemma SUM_bounds (l : list Z) :
  Forall (fun x => in_1_5 x = true) l ->
  Z.of_nat (length l) <= SUM l <= 5 * Z.of_nat (length l).
Proof.
  induction 1 as [| x l Hx _ IH]; cbn [SUM fold_right length].
  - lia.
  - apply in_1_5_iff in Hx. fold (SUM l). lia.
Qed.

Lemma rounded_mean_in_range (l : list Z) :
  Forall (fun x => in_1_5 x = true) l -> l <> [] ->
  10 <= round1 (Spec.mean l) <= 50.
Proof.
  intros Hl Hne. pose proof (SUM_bounds l Hl) as B.
  destruct l as [| x l']; [contradiction |].
  unfold Spec.mean, round1. cbn [Qnum Qden].
  set (d := Z.pos (Pos.of_nat (length (x :: l')))).
  assert (Hd : d = Z.of_nat (length (x :: l'))) by (unfold d; cbn [length]; lia).
  rewrite <- Hd in B. assert (0 < d) by lia.
  replace (0 <=? SUM (x :: l')) with true by (symmetry; apply Z.leb_le; lia).
  split.
  - apply Z.div_le_lower_bound; lia.
  - apply Z.lt_succ_r. apply Z.div_lt_upper_bound; lia.
Qed.

Lemma checked_ratings_of (t : UUID) (db : DB) :
  Forall (fun r => ratings_check r = true) (ratings db) ->
  Forall (fun x => in_1_5 x = true) (ratings_of t db).
Proof.
  intros H. unfold ratings_of. apply Forall_forall. intros x Hx.
  apply in_map_iff in Hx as [r [<- Hr]]. apply filter_In in Hr as [Hr _].
  pose proof (proj1 (Forall_forall _ _) H r Hr) as Hc.
  unfold ratings_check in Hc. rewrite !andb_true_iff in Hc. tauto.
Qed.

(** X3.  When the stored ratings pass their CHECKs, a vendor row that the
    trigger has rewritten holds an average between 1.0 and 5.0, or NULL
    when no rating names the vendor, and a count between 0 and the number
    of rating rows: the values fit DECIMAL(2,1) and INTEGER. *)
Theorem stored_average_fits_the_column
    (s : Session) (now : timestamptz) (NEW OLD : option ratings.Row) (db : DB)
    (v : vendors.Row) :
  Forall (fun r => ratings_check r = true) (ratings db) ->
  In v (vendors (update_vendor_rating s now NEW OLD db)) ->
  In v (vendors db) \/
  (match vendors.average_rating v with
   | Some a => 10 <= a <= 50
   | None => ratings_of (vendors.id v) db = []
   end /\
   exists n, vendors.total_ratings v = Some n /\ 0 <= n <= COUNT (ratings db)).
Proof.
  intros Hc Hin. unfold update_vendor_rating in Hin.
  destruct COALESCE as [t |]; [| left; exact Hin].
  cbn in Hin. apply in_map_iff in Hin as [v0 [Hv Hin]].
  destruct (N.eqb_spec (vendors.id v0) t) as [E | E];
    [destruct (vendors_update_policy s db v0) |]; cbn in Hv; subst v;
    try (left; exact Hin).
  right. cbn. split.
  - rewrite E. destruct (ratings_of t db) as [| x l] eqn:El; [reflexivity |].
    cbn [AVG ROUND1 option_map]. apply (rounded_mean_in_range (x :: l)); [| discriminate].
    rewrite <- El. now apply checked_ratings_of.
  - eexists. split; [reflexivity |]. unfold COUNT, ratings_of.
    rewrite length_map.
    pose proof (filter_length_le (fun r => N.eqb (ratings.vendor_id r) t) (ratings db)).
    lia.
Qed.

(** After one rating is deleted from two, the vendor has the pair of the
    other. *)
Lemma delete_recomputes_the_rated_vendor_witness :
  let db1 :=
    commit Sample.db0
      (insert_rating Sample.service 100 (Sample.rating_row 31 21 12 4) Sample.db0) in
  let db2 :=
    commit db1 (insert_rating Sample.service 101 (Sample.rating_row 32 21 13 1) db1) in
  let db3 := commit db2 (delete_rating Sample.service 102 31 db2) in
  Forall
    (fun v =>
       vendors.id v = 21%N ->
       vendors.total_ratings v = Some 1 /\
       exists a, vendors.average_rating v = Some a /\
                 (Qabs (Spec.mean [1%Z] - decimal1_to_Q a) <= 1 # 20)%Q)
    (vendors db3).
Proof.
  intros db1 db2 db3. apply Forall_forall. intros v Hin Hid.
  exact (delete_recomputes_the_rated_vendor Sample.service 102 31%N db2 db3
           (Sample.rating_row 31 21 12 4) eq_refl eq_refl v Hin Hid).
Defined.

(** With ratings 4 and 1 stored, every vendor row after the trigger is an
    old row or holds values in range. *)
Lemma stored_average_fits_the_column_witness :
  let db1 :=
    commit Sample.db0
      (insert_rating Sample.service 100 (Sample.rating_row 31 21 12 4) Sample.db0) in
  let db2 :=
    with_ratings (ratings db1 ++ [Sample.rating_row 32 21 13 1]) db1 in
  Forall
    (fun v =>
       In v (vendors db2) \/
       (match vendors.average_rating v with
        | Some a => 10 <= a <= 50
        | None => ratings_of (vendors.id v) db2 = []
        end /\
        exists n, vendors.total_ratings v = Some n /\ 0 <= n <= COUNT (ratings db2)))
    (vendors (update_vendor_rating Sample.service 101
                (Some (Sample.rating_row 32 21 13 1)) None db2)).
Proof.
  intros db1 db2. apply Forall_forall. intros v.
  apply (stored_average_fits_the_column Sample.service 101
           (Some (Sample.rating_row 32 21 13 1)) None db2 v).
  repeat constructor.
Defined.


(** X5.  The trigger function runs with the rights of the caller.  When the
    UPDATE policy of [vendors] admits none of the vendor rows for the
    session, an INSERT of a rating that succeeds stores the rating and
    leaves every vendor row as it was. *)
Theorem rating_by_a_non_owner_changes_no_vendor
    (s : Session) (now : timestamptz) (r : ratings.Row) (db db' : DB) (n : nat) :
  (forall v, In v (vendors db) -> vendors_update_policy s db v = false) ->
  insert_rating s now r db = Ok (db', n) ->
  vendors db' = vendors db /\ ratings db' = ratings db ++ [r].
Proof.
  intros Hno H. unfold insert_rating in H.
  apply bind_guard_ok in H as [_ H]. apply bind_guard_ok in H as [_ H].
  apply bind_guard_ok in H as [_ H]. apply bind_guard_ok in H as [_ H].
  injection H as <- _. split.
  - now rewrite trigger_under_row_security.
  - now rewrite trigger_ratings.
Qed.

(** User 2, who owns no vendor, rates vendor 21 through the page. *)
Lemma rating_by_a_non_owner_changes_no_vendor_witness :
  exists db',
    insert_rating (Pages.client 2) 100 (Sample.rating_row 31 21 12 4) Sample.db0
    = Ok (db', 1%nat) /\
    vendors db' = vendors Sample.db0 /\
    ratings db' = [Sample.rating_row 31 21 12 4].
Proof.
  eexists. split; [reflexivity |].
  apply (rating_by_a_non_owner_changes_no_vendor
           (Pages.client 2) 100 (Sample.rating_row 31 21 12 4) Sample.db0 _ 1%nat).
  - intros v [<- | [<- | []]]; reflexivity.
  - reflexivity.
Defined.

End RollupMore.

(** * Constraints kept by the statements of part_000 *)

Section Invariants.

Import Part000.

Lemma existsb_false_not_in {A K : Type} (k : A -> K) (eqb : K -> K -> bool)
    (x : K) (l : list A) :
  (forall a b, eqb a b = true <-> a = b) ->
  existsb (fun a => eqb (k a) x) l = false -> ~ In x (map k l).
Proof.
  intros Heq H C. apply in_map_iff in C as [a [Ha C]].
  assert (E : existsb (fun a => eqb (k a) x) l = true).
  { apply existsb_exists. exists a. split; [exact C |]. apply Heq. exact Ha. }
  congruence.
Qed.

Lemma NoDup_map_snoc {A K : Type} (k : A -> K) (l : list A) (x : A) :
  NoDup (map k l) -> ~ In (k x) (map k l) -> NoDup (map k (l ++ [x])).
Proof.
  intros Hl Hx. rewrite map_app. cbn.
  apply NoDup_app; [exact Hl | repeat constructor; auto |].
  intros y Hy [<- | []]. contradiction.
Qed.

Lemma NoDup_map_filter {A K : Type} (k : A -> K) (p : A -> bool) (l : list A) :
  NoDup (map k l) -> NoDup (map k (filter p l)).
Proof.
  induction l as [| x l IH]; cbn; intros H; [constructor |].
  inversion H as [| ? ? Hx Hl]; subst.
  destruct (p x); cbn; [| auto].
  constructor; [| auto].
  intros C. apply Hx. apply in_map_iff in C as [y [Hy C]].
  apply filter_In in C as [C _]. apply in_map_iff. eauto.
Qed.

Lemma replace_none {A : Type} (q : A -> bool) (new : A) (l : list A) :
  (forall y, In y l -> q y = false) ->
  map (fun y => if q y then new else y) l = l /\ filter (fun y => negb (q y)) l = l.
Proof.
  induction l as [| x l IH]; intros H; [split; reflexivity |].
  cbn. rewrite (H x (or_introl eq_refl)). cbn.
  destruct IH as [-> ->]; [intros y Hy; apply H; now right | split; reflexivity].
Qed.

Lemma NoDup_replace_by_id {A K : Type} (id : A -> UUID) (k : A -> K)
    (rid : UUID) (new : A) (l : list A) :
  NoDup (map id l) -> NoDup (map k l) ->
  ~ In (k new) (map k (filter (fun x => negb (N.eqb (id x) rid)) l)) ->
  NoDup (map k (map (fun x => if N.eqb (id x) rid then new else x) l)).
Proof.
  induction l as [| x l IH]; cbn; intros Hid Hk Hnew; [constructor |].
  inversion Hid as [| ? ? Hxi Hli]; subst. inversion Hk as [| ? ? Hxk Hlk]; subst.
  destruct (N.eqb_spec (id x) rid) as [E | E]; cbn in Hnew |- *.
  - assert (Hnone : forall y, In y l -> N.eqb (id y) rid = false).
    { intros y Hy. apply N.eqb_neq. intros C. apply Hxi. rewrite E, <- C.
      now apply in_map. }
    destruct (replace_none (fun y => N.eqb (id y) rid) new l Hnone) as [Hm Hf].
    rewrite Hm. rewrite Hf in Hnew. constructor; assumption.
  - constructor.
    + intros C. apply in_map_iff in C as [y [Hy C]].
      apply in_map_iff in C as [z [Hz C]].
      destruct (N.eqb_spec (id z) rid) as [Ez | Ez]; subst y.
      * apply Hnew. left. symmetry. exact Hy.
      * apply Hxk. rewrite <- Hy. now apply in_map.
    + apply IH; auto.
Qed.

Lemma Forall_replace {A : Type} (P : A -> Prop) (q : A -> bool) (new : A) (l : list A) :
  Forall P l -> P new -> Forall P (map (fun y => if q y then new else y) l).
Proof.
  intros Hl Hn. induction Hl; cbn; constructor; auto. destruct (q x); auto.
Qed.

Lemma pair_eqb_iff (a b : UUID * UUID) :
  N.eqb (fst a) (fst b) && N.eqb (snd a) (snd b) = true <-> a = b.
Proof.
  destruct a, b. cbn. rewrite andb_true_iff, !N.eqb_eq. split.
  - intros [-> ->]. reflexivity.
  - intros E. injection E as -> ->. auto.
Qed.

Lemma ratings_unique_spec (r : ratings.Row) (others : list ratings.Row) :
  ratings_unique r others = true ->
  ~ In (ratings.id r) (map ratings.id others) /\
  ~ In (ratings.vendor_id r, ratings.customer_id r)
       (map (fun x => (ratings.vendor_id x, ratings.customer_id x)) others).
Proof.
  unfold ratings_unique. rewrite andb_true_iff, !negb_true_iff. intros [Hi Hp]. split.
  - apply (existsb_false_not_in ratings.id N.eqb); [apply N.eqb_eq | exact Hi].
  - apply (existsb_false_not_in
             (fun x => (ratings.vendor_id x, ratings.customer_id x))
             (fun a b => N.eqb (fst b) (fst a) && N.eqb (snd b) (snd a))).
    + intros a b. rewrite pair_eqb_iff. split; congruence.
    + exact Hp.
Qed.

(** X6.  When the stored ratings have distinct ids, distinct (vendor,
    customer) pairs and values that pass the CHECKs, they still have after
    any INSERT, UPDATE or DELETE on [ratings], whether it succeeded or was
    aborted. *)
Theorem rating_statements_keep_the_constraints
    (s : Session) (now : timestamptz) (db : DB) :
  Spec.ratings_constraints db ->
  (forall r, Spec.ratings_constraints (commit db (insert_rating s now r db))) /\
  (forall rid set,
      Spec.ratings_constraints (commit db (update_rating s now rid set db))) /\
  (forall rid, Spec.ratings_constraints (commit db (delete_rating s now rid db))).
Proof.
  intros Hdb. pose proof Hdb as [Hid [Hpair Hchk]].
  split; [| split].
  - intros r. unfold insert_rating.
    destruct (ratings_write_policy s db r); [| exact Hdb].
    destruct (ratings_check r) eqn:Hc; [| exact Hdb].
    destruct (ratings_unique r (ratings db)) eqn:Hu; [| exact Hdb].
    destruct (ratings_fkeys r db); [| exact Hdb].
    cbn [guard bind commit]. unfold Spec.ratings_constraints.
    rewrite trigger_ratings. cbn [ratings with_ratings].
    apply ratings_unique_spec in Hu as [Hi Hp].
    repeat split.
    + now apply NoDup_map_snoc.
    + now apply (NoDup_map_snoc (fun x => (ratings.vendor_id x, ratings.customer_id x))).
    + apply Forall_app. split; [exact Hchk | repeat constructor; exact Hc].
  - intros rid set. unfold update_rating.
    destruct (find _ (ratings db)) as [old |]; [| exact Hdb].
    destruct (ratings_write_policy s db old); [| exact Hdb].
    destruct (ratings_write_policy s db _); [| exact Hdb].
    destruct (ratings_check (set old)) eqn:Hc; [| exact Hdb].
    destruct (ratings_unique (set old) _) eqn:Hu; [| exact Hdb].
    destruct (ratings_fkeys (set old) db); [| exact Hdb].
    cbn [guard bind commit]. unfold Spec.ratings_constraints.
    rewrite trigger_ratings. cbn [ratings with_ratings].
    apply ratings_unique_spec in Hu as [Hi Hp].
    repeat split.
    + now apply NoDup_replace_by_id.
    + now apply (NoDup_replace_by_id ratings.id
                   (fun x => (ratings.vendor_id x, ratings.customer_id x))).
    + now apply Forall_replace.
  - intros rid. unfold delete_rating.
    destruct (find _ (ratings db)) as [old |]; [| exact Hdb].
    destruct (delete_policy s); [| exact Hdb].
    cbn [commit]. unfold Spec.ratings_constraints.
    rewrite trigger_ratings. cbn [ratings with_ratings].
    repeat split.
    + now apply NoDup_map_filter.
    + now apply NoDup_map_filter.
    + apply Forall_forall. intros r Hr. apply filter_In in Hr as [Hr _].
      exact (proj1 (Forall_forall _ _) Hchk r Hr).
Qed.

(** From no rating at all, a first rating and then a change of its score. *)
Lemma rating_statements_keep_the_constraints_witness :
  let db1 :=
    commit Sample.db0
      (insert_rating Sample.service 100 (Sample.rating_row 31 21 12 4) Sample.db0) in
  Spec.ratings_constraints db1 /\
  Spec.ratings_constraints
    (commit db1 (update_rating Sample.service 101 31 (ratings.set_rating 2) db1)).
Proof.
  intros db1.
  assert (H0 : Spec.ratings_constraints Sample.db0)
    by (repeat split; constructor).
  assert (H1 : Spec.ratings_constraints db1)
    by exact (proj1 (rating_statements_keep_the_constraints
                       Sample.service 100 Sample.db0 H0)
                (Sample.rating_row 31 21 12 4)).
  split; [exact H1 |].
  exact (proj1 (proj2 (rating_statements_keep_the_constraints
                         Sample.service 101 db1 H1))
           31%N (ratings.set_rating 2)).
Defined.

Lemma existsb_key {A : Type} (k : A -> UUID) (x : UUID) (l : list A) :
  existsb (fun a => N.eqb (k a) x) l = existsb (fun i => N.eqb i x) (map k l).
Proof. induction l as [| a l IH]; cbn; [reflexivity | now rewrite IH]. Qed.

Lemma trigger_vendor_ids s now NEW OLD db :
  map vendors.id (vendors (update_vendor_rating s now NEW OLD db))
  = map vendors.id (vendors db).
Proof.
  unfold update_vendor_rating. destruct COALESCE; [| reflexivity].
  cbn [vendors with_vendors]. rewrite map_map. apply map_ext.
  intros v. destruct (_ && _); reflexivity.
Qed.

Lemma trigger_profiles s now NEW OLD db :
  profiles (update_vendor_rating s now NEW OLD db) = profiles db.
Proof. unfold update_vendor_rating. destruct COALESCE; reflexivity. Qed.

Lemma trigger_areas s now NEW OLD db :
  areas (update_vendor_rating s now NEW OLD db) = areas db.
Proof. unfold update_vendor_rating. destruct COALESCE; reflexivity. Qed.

Lemma trigger_complaints s now NEW OLD db :
  complaints (update_vendor_rating s now NEW OLD db) = complaints db.
Proof. unfold update_vendor_rating. destruct COALESCE; reflexivity. Qed.

(** References that hold against [db] hold against a database with the
    same keys. *)
Lemma references_transfer (db db' : DB) :
  map vendors.id (vendors db') = map vendors.id (vendors db) ->
  profiles db' = profiles db ->
  areas db' = areas db ->
  Forall (fun r => ratings_fkeys r db = true) (ratings db') ->
  Forall (fun c => complaints_fkeys c db = true) (complaints db') ->
  Spec.references_hold db'.
Proof.
  intros Hv Hp Ha Hr Hc. split.
  - eapply Forall_impl; [| exact Hr]. intros r H. unfold ratings_fkeys in *.
    rewrite existsb_key, Hv, <- existsb_key, Hp. exact H.
  - eapply Forall_impl; [| exact Hc]. intros c H. unfold complaints_fkeys in *.
    rewrite Hv, Hp, Ha. exact H.
Qed.

Lemma Forall_filter {A : Type} (P : A -> Prop) (p : A -> bool) (l : list A) :
  Forall P l -> Forall P (filter p l).
Proof.
  intros H. apply Forall_forall. intros x Hx. apply filter_In in Hx as [Hx _].
  exact (proj1 (Forall_forall _ _) H x Hx).
Qed.

Lemma key_survives_filter {A : Type} (k : A -> UUID) (x vid : UUID) (l : list A) :
  x <> vid ->
  existsb (fun i => N.eqb i x) (map k (filter (fun a => negb (N.eqb (k a) vid)) l))
  = existsb (fun i => N.eqb i x) (map k l).
Proof.
  intros Hx. induction l as [| a l IH]; cbn; [reflexivity |].
  destruct (N.eqb_spec (k a) vid) as [E | E]; cbn; rewrite IH; [| reflexivity].
  destruct (N.eqb_spec (k a) x) as [E' | _]; [congruence | reflexivity].
Qed.

Lemma existsb_eqb_sym (x : UUID) (l : list UUID) :
  existsb (N.eqb x) l = existsb (fun i => N.eqb i x) l.
Proof.
  induction l as [| i l IH]; cbn; [reflexivity |].
  now rewrite IH, N.eqb_sym.
Qed.

(** X7.  When every stored rating names an existing vendor and profile and
    every stored complaint an existing profile, area and (if any) vendor
    and assignee, the same holds after any statement on [ratings], any
    INSERT or UPDATE on [complaints] and any DELETE on [vendors], whether
    it succeeded or was aborted. *)
Theorem statements_keep_the_references
    (s : Session) (now : timestamptz) (db : DB) :
  Spec.references_hold db ->
  (forall r, Spec.references_hold (commit db (insert_rating s now r db))) /\
  (forall rid set, Spec.references_hold (commit db (update_rating s now rid set db))) /\
  (forall rid, Spec.references_hold (commit db (delete_rating s now rid db))) /\
  (forall gen i, Spec.references_hold (commit db (insert_complaint s gen now i db))) /\
  (forall cid set,
      Spec.references_hold (commit db (update_complaint s now cid set db))) /\
  (forall vid, Spec.references_hold (commit db (delete_vendor s vid db))).
Proof.
  intros Hdb. pose proof Hdb as [Hr Hc].
  split; [| split; [| split; [| split; [| split]]]].
  - intros r. unfold insert_rating.
    destruct (ratings_write_policy s db r); [| exact Hdb].
    destruct (ratings_check r); [| exact Hdb].
    destruct (ratings_unique r (ratings db)); [| exact Hdb].
    destruct (ratings_fkeys r db) eqn:Hf; [| exact Hdb].
    cbn [guard bind commit].
    apply (references_transfer db).
    + now rewrite trigger_vendor_ids.
    + now rewrite trigger_profiles.
    + now rewrite trigger_areas.
    + rewrite trigger_ratings. cbn [ratings with_ratings].
      apply Forall_app. split; [exact Hr | repeat constructor; exact Hf].
    + rewrite trigger_complaints. exact Hc.
  - intros rid set. unfold update_rating.
    destruct (find _ (ratings db)) as [old |]; [| exact Hdb].
    destruct (ratings_write_policy s db old); [| exact Hdb].
    destruct (ratings_write_policy s db _); [| exact Hdb].
    destruct (ratings_check (set old)); [| exact Hdb].
    destruct (ratings_unique (set old) _); [| exact Hdb].
    destruct (ratings_fkeys (set old) db) eqn:Hf; [| exact Hdb].
    cbn [guard bind commit].
    apply (references_transfer db).
    + now rewrite trigger_vendor_ids.
    + now rewrite trigger_profiles.
    + now rewrite trigger_areas.
    + rewrite trigger_ratings. cbn [ratings with_ratings].
      now apply Forall_replace.
    + rewrite trigger_complaints. exact Hc.
  - intros rid. unfold delete_rating.
    destruct (find _ (ratings db)) as [old |]; [| exact Hdb].
    destruct (delete_policy s); [| exact Hdb].
    cbn [commit].
    apply (references_transfer db).
    + now rewrite trigger_vendor_ids.
    + now rewrite trigger_profiles.
    + now rewrite trigger_areas.
    + rewrite trigger_ratings. cbn [ratings with_ratings]. now apply Forall_filter.
    + rewrite trigger_complaints. exact Hc.
  - intros gen i. unfold insert_complaint.
    destruct (complaints_insert_policy s db _); [| exact Hdb].
    destruct (complaints_unique _ _); [| exact Hdb].
    destruct (complaints_fkeys _ db) eqn:Hf; [| exact Hdb].
    cbn [guard bind commit].
    apply (references_transfer db); try reflexivity; [exact Hr |].
    cbn [complaints with_complaints].
    apply Forall_app. split; [exact Hc | repeat constructor; exact Hf].
  - intros cid set. unfold update_complaint.
    destruct (find _ (complaints db)) as [old |]; [| exact Hdb].
    destruct (complaints_update_policy s db old); [| exact Hdb].
    destruct (complaints_update_policy s db _); [| exact Hdb].
    destruct (complaints_unique _ _); [| exact Hdb].
    destruct (complaints_fkeys _ db) eqn:Hf; [| exact Hdb].
    cbn [guard bind commit].
    apply (references_transfer db); try reflexivity; [exact Hr |].
    cbn [complaints with_complaints]. now apply Forall_replace.
  - intros vid. unfold delete_vendor.
    destruct (find _ (vendors db)) as [v |]; [| exact Hdb].
    destruct (delete_policy s); [| exact Hdb].
    destruct (existsb (fun c => refers_to (complaints.vendor_id c) vid) (complaints db))
      eqn:Hnc; [exact Hdb |].
    destruct (existsb (fun r => N.eqb (ratings.vendor_id r) vid) (ratings db))
      eqn:Hnr; [exact Hdb |].
    cbn [negb guard bind commit]. split; cbn [ratings complaints with_vendors].
    + apply Forall_forall. intros r Hin.
      pose proof (proj1 (Forall_forall _ _) Hr r Hin) as Hf.
      unfold ratings_fkeys in *. cbn [vendors profiles with_vendors].
      apply andb_true_iff in Hf as [Hf1 Hf2]. rewrite Hf2, andb_true_r.
      rewrite existsb_key, key_survives_filter, <- existsb_key; [exact Hf1 |].
      intros C.
      assert (E : existsb (fun r => N.eqb (ratings.vendor_id r) vid) (ratings db) = true).
      { apply existsb_exists. exists r. split; [exact Hin | now apply N.eqb_eq]. }
      congruence.
    + apply Forall_forall. intros c Hin.
      pose proof (proj1 (Forall_forall _ _) Hc c Hin) as Hf.
      unfold complaints_fkeys in *. cbn [vendors profiles areas with_vendors].
      rewrite !andb_true_iff in Hf. destruct Hf as [[[H1 H2] H3] H4].
      rewrite H1, H3, H4, andb_true_r. cbn [andb].
      destruct (complaints.vendor_id c) as [y |] eqn:Ey; [| reflexivity].
      cbn [fk_nullable] in *. rewrite existsb_eqb_sym in *.
      rewrite key_survives_filter; [now rewrite H2 |].
      intros C.
      assert (E : existsb (fun c => refers_to (complaints.vendor_id c) vid)
                    (complaints db) = true).
      { apply existsb_exists. exists c. split; [exact Hin |].
        rewrite Ey. cbn. now apply N.eqb_eq. }
      congruence.
Qed.

(** The database with complaint 41 keeps its references under a rating of
    vendor 21 and under the attempt to delete that vendor. *)
Lemma statements_keep_the_references_witness :
  Spec.references_hold
    (commit Sample.db_complaint
       (insert_rating Sample.service 100 (Sample.rating_row 31 21 12 4)
          Sample.db_complaint)) /\
  Spec.references_hold
    (commit Sample.db_complaint (delete_vendor Sample.service 21 Sample.db_complaint)).
Proof.
  assert (H : Spec.references_hold Sample.db_complaint)
    by (split; repeat constructor).
  split.
  - exact (proj1 (statements_keep_the_references Sample.service 100
                    Sample.db_complaint H) (Sample.rating_row 31 21 12 4)).
  - exact (proj2 (proj2 (proj2 (proj2 (proj2
             (statements_keep_the_references Sample.service 100
                Sample.db_complaint H))))) 21%N).
Defined.

End Invariants.

(** * Policies and triggers on updates and deletes *)

Section Policies.


Lemma replaced_rows {A : Type} (q : A -> bool) (new : A) (l : list A) (x : A) :
  In x (map (fun y => if q y then new else y) l) -> In x l \/ x = new.
Proof.
  intros H. apply in_map_iff in H as [y [Hy H]].
  destruct (q y); subst; auto.
Qed.

(** X9.  Whatever the SET clause assigns to [updated_at], the row an UPDATE
    of a complaint or of a profile stores is the SET clause's row with
    [updated_at] set to the time of the statement, and every other stored
    row is a row that was there before; this holds in both migrations. *)
Theorem updates_stamp_the_row (s : Session) (now : timestamptz) :
  (forall cid set db db',
      Part000.update_complaint s now cid set db = Ok (db', 1%nat) ->
      exists old,
        In old (Part000.complaints db) /\
        In (Part000.complaints.set_updated_at now (set old)) (Part000.complaints db') /\
        forall c, In c (Part000.complaints db') ->
                  In c (Part000.complaints db)
                  \/ c = Part000.complaints.set_updated_at now (set old)) /\
  (forall cid set db db',
      Part001.update_complaint s now cid set db = Ok (db', 1%nat) ->
      exists old,
        In old (Part001.complaints db) /\
        In (Part001.complaints.set_updated_at now (set old)) (Part001.complaints db') /\
        forall c, In c (Part001.complaints db') ->
                  In c (Part001.complaints db)
                  \/ c = Part001.complaints.set_updated_at now (set old)) /\
  (forall uid set db db',
      Part000.update_profile s now uid set db = Ok (db', 1%nat) ->
      exists old,
        In old (Part000.profiles db) /\
        In (Part000.profiles.set_updated_at now (set old)) (Part000.profiles db') /\
        forall p, In p (Part000.profiles db') ->
                  In p (Part000.profiles db)
                  \/ p = Part000.profiles.set_updated_at now (set old)) /\
  (forall pid set db db',
      Part001.update_profile s now pid set db = Ok (db', 1%nat) ->
      exists old,
        In old (Part001.profiles db) /\
        In (Part001.profiles.set_updated_at now (set old)) (Part001.profiles db') /\
        forall p, In p (Part001.profiles db') ->
                  In p (Part001.profiles db)
                  \/ p = Part001.profiles.set_updated_at now (set old)).
Proof.
  split; [| split; [| split]].
  - intros cid set db db' H. unfold Part000.update_complaint in H.
    destruct (find _ (Part000.complaints db)) as [old |] eqn:Hf; [| discriminate].
    destruct (Part000.complaints_update_policy s db old); [| discriminate].
    apply bind_guard_ok in H as [_ H]. apply bind_guard_ok in H as [_ H].
    apply bind_guard_ok in H as [_ H]. injection H as <-.
    exists old. split; [exact (proj1 (find_some _ _ Hf)) |].
    split; [exact (in_replaced _ _ _ _ Hf) | apply replaced_rows].
  - intros cid set db db' H. unfold Part001.update_complaint in H.
    destruct (find _ (Part001.complaints db)) as [old |] eqn:Hf; [| discriminate].
    destruct (Part001.complaints_update_policy s db old); [| discriminate].
    apply bind_guard_ok in H as [_ H]. apply bind_guard_ok in H as [_ H].
    apply bind_guard_ok in H as [_ H]. apply bind_guard_ok in H as [_ H].
    injection H as <-.
    exists old. split; [exact (proj1 (find_some _ _ Hf)) |].
    split; [exact (in_replaced _ _ _ _ Hf) | apply replaced_rows].
  - intros uid set db db' H. unfold Part000.update_profile in H.
    destruct (find _ (Part000.profiles db)) as [old |] eqn:Hf; [| discriminate].
    destruct (Part000.profiles_update_policy s old); [| discriminate].
    apply bind_guard_ok in H as [_ H]. apply bind_guard_ok in H as [_ H].
    apply bind_guard_ok in H as [_ H]. apply bind_guard_ok in H as [_ H].
    injection H as <-.
    exists old. split; [exact (proj1 (find_some _ _ Hf)) |].
    split; [exact (in_replaced _ _ _ _ Hf) | apply replaced_rows].
  - intros pid set db db' H. unfold Part001.update_profile in H.
    destruct (find _ (Part001.profiles db)) as [old |] eqn:Hf; [| discriminate].
    destruct (Part001.profiles_update_policy s old); [| discriminate].
    apply bind_guard_ok in H as [_ H]. apply bind_guard_ok in H as [_ H].
    apply bind_guard_ok in H as [_ H]. apply bind_guard_ok in H as [_ H].
    apply bind_guard_ok in H as [_ H]. injection H as <-.
    exists old. split; [exact (proj1 (find_some _ _ Hf)) |].
    split; [exact (in_replaced _ _ _ _ Hf) | apply replaced_rows].
Qed.

(** The authority's UPDATE of complaint 41 that tries to set [updated_at]
    to 7 stores the time of the statement, 300. *)
Lemma updates_stamp_the_row_witness :
  exists db',
    Part000.update_complaint (Pages.client 4) 300 41
      (Part000.complaints.set_updated_at 7) Sample.db_complaint = Ok (db', 1%nat) /\
    map Part000.complaints.updated_at (Part000.complaints db') = [300].
Proof.
  eexists. split; [reflexivity |].
  destruct (proj1 (updates_stamp_the_row (Pages.client 4) 300) 41%N
              (Part000.complaints.set_updated_at 7) Sample.db_complaint _ eq_refl)
    as [old [Hold [_ Hall]]].
  destruct Hold as [<- | []]. reflexivity.
Defined.

Import Part000.

Lemma NoDup_map_inj {A K : Type} (k : A -> K) (l : list A) (a b : A) :
  NoDup (map k l) -> In a l -> In b l -> k a = k b -> a = b.
Proof.
  induction l as [| x l IH]; cbn; intros Hnd Ha Hb E; [contradiction |].
  inversion Hnd as [| ? ? Hx Hl]; subst.
  destruct Ha as [<- | Ha], Hb as [<- | Hb]; auto.
  - exfalso. apply Hx. rewrite E. now apply in_map.
  - exfalso. apply Hx. rewrite <- E. now apply in_map.
Qed.

(** In a table with distinct ids and distinct user ids, the row found for a
    user may be rewritten as long as its two keys stay. *)
Lemma own_row_stays_unique (db : DB) (uid : UUID) (old new : profiles.Row) :
  NoDup (map profiles.id (profiles db)) ->
  find (fun p => N.eqb (profiles.user_id p) uid) (profiles db) = Some old ->
  profiles.id new = profiles.id old ->
  profiles.user_id new = profiles.user_id old ->
  profiles_unique new
    (filter (fun p => negb (N.eqb (profiles.user_id p) uid)) (profiles db)) = true.
Proof.
  intros Hid Hf Ei Eu. apply find_some in Hf as [Hin Hu]. apply N.eqb_eq in Hu.
  unfold profiles_unique. rewrite !existsb_key_false; [reflexivity | |].
  - intros C. apply in_map_iff in C as [x [Hx C]]. apply filter_In in C as [_ C].
    rewrite Hx, Eu, Hu, N.eqb_refl in C. discriminate.
  - intros C. apply in_map_iff in C as [x [Hx C]]. apply filter_In in C as [Hxin C].
    rewrite Ei in Hx. apply (NoDup_map_inj profiles.id _ x old Hid Hxin Hin) in Hx.
    subst x. rewrite Hu, N.eqb_refl in C. discriminate.
Qed.

(** X10.  The UPDATE policy of part_000's [profiles] restricts rows, not
    columns: in a database whose profiles have distinct keys and valid
    references, any signed-in user who has a profile can set its own [role]
    to admin, and is from then on admitted by the policies that ask for an
    elevated role (the UPDATE and SELECT policies of [complaints]). *)
Theorem any_user_can_take_the_admin_role
    (u : UUID) (now : timestamptz) (db : DB) (p : profiles.Row) :
  Spec.profiles_constraints db ->
  In p (profiles db) -> profiles.user_id p = u ->
  exists db',
    update_profile (Pages.client u) now u (profiles.set_role admin) db
    = Ok (db', 1%nat) /\
    has_elevated_role (Pages.client u) db' = true /\
    (forall c, complaints_update_policy (Pages.client u) db' c = true) /\
    (forall c, complaints_select_policy (Pages.client u) db' c = true).
Proof.
  intros [Hid [Hu Hfk]] Hin Hp.
  destruct (find (fun q => N.eqb (profiles.user_id q) u) (profiles db))
    as [old |] eqn:Hf.
  2:{ apply (find_none _ _ Hf) in Hin. rewrite Hp, N.eqb_refl in Hin. discriminate. }
  pose proof (find_some _ _ Hf) as [Hoin Hou]. apply N.eqb_eq in Hou.
  assert (Hpol : forall q, profiles.user_id q = u ->
                           profiles_update_policy (Pages.client u) q = true).
  { intros q Hq. unfold profiles_update_policy, is_auth_uid. cbn.
    rewrite Hq. apply N.eqb_refl. }
  set (db' := with_profiles
                (map (fun q => if N.eqb (profiles.user_id q) u
                               then profiles.set_updated_at now
                                      (profiles.set_role admin old)
                               else q) (profiles db)) db).
  assert (Hres : update_profile (Pages.client u) now u (profiles.set_role admin) db
                 = Ok (db', 1%nat)).
  { unfold update_profile. rewrite Hf. cbv beta iota zeta.
    rewrite (Hpol old Hou).
    rewrite (Hpol (profiles.set_updated_at now (profiles.set_role admin old)) Hou).
    rewrite (own_row_stays_unique db u old
               (profiles.set_updated_at now (profiles.set_role admin old))
               Hid Hf eq_refl eq_refl).
    replace (profiles_fkeys _ db) with true
      by (symmetry; exact (proj1 (Forall_forall _ _) Hfk old Hoin)).
    cbn [profiles.id profiles.set_updated_at profiles.set_role].
    rewrite N.eqb_refl. reflexivity. }
  exists db'. split; [exact Hres |].
  assert (He : has_elevated_role (Pages.client u) db' = true).
  { unfold has_elevated_role, db'. cbn [profiles with_profiles].
    apply existsb_exists. eexists. split.
    - apply in_map_iff. exists old. split; [| exact Hoin].
      rewrite (proj2 (N.eqb_eq _ _) Hou). reflexivity.
    - cbn. unfold is_auth_uid. cbn. rewrite Hou, N.eqb_refl. reflexivity. }
  split; [exact He |]. split.
  - intros c. unfold complaints_update_policy. rewrite He. apply orb_true_r.
  - intros c. unfold complaints_select_policy. rewrite He. apply orb_true_r.
Qed.

(** User 2, a consumer, makes itself admin. *)
Lemma any_user_can_take_the_admin_role_witness :
  Part000.has_elevated_role (Pages.client 2) Sample.db0 = false /\
  exists db',
    Part000.update_profile (Pages.client 2) 400 2
      (Part000.profiles.set_role Part000.admin) Sample.db0 = Ok (db', 1%nat) /\
    Part000.has_elevated_role (Pages.client 2) db' = true.
Proof.
  split; [reflexivity |].
  destruct (any_user_can_take_the_admin_role 2%N 400 Sample.db0
              (Sample.profile 12 2 Part000.consumer))
    as [db' [Hupd [Hel _]]].
  - repeat split.
    + repeat (constructor; [cbn; intuition discriminate |]). constructor.
    + repeat (constructor; [cbn; intuition discriminate |]). constructor.
    + repeat constructor.
  - cbn. tauto.
  - reflexivity.
  - exists db'. split; assumption.
Defined.

End Policies.

(** * The submit handlers *)

Section Forms.





Import Part001.

Lemma single_profile_of (u : UUID) (db : DB) (profile : profiles.Row) :
  Pages.single (filter (fun p => N.eqb (profiles.user_id p) u) (profiles db))
    = Some profile ->
  In profile (profiles db) /\ profiles.user_id profile = u.
Proof.
  intros H. apply single_inv in H.
  assert (Hin : In profile (filter (fun p => N.eqb (profiles.user_id p) u) (profiles db)))
    by (rewrite H; now left).
  apply filter_In in Hin as [Hin Hu]. apply N.eqb_eq in Hu. auto.
Qed.

Lemma update_profile_frame s now pid set db :
  let db' := commit db (update_profile s now pid set db) in
  auth_users db' = auth_users db /\ areas db' = areas db /\
  vendors db' = vendors db /\ complaints db' = complaints db /\
  ratings db' = ratings db /\
  forall p, In p (profiles db') ->
    In p (profiles db) \/
    exists old, In old (profiles db) /\ profiles.id old = pid /\
                p = profiles.set_updated_at now (set old).
Proof.
  cbn zeta. unfold update_profile.
  destruct (find _ (profiles db)) as [old |] eqn:Hf; [| cbn; repeat split; auto].
  destruct (profiles_update_policy s old); [| cbn; repeat split; auto].
  destruct (profiles_update_policy s _); [| cbn; repeat split; auto].
  destruct (profiles_check _); [| cbn; repeat split; auto].
  destruct (profiles_unique _ _); [| cbn; repeat split; auto].
  destruct (profiles_fkeys _ db); [| cbn; repeat split; auto].
  destruct (_ || _); [| cbn; repeat split; auto].
  cbn [guard bind commit]. repeat split; try reflexivity.
  intros p Hp. cbn [profiles with_profiles] in Hp.
  apply replaced_rows in Hp as [Hp | ->]; [now left | right].
  exists old. apply find_some in Hf as [Hin Hid]. apply N.eqb_eq in Hid. auto.
Qed.

(** X12.  The vendor registration form either leaves the database as it
    was (no toast or the error toast) or, with the success toast, has added
    exactly one vendor row: a new id, owned by the profile of the caller,
    unverified, with the form's values; no other table changes except that
    rows of [profiles] with that profile's id may have become vendor
    profiles stamped with the time of the submission. *)
Theorem vendor_form_outcomes
    (user : option UUID) (gen : UUID) (now : timestamptz)
    (formData : Pages.Vendors.FormData) (db : DB) :
  match Pages.Vendors.handleSubmit user gen now formData db with
  | (db', Some Pages.Success) =>
      exists profile area,
        In profile (profiles db) /\
        Some (profiles.user_id profile) = user /\
        Pages.Vendors.area_id formData = Some area /\
        ~ In gen (map vendors.id (vendors db)) /\
        vendors db'
        = vendors db ++
          [ {| vendors.id := gen;
               vendors.profile_id := profiles.id profile;
               vendors.business_name := Pages.Vendors.business_name formData;
               vendors.food_type := Pages.Vendors.food_type formData;
               vendors.location_details := Pages.Vendors.location_details formData;
               vendors.area_id := area;
               vendors.license_number := Some (Pages.Vendors.license_number formData);
               vendors.is_verified := Some false;
               vendors.created_at := now;
               vendors.updated_at := now |} ] /\
        auth_users db' = auth_users db /\ areas db' = areas db /\
        complaints db' = complaints db /\ ratings db' = ratings db /\
        forall p, In p (profiles db') ->
          In p (profiles db) \/
          exists old, In old (profiles db) /\
                      profiles.id old = profiles.id profile /\
                      p = profiles.set_updated_at now
                            (profiles.set_user_type "vendor" old)
  | (db', _) => db' = db
  end.
Proof.
  unfold Pages.Vendors.handleSubmit.
  destruct user as [u |]; [| reflexivity].
  destruct (Pages.single _) as [profile |] eqn:Hs; [| reflexivity].
  destruct (Pages.Vendors.area_id formData) as [area |] eqn:Ha; [| reflexivity].
  apply single_profile_of in Hs as [Hin Hu].
  unfold insert_vendor.
  destruct (vendors_insert_policy _ db _); [| reflexivity].
  destruct (existsb _ (vendors db)) eqn:Hex; [reflexivity |].
  destruct (vendors_fkeys _ db); [| reflexivity].
  cbn [negb guard bind].
  match goal with
  | |- context [commit ?d (update_profile ?s ?n ?pid ?f ?d)] =>
      destruct (update_profile_frame s n pid f d) as [H1 [H2 [H3 [H4 [H5 H6]]]]]
  end.
  exists profile, area. rewrite H1, H2, H3, H4, H5.
  repeat split; try reflexivity; auto.
  - now rewrite Hu.
  - intros C. apply in_map_iff in C as [v [Hv C]].
    assert (E : existsb (fun x => N.eqb (vendors.id x) gen) (vendors db) = true).
    { apply existsb_exists. exists v. split; [exact C | now apply N.eqb_eq]. }
    cbn in Hex. congruence.
Qed.

(** X13.  In a database whose profiles have distinct keys, valid user types
    and valid references, a registration that shows the success toast
    leaves the caller with a profile of type vendor that owns the new
    vendor row. *)
Theorem registering_marks_the_profile_as_vendor
    (u gen : UUID) (now : timestamptz) (formData : Pages.Vendors.FormData)
    (db db' : DB) :
  Spec.profiles001_constraints db ->
  Pages.Vendors.handleSubmit (Some u) gen now formData db = (db', Some Pages.Success) ->
  exists p, In p (profiles db') /\ profiles.user_id p = u
            /\ profiles.user_type p = "vendor"%string
            /\ In gen (map vendors.id
                         (filter (fun v => N.eqb (vendors.profile_id v) (profiles.id p))
                            (vendors db'))).
Proof.
  intros [Hid [Hus Hall]] H. unfold Pages.Vendors.handleSubmit in H.
  destruct (Pages.single _) as [profile |] eqn:Hs; [| discriminate].
  destruct (Pages.Vendors.area_id formData) as [area |]; [| discriminate].
  apply single_profile_of in Hs as [Hin Hu].
  destruct (insert_vendor _ _ db) as [[db1 k] | e] eqn:Hins; [| discriminate].
  unfold insert_vendor in Hins.
  apply bind_guard_ok in Hins as [_ Hins]. apply bind_guard_ok in Hins as [_ Hins].
  apply bind_guard_ok in Hins as [_ Hins]. injection Hins as <- _.
  injection H as <-.
  set (new := profiles.set_updated_at now (profiles.set_user_type "vendor" profile)).
  unfold update_profile. cbn [profiles].
  assert (Hf : find (fun p => N.eqb (profiles.id p) (profiles.id profile)) (profiles db)
               = Some profile).
  { destruct (find _ (profiles db)) as [old |] eqn:Hf.
    - apply find_some in Hf as [Hoin Ho]. apply N.eqb_eq in Ho.
      f_equal. exact (NoDup_map_inj profiles.id _ old profile Hid Hoin Hin Ho).
    - apply (find_none _ _ Hf) in Hin. rewrite N.eqb_refl in Hin. discriminate. }
  rewrite Hf. cbv beta iota zeta.
  assert (Hpol : forall q, profiles.user_id q = u ->
                           profiles_update_policy (Pages.client u) q = true).
  { intros q Hq. unfold profiles_update_policy, is_auth_uid. cbn.
    rewrite Hq. apply N.eqb_refl. }
  rewrite (Hpol profile Hu). fold new. rewrite (Hpol new Hu).
  pose proof (proj1 (Forall_forall _ _) Hall profile Hin) as [Hck Hfk].
  replace (profiles_check new) with true by reflexivity.
  replace (profiles_unique new _) with true.
  2:{ symmetry. unfold profiles_unique. rewrite !existsb_key_false; [reflexivity | |].
      - intros C. apply in_map_iff in C as [x [Hx C]]. apply filter_In in C as [Hxin C].
        change (profiles.user_id new) with (profiles.user_id profile) in Hx.
        apply (NoDup_map_inj profiles.user_id _ x profile Hus Hxin Hin) in Hx.
        subst x. rewrite N.eqb_refl in C. discriminate.
      - intros C. apply in_map_iff in C as [x [Hx C]]. apply filter_In in C as [_ C].
        change (profiles.id new) with (profiles.id profile) in Hx.
        rewrite Hx, N.eqb_refl in C. discriminate. }
  replace (profiles_fkeys new _) with true by (symmetry; exact Hfk).
  change (profiles.id new) with (profiles.id profile). rewrite N.eqb_refl.
  cbn [orb guard bind commit].
  exists new. repeat split.
  - cbn [profiles with_profiles]. exact (in_replaced _ _ _ _ Hf).
  - exact Hu.
  - cbn [vendors with_profiles]. rewrite filter_app, map_app. apply in_or_app. right.
    cbn. rewrite N.eqb_refl. now left.
Qed.

(** User 2 registers a vendor with id 22. *)
Lemma registering_marks_the_profile_as_vendor_witness :
  let form := {| Pages.Vendors.business_name := "Dosa Point";
                 Pages.Vendors.food_type := "Tiffin";
                 Pages.Vendors.location_details := "Station road";
                 Pages.Vendors.area_id := Some 1%N;
                 Pages.Vendors.license_number := "" |} in
  exists db' p,
    Pages.Vendors.handleSubmit (Some 2%N) 22 600 form Sample001.db0
    = (db', Some Pages.Success) /\
    In p (profiles db') /\ profiles.user_id p = 2%N /\
    profiles.user_type p = "vendor"%string.
Proof.
  intros form.
  destruct (registering_marks_the_profile_as_vendor 2%N 22%N 600 form Sample001.db0
              (fst (Pages.Vendors.handleSubmit (Some 2%N) 22 600 form Sample001.db0)))
    as [p [Hin [Hu [Ht _]]]].
  - repeat split.
    + repeat (constructor; [cbn; intuition discriminate |]). constructor.
    + repeat (constructor; [cbn; intuition discriminate |]). constructor.
    + repeat constructor.
  - reflexivity.
  - eexists. exists p. split; [reflexivity |]. auto.
Defined.

(** X14.  The rating form stores nothing when no user is signed in or the
    overall rating is 0 (and shows no toast), and nothing when it shows the
    error toast.  With the success toast it has added exactly one rating:
    by the profile of the caller, for the chosen vendor, with an overall
    rating in 1..5 and each sub-rating NULL where the form has 0; the caller
    had no rating for that vendor before, and no other table changes. *)
Theorem rating_form_outcomes
    (user : option UUID) (gen : UUID) (now : timestamptz)
    (formData : Pages.Ratings.FormData) (db : Part001.DB) :
  match Pages.Ratings.handleSubmit user gen now formData db with
  | (db', Some Pages.Success) =>
      exists profile vid r,
        In profile (Part001.profiles db) /\
        Some (Part001.profiles.user_id profile) = user /\
        Pages.Ratings.vendor_id formData = Some vid /\
        Part001.ratings db' = Part001.ratings db ++ [r] /\
        Part001.ratings.id r = gen /\
        Part001.ratings.reviewer_id r = Part001.profiles.id profile /\
        Part001.ratings.vendor_id r = vid /\
        Part001.ratings.rating r = Pages.Ratings.rating formData /\
        1 <= Part001.ratings.rating r <= 5 /\
        Part001.ratings.food_quality_rating r
          = Pages.or_null (Pages.Ratings.food_quality_rating formData) /\
        Part001.ratings.price_rating r
          = Pages.or_null (Pages.Ratings.price_rating formData) /\
        Part001.ratings.hygiene_rating r
          = Pages.or_null (Pages.Ratings.hygiene_rating formData) /\
        (forall x, In x (Part001.ratings db) ->
                   ~ (Part001.ratings.reviewer_id x = Part001.profiles.id profile
                      /\ Part001.ratings.vendor_id x = vid)) /\
        Part001.auth_users db' = Part001.auth_users db /\
        Part001.areas db' = Part001.areas db /\
        Part001.profiles db' = Part001.profiles db /\
        Part001.vendors db' = Part001.vendors db /\
        Part001.complaints db' = Part001.complaints db
  | (db', Some (Pages.Error _)) => db' = db
  | (db', None) => db' = db /\ (user = None \/ Pages.Ratings.rating formData = 0)
  end.
Proof.
  unfold Pages.Ratings.handleSubmit.
  destruct user as [u |]; [| auto].
  destruct (Z.eqb_spec (Pages.Ratings.rating formData) 0) as [E | E]; [auto |].
  destruct (Pages.single _) as [profile |] eqn:Hs; [| reflexivity].
  destruct (Pages.Ratings.vendor_id formData) as [vid |] eqn:Hv; [| reflexivity].
  apply single_profile_of in Hs as [Hin Hu].
  unfold Part001.insert_rating.
  destruct (Part001.ratings_insert_policy _ db _); [| reflexivity].
  destruct (Part001.ratings_check _) eqn:Hc; [| reflexivity].
  destruct (Part001.ratings_unique _ _) eqn:Hun; [| reflexivity].
  destruct (Part001.ratings_fkeys _ db); [| reflexivity].
  cbn [guard bind].
  eexists profile, vid, _. repeat split; try reflexivity; auto.
  - now rewrite Hu.
  - unfold Part001.ratings_check in Hc. rewrite !andb_true_iff in Hc.
    destruct Hc as [[[Hc _] _] _]. apply in_1_5_iff in Hc. cbn in Hc |- *. lia.
  - unfold Part001.ratings_check in Hc. rewrite !andb_true_iff in Hc.
    destruct Hc as [[[Hc _] _] _]. apply in_1_5_iff in Hc. cbn in Hc |- *. lia.
  - intros x Hx [Hr Hvd]. unfold Part001.ratings_unique in Hun.
    apply andb_true_iff in Hun as [_ Hun]. apply negb_true_iff in Hun.
    assert (C : existsb (Part001.same_pair
                {| Part001.ratings.id := gen;
                   Part001.ratings.reviewer_id := Part001.profiles.id profile;
                   Part001.ratings.vendor_id := vid;
                   Part001.ratings.rating := Pages.Ratings.rating formData;
                   Part001.ratings.review_text :=
                     Some (Pages.Ratings.review_text formData);
                   Part001.ratings.food_quality_rating :=
                     Pages.or_null (Pages.Ratings.food_quality_rating formData);
                   Part001.ratings.price_rating :=
                     Pages.or_null (Pages.Ratings.price_rating formData);
                   Part001.ratings.hygiene_rating :=
                     Pages.or_null (Pages.Ratings.hygiene_rating formData);
                   Part001.ratings.created_at := now |}) (Part001.ratings db) = true).
    { apply existsb_exists. exists x. split; [exact Hx |].
      unfold Part001.same_pair. cbn. rewrite Hr, Hvd, !N.eqb_refl. reflexivity. }
    congruence.
Qed.

(** X15.  The complaint form either leaves the database as it was or, with
    the success toast, has added exactly one complaint: filed by the
    profile of the caller, with the form's vendor, area, category and
    priority, status pending, no assignee, no resolution, and both
    timestamps the time of the submission; no other table changes. *)
Theorem complaint_form_outcomes
    (user : option UUID) (gen : UUID) (now : timestamptz)
    (formData : Pages.Complaints.FormData) (db : Part000.DB) :
  match Pages.Complaints.handleSubmit user gen now formData db with
  | (db', Some Pages.Success) =>
      exists profile c,
        In profile (Part000.profiles db) /\
        Some (Part000.profiles.user_id profile) = user /\
        Part000.complaints db' = Part000.complaints db ++ [c] /\
        Part000.complaints.id c = gen /\
        Part000.complaints.complainant_id c = Part000.profiles.id profile /\
        Part000.complaints.vendor_id c = Pages.Complaints.vendor_id formData /\
        Some (Part000.complaints.area_id c) = Pages.Complaints.area_id formData /\
        Some (Part000.complaints.category c) = Pages.Complaints.category formData /\
        Part000.complaints.status c = Part000.pending /\
        Part000.complaints.priority c = Some (Pages.Complaints.priority formData) /\
        Part000.complaints.assigned_to c = None /\
        Part000.complaints.resolution_notes c = None /\
        Part000.complaints.resolved_at c = None /\
        Part000.complaints.created_at c = now /\
        Part000.complaints.updated_at c = now /\
        Part000.auth_users db' = Part000.auth_users db /\
        Part000.areas db' = Part000.areas db /\
        Part000.profiles db' = Part000.profiles db /\
        Part000.vendors db' = Part000.vendors db /\
        Part000.ratings db' = Part000.ratings db
  | (db', _) => db' = db
  end.
Proof.
  unfold Pages.Complaints.handleSubmit.
  destruct user as [u |]; [| reflexivity].
  destruct (Pages.single _) as [profile |] eqn:Hs; [| reflexivity].
  apply single_inv in Hs.
  assert (Hin : In profile (filter (fun p => N.eqb (Part000.profiles.user_id p) u)
                              (Part000.profiles db))) by (rewrite Hs; now left).
  apply filter_In in Hin as [Hin Hu]. apply N.eqb_eq in Hu.
  destruct (Pages.Complaints.category formData) as [cat |]; [| reflexivity].
  destruct (Pages.Complaints.area_id formData) as [area |]; [| reflexivity].
  unfold Part000.insert_complaint.
  destruct (Part000.complaints_insert_policy _ db _); [| reflexivity].
  destruct (Part000.complaints_unique _ _); [| reflexivity].
  destruct (Part000.complaints_fkeys _ db); [| reflexivity].
  cbn [guard bind].
  eexists profile, _. repeat split; try reflexivity; auto.
  now rewrite Hu.
Qed.

End Forms.

(** * What the pages count and list *)

Section Counts.

Import Part000.

Lemma SUM_app (l l' : list Z) : SUM (l ++ l') = SUM l + SUM l'.
Proof. unfold SUM. induction l as [| x l IH]; cbn; [reflexivity | rewrite IH; lia]. Qed.

Lemma SUM_insert_desc (f : vendors.Row -> Z) (v : vendors.Row) (l : list vendors.Row) :
  SUM (map f (Pages.Vendors.insert_desc v l)) = f v + SUM (map f l).
Proof.
  unfold SUM. induction l as [| x l IH]; cbn; [reflexivity |].
  destruct (_ <=? _); cbn; [reflexivity |]. rewrite IH. lia.
Qed.

Lemma SUM_order (f : vendors.Row -> Z) (l : list vendors.Row) :
  SUM (map f (Pages.Vendors.order_created_at_desc l)) = SUM (map f l).
Proof.
  induction l as [| x l IH]; [reflexivity |].
  change (Pages.Vendors.order_created_at_desc (x :: l))
    with (Pages.Vendors.insert_desc x (Pages.Vendors.order_created_at_desc l)).
  rewrite SUM_insert_desc, IH. reflexivity.
Qed.

Lemma length_insert_desc (v : vendors.Row) (l : list vendors.Row) :
  length (Pages.Vendors.insert_desc v l) = S (length l).
Proof.
  induction l as [| x l IH]; cbn; [reflexivity |].
  destruct (_ <=? _); cbn; [reflexivity | now rewrite IH].
Qed.

Lemma length_order (l : list vendors.Row) :
  length (Pages.Vendors.order_created_at_desc l) = length l.
Proof.
  induction l as [| x l IH]; [reflexivity |].
  change (Pages.Vendors.order_created_at_desc (x :: l))
    with (Pages.Vendors.insert_desc x (Pages.Vendors.order_created_at_desc l)).
  rewrite length_insert_desc, IH. reflexivity.
Qed.

(** The number of rows of a list with distinct keys that carry a given key
    of the list is one. *)
Lemma one_row_per_key {A : Type} (k : A -> UUID) (x : UUID) (l : list A) :
  NoDup (map k l) -> In x (map k l) ->
  SUM (map (fun a => if N.eqb x (k a) then 1 else 0) l) = 1.
Proof.
  unfold SUM. induction l as [| a l IH]; cbn; intros Hnd Hin; [contradiction |].
  inversion Hnd as [| ? ? Ha Hl]; subst.
  destruct (N.eqb_spec x (k a)) as [E | E].
  - assert (Hz : fold_right Z.add 0 (map (fun a0 => if N.eqb x (k a0) then 1 else 0) l) = 0).
    { clear IH Hin Hnd Hl. subst x. induction l as [| b l IH]; cbn; [reflexivity |].
      destruct (N.eqb_spec (k a) (k b)) as [E | _].
      - exfalso. apply Ha. left. congruence.
      - rewrite IH; [reflexivity |]. intros C. apply Ha. now right. }
    rewrite Hz. reflexivity.
  - destruct Hin as [C | Hin]; [congruence |]. rewrite IH; auto.
Qed.

Lemma SUM_pointwise_add {A : Type} (f g : A -> Z) (l : list A) :
  SUM (map (fun a => f a + g a) l) = SUM (map f l) + SUM (map g l).
Proof. unfold SUM. induction l as [| a l IH]; cbn; [reflexivity | rewrite IH; lia]. Qed.

Lemma per_vendor_counts_add_up (vs : list vendors.Row) (rs : list ratings.Row) :
  NoDup (map vendors.id vs) ->
  (forall r, In r rs -> In (ratings.vendor_id r) (map vendors.id vs)) ->
  SUM (map (fun v => COUNT (filter (fun r => N.eqb (ratings.vendor_id r) (vendors.id v)) rs))
         vs)
  = COUNT rs.
Proof.
  intros Hnd. unfold COUNT. induction rs as [| r rs IH]; intros Hfk.
  - clear. unfold SUM. induction vs as [| v vs IH]; cbn; [reflexivity | exact IH].
  - cbn [length]. rewrite Nat2Z.inj_succ. unfold Z.succ.
    rewrite <- IH by (intros x Hx; apply Hfk; now right).
    rewrite <- (one_row_per_key vendors.id (ratings.vendor_id r) vs Hnd)
      by (apply Hfk; now left).
    rewrite <- SUM_pointwise_add. f_equal.
    apply map_ext. intros v. cbn [filter].
    destruct (N.eqb (ratings.vendor_id r) (vendors.id v)); cbn [length]; lia.
Qed.

(** X16.  When vendor ids are distinct and every rating names a stored
    vendor, the dashboard's total of ratings is the sum of the
    [total_ratings] of the vendor list, and its number of vendors is the
    length of that list. *)
Theorem dashboard_total_is_the_sum_of_the_vendor_list
    (user : option UUID) (db : DB) :
  Spec.vendors_key db ->
  Spec.references_hold db ->
  Pages.Dashboard.totalRatings (Pages.Dashboard.fetchStats user db)
  = SUM (map Pages.Vendors.total_ratings (Pages.Vendors.fetchVendors db)) /\
  Pages.Dashboard.totalVendors (Pages.Dashboard.fetchStats user db)
  = COUNT (Pages.Vendors.fetchVendors db).
Proof.
  intros Hk [Hr _]. split.
  - unfold Pages.Dashboard.fetchStats, Pages.Vendors.fetchVendors.
    cbn [Pages.Dashboard.totalRatings]. rewrite map_map.
    cbn [Pages.Vendors.total_ratings Pages.Vendors.with_ratings].
    rewrite (SUM_order (fun v => COUNT (ratings_of (vendors.id v) db))).
    unfold ratings_of, COUNT. rewrite length_map.
    erewrite map_ext; [| intros v; rewrite length_map; reflexivity].
    symmetry. apply per_vendor_counts_add_up; [exact Hk |].
    intros r Hin. pose proof (proj1 (Forall_forall _ _) Hr r Hin) as Hf.
    unfold ratings_fkeys in Hf. apply andb_true_iff in Hf as [Hf _].
    apply existsb_exists in Hf as [v [Hv Hf]]. apply N.eqb_eq in Hf.
    rewrite <- Hf. now apply in_map.
  - unfold Pages.Dashboard.fetchStats, Pages.Vendors.fetchVendors, COUNT.
    cbn [Pages.Dashboard.totalVendors]. rewrite !length_map. f_equal.
    symmetry. apply length_order.
Qed.

(** After the first rating of vendor 21 both pages count one rating. *)
Lemma dashboard_total_is_the_sum_of_the_vendor_list_witness :
  let db1 :=
    commit Sample.db0
      (insert_rating Sample.service 100 (Sample.rating_row 31 21 12 4) Sample.db0) in
  Pages.Dashboard.totalRatings (Pages.Dashboard.fetchStats None db1) = 1 /\
  SUM (map Pages.Vendors.total_ratings (Pages.Vendors.fetchVendors db1)) = 1.
Proof.
  intros db1. split; [reflexivity |].
  rewrite <- (proj1 (dashboard_total_is_the_sum_of_the_vendor_list None db1
                       ltac:(repeat (constructor; [cbn; intuition discriminate |]);
                             constructor)
                       ltac:(split; repeat constructor))).
  reflexivity.
Defined.

Lemma disjoint_filters {A : Type} (p q : A -> bool) (l : list A) :
  (forall x, p x = true -> q x = false) ->
  (length (filter p l) + length (filter q l) <= length l)%nat.
Proof.
  intros H. induction l as [| x l IH]; cbn; [lia |].
  destruct (p x) eqn:E; [rewrite (H x E) |]; cbn; [lia |].
  destruct (q x); cbn; lia.
Qed.

Lemma filter_none {A : Type} (p : A -> bool) (l : list A) :
  (forall x, In x l -> p x = false) -> filter p l = [].
Proof.
  induction l as [| x l IH]; intros H; [reflexivity |]. cbn.
  rewrite (H x (or_introl eq_refl)). apply IH. intros y Hy. apply H. now right.
Qed.

Lemma filter_all {A : Type} (p : A -> bool) (l : list A) :
  (forall x, In x l -> p x = true) -> filter p l = l.
Proof.
  induction l as [| x l IH]; intros H; [reflexivity |]. cbn.
  rewrite (H x (or_introl eq_refl)). f_equal. apply IH. intros y Hy. apply H. now right.
Qed.

Lemma anonymous_sees_no_complaint (db : DB) (c : complaints.Row) :
  complaints_select_policy {| bypassrls := false; auth_uid := None |} db c = false.
Proof.
  unfold complaints_select_policy, own_profiles, has_elevated_role, is_auth_uid.
  cbn [bypassrls auth_uid orb].
  rewrite (filter_none (fun _ => false)) by reflexivity. cbn [map existsb].
  destruct (complaints.assigned_to c); cbn [orb];
    induction (profiles db); cbn; auto.
Qed.

Lemma reduce_SUM (l : list Z) : fold_left (fun sum r => sum + r) l 0 = SUM l.
Proof. rewrite reduce_is_SUM. lia. Qed.

Lemma checked_scores (l : list ratings.Row) :
  Forall (fun r => ratings_check r = true) l ->
  Forall (fun x => in_1_5 x = true) (map ratings.rating l).
Proof.
  intros H. apply Forall_forall. intros x Hx. apply in_map_iff in Hx as [y [<- Hy]].
  pose proof (proj1 (Forall_forall _ _) H y Hy) as Hc.
  unfold ratings_check in Hc. rewrite !andb_true_iff in Hc. tauto.
Qed.

Lemma average_in_range (l : list Z) :
  l <> [] -> Forall (fun x => in_1_5 x = true) l ->
  (1 <= (if (COUNT l =? 0)%Z then 0
         else inject_Z (fold_left (fun sum r => (sum + r)%Z) l 0%Z)
              / inject_Z (COUNT l))
   <= 5)%Q.
Proof.
  intros Hne Hl. pose proof (SUM_bounds l Hl) as B. unfold COUNT.
  assert (Hpos : Z.of_nat (length l) = Z.pos (Pos.of_nat (length l)))
    by (destruct l; [contradiction | cbn [length]; lia]).
  replace (Z.of_nat (length l) =? 0) with false by (symmetry; apply Z.eqb_neq; lia).
  rewrite reduce_SUM, Hpos, <- Qmake_Qdiv. unfold Qle. cbn [Qnum Qden].
  rewrite <- Hpos. lia.
Qed.

(** X17.  The dashboard counts the complaints the caller may read: never
    more than are stored, none for a caller who is not signed in, all of
    them for a caller with an elevated role; pending and resolved together
    never exceed the total.  Its average rating is 0 when there is no
    rating and lies between 1 and 5 when the stored ratings pass their
    CHECKs. *)
Theorem dashboard_counts_what_the_caller_may_read
    (user : option UUID) (db : DB) :
  let st := Pages.Dashboard.fetchStats user db in
  0 <= Pages.Dashboard.pendingComplaints st /\
  0 <= Pages.Dashboard.resolvedComplaints st /\
  Pages.Dashboard.pendingComplaints st + Pages.Dashboard.resolvedComplaints st
    <= Pages.Dashboard.totalComplaints st /\
  Pages.Dashboard.totalComplaints st <= COUNT (complaints db) /\
  (user = None -> Pages.Dashboard.totalComplaints st = 0) /\
  (has_elevated_role {| bypassrls := false; auth_uid := user |} db = true ->
   Pages.Dashboard.totalComplaints st = COUNT (complaints db)) /\
  (ratings db = [] -> Pages.Dashboard.averageRating st = 0%Q) /\
  (ratings db <> [] ->
   Forall (fun r => ratings_check r = true) (ratings db) ->
   (1 <= Pages.Dashboard.averageRating st <= 5)%Q).
Proof.
  cbn zeta. unfold Pages.Dashboard.fetchStats, COUNT.
  cbn [Pages.Dashboard.pendingComplaints Pages.Dashboard.resolvedComplaints
       Pages.Dashboard.totalComplaints Pages.Dashboard.averageRating].
  set (s := {| bypassrls := false; auth_uid := user |}).
  set (seen := map complaints.status (filter (complaints_select_policy s db) (complaints db))).
  repeat split.
  - lia.
  - lia.
  - pose proof (disjoint_filters
                  (fun st => match st with pending => true | _ => false end)
                  (fun st => match st with resolved => true | _ => false end)
                  seen) as H.
    assert (Hd : forall x : complaint_status,
               match x with pending => true | _ => false end = true ->
               match x with resolved => true | _ => false end = false)
      by (intros []; auto; discriminate).
    specialize (H Hd). lia.
  - unfold seen. rewrite length_map.
    pose proof (filter_length_le (complaints_select_policy s db) (complaints db)). lia.
  - intros ->. unfold seen. rewrite filter_none; [reflexivity |].
    intros c _. apply anonymous_sees_no_complaint.
  - intros He. unfold seen. rewrite filter_all; [now rewrite length_map |].
    intros c _. unfold complaints_select_policy. rewrite He. apply orb_true_r.
  - intros ->. reflexivity.
  - apply average_in_range; [| now apply checked_scores].
    intros C. apply map_eq_nil in C. contradiction.
  - apply average_in_range; [| now apply checked_scores].
    intros C. apply map_eq_nil in C. contradiction.
Qed.

(** The complaint of user 2 is counted for the authority and not for a
    visitor who is not signed in. *)
Lemma dashboard_counts_what_the_caller_may_read_witness :
  Pages.Dashboard.totalComplaints (Pages.Dashboard.fetchStats None Sample.db_complaint)
  = 0 /\
  Pages.Dashboard.totalComplaints
    (Pages.Dashboard.fetchStats (Some 4%N) Sample.db_complaint) = 1.
Proof.
  split.
  - apply (dashboard_counts_what_the_caller_may_read None Sample.db_complaint).
    reflexivity.
  - apply (dashboard_counts_what_the_caller_may_read (Some 4%N) Sample.db_complaint).
    reflexivity.
Defined.

Lemma NoDup_second_of_pairs {A K L : Type} (f : A -> K) (g : A -> L) (c : K)
    (l : list A) :
  NoDup (map (fun a => (f a, g a)) l) -> (forall a, In a l -> f a = c) ->
  NoDup (map g l).
Proof.
  induction l as [| a l IH]; cbn; intros Hnd Hc; [constructor |].
  inversion Hnd as [| ? ? Ha Hl]; subst. constructor.
  - intros C. apply Ha. apply in_map_iff in C as [b [Hb C]].
    apply in_map_iff. exists b. split; [| exact C].
    rewrite Hb, (Hc a (or_introl eq_refl)), (Hc b (or_intror C)). reflexivity.
  - apply IH; auto.
Qed.

(** X18.  In a part_001 database where no reviewer has two ratings of one
    vendor and every rating names a stored vendor, the number of ratings
    the profile page shows for a user is at most the number of vendors; the
    number of complaints it shows is at most the number of complaints. *)
Theorem a_reviewer_has_at_most_one_rating_per_vendor
    (user : option UUID) (db : Part001.DB) (st : Pages.Profile.UserStats) :
  Spec.one_rating_per_vendor db ->
  Spec.ratings_name_vendors db ->
  Pages.Profile.fetchUserStats user db = Some st ->
  0 <= Pages.Profile.ratingsCount st <= COUNT (Part001.vendors db) /\
  0 <= Pages.Profile.complaintsCount st <= COUNT (Part001.complaints db).
Proof.
  intros Hone Hfk H. unfold Pages.Profile.fetchUserStats in H.
  destruct user as [u |]; [| discriminate].
  destruct (Pages.single _) as [profile |]; [| discriminate].
  injection H as <-. cbn [Pages.Profile.ratingsCount Pages.Profile.complaintsCount].
  unfold COUNT. split; split; try lia.
  - set (mine := filter (fun r => N.eqb (Part001.ratings.reviewer_id r)
                                    (Part001.profiles.id profile)) (Part001.ratings db)).
    assert (Hnd : NoDup (map Part001.ratings.vendor_id mine)).
    { apply (NoDup_second_of_pairs Part001.ratings.reviewer_id _
               (Part001.profiles.id profile)).
      - apply (NoDup_map_filter
                 (fun r => (Part001.ratings.reviewer_id r, Part001.ratings.vendor_id r))).
        exact Hone.
      - intros a Ha. apply filter_In in Ha as [_ Ha]. now apply N.eqb_eq. }
    assert (Hincl : incl (map Part001.ratings.vendor_id mine)
                      (map Part001.vendors.id (Part001.vendors db))).
    { intros x Hx. apply in_map_iff in Hx as [r [<- Hr]].
      apply filter_In in Hr as [Hr _]. now apply Hfk. }
    pose proof (NoDup_incl_length Hnd Hincl) as Hle. rewrite !length_map in Hle. lia.
  - pose proof (filter_length_le
                  (fun c => N.eqb (Part001.complaints.complainant_id c)
                              (Part001.profiles.id profile)) (Part001.complaints db)).
    lia.
Qed.

(** User 2 has rated the one vendor there is. *)
Lemma a_reviewer_has_at_most_one_rating_per_vendor_witness :
  exists st,
    Pages.Profile.fetchUserStats (Some 2%N) Sample001.db0 = Some st /\
    Pages.Profile.ratingsCount st = 1 /\
    Pages.Profile.ratingsCount st <= COUNT (Part001.vendors Sample001.db0).
Proof.
  eexists. split; [reflexivity |]. split; [reflexivity |].
  apply (a_reviewer_has_at_most_one_rating_per_vendor (Some 2%N) Sample001.db0).
  - repeat (constructor; [cbn; intuition discriminate |]). constructor.
  - intros r [<- | []]. left. reflexivity.
  - reflexivity.
Defined.

Lemma insert_desc_sorted (v : vendors.Row) (l : list vendors.Row) :
  StronglySorted (fun a b => vendors.created_at b <= vendors.created_at a) l ->
  StronglySorted (fun a b => vendors.created_at b <= vendors.created_at a)
    (Pages.Vendors.insert_desc v l).
Proof.
  induction 1 as [| x l Hl IH Hx]; cbn.
  - repeat constructor.
  - destruct (Z.leb_spec (vendors.created_at x) (vendors.created_at v)) as [E | E].
    + constructor; [constructor; assumption |].
      constructor; [exact E |].
      eapply Forall_impl; [| exact Hx]. cbn. intros a Ha. lia.
    + constructor; [exact IH |].
      apply Forall_forall. intros a Ha. apply In_insert_desc in Ha as [-> | Ha].
      * lia.
      * exact (proj1 (Forall_forall _ _) Hx a Ha).
Qed.

Lemma insert_desc_perm (v : vendors.Row) (l : list vendors.Row) :
  Permutation (v :: l) (Pages.Vendors.insert_desc v l).
Proof.
  induction l as [| x l IH]; cbn; [reflexivity |].
  destruct (_ <=? _); [reflexivity |].
  eapply perm_trans; [apply perm_swap | apply perm_skip; exact IH].
Qed.

Lemma order_perm (l : list vendors.Row) :
  Permutation l (Pages.Vendors.order_created_at_desc l).
Proof.
  induction l as [| x l IH]; [constructor |].
  change (Pages.Vendors.order_created_at_desc (x :: l))
    with (Pages.Vendors.insert_desc x (Pages.Vendors.order_created_at_desc l)).
  eapply perm_trans; [apply perm_skip; exact IH | apply insert_desc_perm].
Qed.

(** X19.  The vendor list holds each stored vendor row exactly once, the
    most recently created first. *)
Theorem vendor_list_is_newest_first (db : DB) :
  StronglySorted
    (fun d d' => vendors.created_at (Pages.Vendors.row d')
                 <= vendors.created_at (Pages.Vendors.row d))
    (Pages.Vendors.fetchVendors db) /\
  Permutation (vendors db) (map Pages.Vendors.row (Pages.Vendors.fetchVendors db)).
Proof.
  unfold Pages.Vendors.fetchVendors. split.
  - assert (H : StronglySorted
                  (fun a b => vendors.created_at b <= vendors.created_at a)
                  (Pages.Vendors.order_created_at_desc (vendors db))).
    { induction (vendors db) as [| v l IH]; [constructor |].
      change (Pages.Vendors.order_created_at_desc (v :: l))
        with (Pages.Vendors.insert_desc v (Pages.Vendors.order_created_at_desc l)).
      now apply insert_desc_sorted. }
    induction H as [| x l Hl IH Hx]; cbn [map]; constructor; [exact IH |].
    apply Forall_forall. intros d Hd. apply in_map_iff in Hd as [y [<- Hy]].
    exact (proj1 (Forall_forall _ _) Hx y Hy).
  - rewrite map_map. cbn [Pages.Vendors.row Pages.Vendors.with_ratings].
    rewrite map_id. apply order_perm.
Qed.

End Counts.

(** * Deletions and what they take along *)

Section Cascades.

Import Part001.

Lemma sample001_references : Spec.references001_hold Sample001.db0.
Proof. repeat split; repeat constructor. Qed.

(** A key found in a list and not among the rows a filter keeps is among
    the rows it drops. *)
Lemma key_in_the_other_part {A : Type} (k : A -> UUID) (p : A -> bool) (x : UUID)
    (l : list A) :
  existsb (N.eqb x) (map k l) = true ->
  existsb (N.eqb x) (map k (filter p l)) = false ->
  existsb (N.eqb x) (map k (filter (fun a => negb (p a)) l)) = true.
Proof.
  induction l as [| a l IH]; cbn; [discriminate |].
  destruct (p a); cbn.
  - destruct (N.eqb x (k a)); cbn; [discriminate | exact IH].
  - destruct (N.eqb x (k a)); cbn; [reflexivity | exact IH].
Qed.

Lemma key_stays_after_snoc (x : UUID) (l l' : list UUID) :
  existsb (N.eqb x) l = true -> existsb (N.eqb x) (l ++ l') = true.
Proof.
  intros H. induction l as [| a l IH]; cbn in *; [discriminate |].
  destruct (N.eqb x a); cbn in *; auto.
Qed.

Lemma existsb_map_key {A : Type} (k : A -> UUID) (x : UUID) (l : list A) :
  existsb (fun a => N.eqb x (k a)) l = existsb (N.eqb x) (map k l).
Proof. induction l as [| a l IH]; cbn; [reflexivity | now rewrite IH]. Qed.

Lemma other_key_survives {A : Type} (k : A -> UUID) (x vid : UUID) (l : list A) :
  x <> vid ->
  existsb (N.eqb x) (map k l) = true ->
  existsb (N.eqb x) (map k (filter (fun a => negb (N.eqb (k a) vid)) l)) = true.
Proof.
  intros Hx. induction l as [| a l IH]; cbn; [discriminate |].
  destruct (N.eqb_spec (k a) vid) as [E | E]; cbn.
  - destruct (N.eqb_spec x (k a)) as [E' | _]; [congruence | exact IH].
  - destruct (N.eqb x (k a)); cbn; [reflexivity | exact IH].
Qed.

(** X20.  In a part_001 database whose references hold, deleting an
    identity succeeds and leaves a database whose references hold: the
    identity and every profile of it are gone, so that no vendor, complaint
    or rating is left that names a removed row; the profiles of other
    users stay. *)
Theorem deleting_an_identity_keeps_the_references
    (now : timestamptz) (uid : UUID) (db : DB) :
  Spec.references001_hold db ->
  exists db' n,
    delete_auth_user now uid db = Ok (db', n) /\
    Spec.references001_hold db' /\
    ~ In uid (map auth_users.id (auth_users db')) /\
    ~ In uid (map profiles.user_id (profiles db')) /\
    (forall p, In p (profiles db) -> profiles.user_id p <> uid -> In p (profiles db')).
Proof.
  intros [Hp [Hv [Hc Hr]]]. unfold delete_auth_user.
  destruct (existsb _ (auth_users db)) eqn:Hex.
  2:{ exists db, 0%nat. split; [reflexivity |]. split; [repeat split; assumption |].
      split; [| split].
      - intros C. apply in_map_iff in C as [a [Ha C]].
        assert (E : existsb (fun u => N.eqb (auth_users.id u) uid) (auth_users db) = true).
        { apply existsb_exists. exists a. split; [exact C | now apply N.eqb_eq]. }
        congruence.
      - intros C. apply in_map_iff in C as [p [Hpu C]].
        pose proof (proj1 (Forall_forall _ _) Hp p C) as Hf.
        unfold profiles_fkeys in Hf. apply andb_true_iff in Hf as [Hf _].
        rewrite Hpu in Hf. rewrite <- existsb_map_key in Hf.
        assert (E : existsb (fun u => N.eqb (auth_users.id u) uid) (auth_users db) = true).
        { apply existsb_exists. apply existsb_exists in Hf as [a [Ha Hf]].
          exists a. split; [exact Ha |]. now rewrite N.eqb_sym. }
        congruence.
      - auto. }
  set (gone_profiles := map profiles.id
                          (filter (fun p => N.eqb (profiles.user_id p) uid) (profiles db))).
  set (gone_vendors := map vendors.id
                         (filter (fun v => existsb (N.eqb (vendors.profile_id v)) gone_profiles)
                            (vendors db))).
  eexists _, 1%nat. split; [reflexivity |].
  assert (Hprof : forall x, existsb (N.eqb x) (map profiles.id (profiles db)) = true ->
                            existsb (N.eqb x) gone_profiles = false ->
                            existsb (N.eqb x)
                              (map profiles.id
                                 (filter (fun p => negb (N.eqb (profiles.user_id p) uid))
                                    (profiles db))) = true).
  { intros x H1 H2. exact (key_in_the_other_part profiles.id _ x _ H1 H2). }
  assert (Hvend : forall x, existsb (N.eqb x) (map vendors.id (vendors db)) = true ->
                            existsb (N.eqb x) gone_vendors = false ->
                            existsb (N.eqb x)
                              (map vendors.id
                                 (filter (fun v => negb (existsb (N.eqb (vendors.profile_id v))
                                                           gone_profiles))
                                    (vendors db))) = true).
  { intros x H1 H2. exact (key_in_the_other_part vendors.id _ x _ H1 H2). }
  split; [| split; [| split]].
  - split; [| split; [| split]]; cbn [auth_users areas profiles vendors complaints ratings].
    + apply Forall_forall. intros p Hin. apply filter_In in Hin as [Hin Hu].
      pose proof (proj1 (Forall_forall _ _) Hp p Hin) as Hf.
      unfold profiles_fkeys in *. cbn [auth_users areas].
      apply andb_true_iff in Hf as [H1 H2]. rewrite H2, andb_true_r.
      apply other_key_survives; [| exact H1].
      intros C. rewrite C, N.eqb_refl in Hu. discriminate.
    + apply Forall_forall. intros v Hin. apply filter_In in Hin as [Hin Hg].
      apply negb_true_iff in Hg.
      pose proof (proj1 (Forall_forall _ _) Hv v Hin) as Hf.
      unfold vendors_fkeys in *. cbn [profiles areas].
      apply andb_true_iff in Hf as [H1 H2]. rewrite H2, andb_true_r.
      now apply Hprof.
    + apply Forall_forall. intros c Hin. apply in_map_iff in Hin as [c0 [Hc0 Hin]].
      apply filter_In in Hin as [Hin Hg]. apply negb_true_iff in Hg.
      pose proof (proj1 (Forall_forall _ _) Hc c0 Hin) as Hf.
      unfold complaints_fkeys in *. cbn [profiles vendors areas].
      rewrite !andb_true_iff in Hf. destruct Hf as [[H1 H2] H3].
      destruct (existsb (refers_to (complaints.vendor_id c0)) gone_vendors) eqn:Hgv;
        subst c; cbn [update_updated_at_column complaints.set_updated_at
                      complaints.set_vendor_id complaints.complainant_id
                      complaints.vendor_id complaints.area_id fk_nullable].
      * rewrite (Hprof _ H1 Hg), H3. reflexivity.
      * rewrite (Hprof _ H1 Hg), H3, andb_true_r. cbn [andb].
        destruct (complaints.vendor_id c0) as [y |]; [| reflexivity].
        cbn [fk_nullable refers_to] in *. now apply Hvend.
    + apply Forall_forall. intros r Hin. apply filter_In in Hin as [Hin Hg].
      apply andb_true_iff in Hg as [Hg1 Hg2]. apply negb_true_iff in Hg1, Hg2.
      pose proof (proj1 (Forall_forall _ _) Hr r Hin) as Hf.
      unfold ratings_fkeys in *. cbn [profiles vendors].
      apply andb_true_iff in Hf as [H1 H2].
      rewrite (Hprof _ H1 Hg1), (Hvend _ H2 Hg2). reflexivity.
  - cbn [auth_users]. intros C. apply in_map_iff in C as [a [Ha C]].
    apply filter_In in C as [_ C]. rewrite Ha, N.eqb_refl in C. discriminate.
  - cbn [profiles]. intros C. apply in_map_iff in C as [a [Ha C]].
    apply filter_In in C as [_ C]. rewrite Ha, N.eqb_refl in C. discriminate.
  - intros p Hin Hne. cbn [profiles]. apply filter_In. split; [exact Hin |].
    apply negb_true_iff. now apply N.eqb_neq.
Qed.

(** Deleting user 2 of the sample removes profile 12 and keeps profile 11. *)
Lemma deleting_an_identity_keeps_the_references_witness :
  exists db' n,
    delete_auth_user 300 2%N Sample001.db0 = Ok (db', n) /\
    ~ In 2%N (map profiles.user_id (profiles db')) /\
    In (Sample001.profile 11 1) (profiles db').
Proof.
  destruct (deleting_an_identity_keeps_the_references 300 2%N Sample001.db0
              sample001_references) as [db' [n [H1 [_ [_ [H2 H3]]]]]].
  exists db', n. split; [exact H1 |]. split; [exact H2 |].
  apply H3; [left; reflexivity | discriminate].
Defined.

Lemma in_keys (x : UUID) (l : list UUID) : existsb (N.eqb x) l = true -> In x l.
Proof.
  intros H. apply existsb_exists in H as [y [Hy H]]. apply N.eqb_eq in H. now subst.
Qed.

(** X21.  In a part_001 database whose references hold, creating an
    identity and then deleting it gives back the database as it was: the
    profile made by [handle_new_user] goes with the identity, and nothing
    else has changed. *)
Theorem signup_then_deletion_restores_the_database
    (gen : UUID) (now now' : timestamptz) (u : auth_users.Row) (db db1 : DB) (n : nat) :
  Spec.references001_hold db ->
  insert_auth_user gen now u db = Ok (db1, n) ->
  delete_auth_user now' (auth_users.id u) db1 = Ok (db, 1%nat).
Proof.
  intros [Hp [Hv [Hc Hr]]] H. unfold insert_auth_user in H.
  apply bind_guard_ok in H as [Hnew H]. apply negb_true_iff in Hnew.
  unfold handle_new_user in H. cbn [bind] in H.
  destruct (guard (profiles_check _) _) eqn:G1; [| discriminate]. cbn [bind] in H.
  destruct (guard (profiles_unique _ _) _) eqn:G2; [| discriminate]. cbn [bind] in H.
  destruct (guard (profiles_fkeys _ _) _) eqn:G3; [| discriminate]. cbn [bind] in H.
  injection H as <- _.
  unfold guard in G2. destruct (profiles_unique _ _) eqn:Hun; [| discriminate].
  unfold profiles_unique in Hun. cbn [profiles profiles.id profiles.user_id] in Hun.
  apply andb_true_iff in Hun as [Hgen Huid]. apply negb_true_iff in Hgen, Huid.
  pose proof (existsb_false_not_in profiles.id N.eqb gen (profiles db) N.eqb_eq Hgen)
    as Hgen'.
  set (uid := auth_users.id u) in *.
  assert (Hp_none : forall p, In p (profiles db) ->
                              N.eqb (profiles.user_id p) uid = false).
  { intros p Hin. destruct (N.eqb (profiles.user_id p) uid) eqn:E; [| reflexivity].
    assert (C : existsb (fun x => N.eqb (profiles.user_id x) uid) (profiles db) = true)
      by (apply existsb_exists; eauto).
    congruence. }
  assert (Ha_none : forall w, In w (auth_users db) ->
                              N.eqb (auth_users.id w) uid = false).
  { intros w Hin. destruct (N.eqb (auth_users.id w) uid) eqn:E; [| reflexivity].
    assert (C : existsb (fun x => N.eqb (auth_users.id x) uid) (auth_users db) = true)
      by (apply existsb_exists; eauto).
    congruence. }
  unfold delete_auth_user. cbn [auth_users profiles vendors complaints ratings areas].
  rewrite existsb_app. cbn [existsb]. fold uid. rewrite N.eqb_refl, orb_true_r.
  rewrite !filter_app. cbn [filter map app profiles.user_id profiles.id].
  fold uid. rewrite !N.eqb_refl. cbn [negb].
  rewrite (filter_none (fun p => N.eqb (profiles.user_id p) uid)) by exact Hp_none.
  rewrite (filter_all (fun p => negb (N.eqb (profiles.user_id p) uid)))
    by (intros p Hin; now rewrite Hp_none).
  rewrite (filter_all (fun a => negb (N.eqb (auth_users.id a) uid)))
    by (intros w Hin; now rewrite Ha_none).
  cbn [app map existsb]. rewrite !app_nil_r.
  assert (Hno_v : forall v, In v (vendors db) ->
                            N.eqb (vendors.profile_id v) gen || false = false).
  { intros v Hin. rewrite orb_false_r. apply N.eqb_neq. intros C.
    pose proof (proj1 (Forall_forall _ _) Hv v Hin) as Hf.
    unfold vendors_fkeys in Hf. apply andb_true_iff in Hf as [Hf _].
    apply in_keys in Hf. rewrite C in Hf. contradiction. }
  rewrite (filter_none (fun v => N.eqb (vendors.profile_id v) gen || false))
    by exact Hno_v.
  rewrite (filter_all (fun v => negb (N.eqb (vendors.profile_id v) gen || false)))
    by (intros v Hin; now rewrite Hno_v).
  cbn [map existsb].
  rewrite (filter_all (fun c => negb (N.eqb (complaints.complainant_id c) gen || false))).
  2:{ intros c Hin. rewrite orb_false_r. apply negb_true_iff, N.eqb_neq. intros C.
      pose proof (proj1 (Forall_forall _ _) Hc c Hin) as Hf.
      unfold complaints_fkeys in Hf. rewrite !andb_true_iff in Hf.
      destruct Hf as [[Hf _] _]. apply in_keys in Hf. rewrite C in Hf. contradiction. }
  rewrite map_id.
  rewrite (filter_all (fun r => negb (N.eqb (ratings.reviewer_id r) gen || false)
                                && negb false)).
  2:{ intros r Hin. rewrite orb_false_r, andb_true_r. apply negb_true_iff, N.eqb_neq.
      intros C. pose proof (proj1 (Forall_forall _ _) Hr r Hin) as Hf.
      unfold ratings_fkeys in Hf. apply andb_true_iff in Hf as [Hf _].
      apply in_keys in Hf. rewrite C in Hf. contradiction. }
  destruct db; reflexivity.
Qed.

(** User 3 signs up on the sample and is deleted again. *)
Lemma signup_then_deletion_restores_the_database_witness :
  exists db1,
    insert_auth_user 13%N 100 (Sample001.user_without_name 3) Sample001.db0
    = Ok (db1, 1%nat) /\
    delete_auth_user 200 3%N db1 = Ok (Sample001.db0, 1%nat).
Proof.
  eexists. split; [reflexivity |].
  apply (signup_then_deletion_restores_the_database 13%N 100 200
           (Sample001.user_without_name 3) Sample001.db0 _ 1%nat
           sample001_references).
  reflexivity.
Defined.

(** References that hold against [db] hold against a database that has
    the keys of [db] and possibly more. *)
Lemma references_transfer001 (db db' : DB) :
  (forall x, existsb (N.eqb x) (map auth_users.id (auth_users db)) = true ->
             existsb (N.eqb x) (map auth_users.id (auth_users db')) = true) ->
  (forall x, existsb (N.eqb x) (map profiles.id (profiles db)) = true ->
             existsb (N.eqb x) (map profiles.id (profiles db')) = true) ->
  (forall x, existsb (N.eqb x) (map vendors.id (vendors db)) = true ->
             existsb (N.eqb x) (map vendors.id (vendors db')) = true) ->
  areas db' = areas db ->
  Forall (fun p => profiles_fkeys p db = true) (profiles db') ->
  Forall (fun v => vendors_fkeys v db = true) (vendors db') ->
  Forall (fun c => complaints_fkeys c db = true) (complaints db') ->
  Forall (fun r => ratings_fkeys r db = true) (ratings db') ->
  Spec.references001_hold db'.
Proof.
  intros Ha Hp Hv Har H1 H2 H3 H4. repeat split.
  - eapply Forall_impl; [| exact H1]. intros p H. unfold profiles_fkeys in *.
    rewrite Har. apply andb_true_iff in H as [Hx Hy]. now rewrite (Ha _ Hx), Hy.
  - eapply Forall_impl; [| exact H2]. intros v H. unfold vendors_fkeys in *.
    rewrite Har. apply andb_true_iff in H as [Hx Hy]. now rewrite (Hp _ Hx), Hy.
  - eapply Forall_impl; [| exact H3]. intros c H. unfold complaints_fkeys in *.
    rewrite Har. rewrite !andb_true_iff in H. destruct H as [[Hx Hy] Hz].
    rewrite (Hp _ Hx), Hz, andb_true_r. cbn [andb].
    destruct (complaints.vendor_id c); cbn [fk_nullable] in *; auto.
  - eapply Forall_impl; [| exact H4]. intros r H. unfold ratings_fkeys in *.
    apply andb_true_iff in H as [Hx Hy]. now rewrite (Hp _ Hx), (Hv _ Hy).
Qed.

(** X22.  The references of a part_001 database that hold before still
    hold after creating an identity, inserting a vendor or a rating,
    updating a complaint or deleting a vendor, whether the statement
    succeeded or was aborted. *)
Theorem part001_statements_keep_the_references
    (s : Session) (now : timestamptz) (db : DB) :
  Spec.references001_hold db ->
  (forall gen u, Spec.references001_hold (commit db (insert_auth_user gen now u db))) /\
  (forall v, Spec.references001_hold (commit db (insert_vendor s v db))) /\
  (forall r, Spec.references001_hold (commit db (insert_rating s r db))) /\
  (forall cid set, Spec.references001_hold (commit db (update_complaint s now cid set db))) /\
  (forall vid, Spec.references001_hold (commit db (delete_vendor s now vid db))).
Proof.
  intros Hdb. pose proof Hdb as [Hp [Hv [Hc Hr]]].
  split; [| split; [| split; [| split]]].
  - intros gen u. unfold insert_auth_user.
    destruct (negb _); [| exact Hdb]. cbn [guard bind].
    unfold handle_new_user.
    destruct (profiles_check _); [| exact Hdb].
    destruct (profiles_unique _ _); [| exact Hdb].
    destruct (profiles_fkeys _ _) eqn:Hf; [| exact Hdb].
    cbn [guard bind commit]. repeat split;
      cbn [auth_users areas profiles vendors complaints ratings].
    + apply Forall_app. split; [| repeat constructor; exact Hf].
      eapply Forall_impl; [| exact Hp]. intros p H. unfold profiles_fkeys in *.
      cbn [auth_users areas]. apply andb_true_iff in H as [Hx Hy].
      rewrite map_app, (key_stays_after_snoc _ _ _ Hx), Hy. reflexivity.
    + eapply Forall_impl; [| exact Hv]. intros v H. unfold vendors_fkeys in *.
      cbn [profiles areas]. apply andb_true_iff in H as [Hx Hy].
      rewrite map_app, (key_stays_after_snoc _ _ _ Hx), Hy. reflexivity.
    + eapply Forall_impl; [| exact Hc]. intros c H. unfold complaints_fkeys in *.
      cbn [profiles vendors areas]. rewrite !andb_true_iff in H.
      destruct H as [[Hx Hy] Hz].
      rewrite map_app, (key_stays_after_snoc _ _ _ Hx), Hy, Hz. reflexivity.
    + eapply Forall_impl; [| exact Hr]. intros r H. unfold ratings_fkeys in *.
      cbn [profiles vendors]. apply andb_true_iff in H as [Hx Hy].
      rewrite map_app, (key_stays_after_snoc _ _ _ Hx), Hy. reflexivity.
  - intros v. unfold insert_vendor.
    destruct (vendors_insert_policy s db v); [| exact Hdb].
    destruct (negb _); [| exact Hdb].
    destruct (vendors_fkeys v db) eqn:Hf; [| exact Hdb].
    cbn [guard bind commit].
    apply (references_transfer001 db); cbn [auth_users areas profiles vendors complaints ratings];
      auto.
    + intros x Hx. rewrite map_app. now apply key_stays_after_snoc.
    + apply Forall_app. split; [exact Hv | repeat constructor; exact Hf].
  - intros r. unfold insert_rating.
    destruct (ratings_insert_policy s db r); [| exact Hdb].
    destruct (ratings_check r); [| exact Hdb].
    destruct (ratings_unique r _); [| exact Hdb].
    destruct (ratings_fkeys r db) eqn:Hf; [| exact Hdb].
    cbn [guard bind commit].
    apply (references_transfer001 db); cbn [auth_users areas profiles vendors complaints ratings];
      auto.
    apply Forall_app. split; [exact Hr | repeat constructor; exact Hf].
  - intros cid set. unfold update_complaint.
    destruct (find _ (complaints db)) as [old |]; [| exact Hdb].
    destruct (complaints_update_policy s db old); [| exact Hdb].
    destruct (complaints_update_policy s db _); [| exact Hdb].
    destruct (complaints_check _); [| exact Hdb].
    destruct (complaints_unique _ _); [| exact Hdb].
    destruct (complaints_fkeys _ db) eqn:Hf; [| exact Hdb].
    cbn [guard bind commit].
    apply (references_transfer001 db); cbn [auth_users areas profiles vendors complaints ratings with_complaints];
      auto.
    now apply Forall_replace.
  - intros vid. unfold delete_vendor.
    destruct (find _ (vendors db)) as [v |]; [| exact Hdb].
    destruct (delete_policy s); [| exact Hdb].
    cbn [commit]. repeat split;
      cbn [auth_users areas profiles vendors complaints ratings].
    + exact Hp.
    + apply Forall_filter. exact Hv.
    + apply Forall_forall. intros c Hin. apply in_map_iff in Hin as [c0 [<- Hin]].
      pose proof (proj1 (Forall_forall _ _) Hc c0 Hin) as Hf.
      unfold complaints_fkeys, on_delete_set_null in *. cbn [profiles vendors areas].
      rewrite !andb_true_iff in Hf. destruct Hf as [[Hx Hy] Hz].
      destruct (complaints.vendor_id c0) as [y |] eqn:Ey; cbn [refers_to].
      * destruct (N.eqb_spec y vid) as [E | E].
        -- cbn. now rewrite Hx, Hz.
        -- rewrite Hx, Hz, Ey, andb_true_r. cbn [andb fk_nullable] in *.
           now apply other_key_survives.
      * now rewrite Hx, Hz, Ey.
    + apply Forall_forall. intros r Hin. apply filter_In in Hin as [Hin Hne].
      pose proof (proj1 (Forall_forall _ _) Hr r Hin) as Hf.
      unfold ratings_fkeys in *. cbn [profiles vendors].
      apply andb_true_iff in Hf as [Hx Hy]. rewrite Hx. cbn [andb].
      apply other_key_survives; [| exact Hy].
      intros C. rewrite C, N.eqb_refl in Hne. discriminate.
Qed.

(** After vendor 21 of the sample is deleted, the references hold. *)
Lemma part001_statements_keep_the_references_witness :
  Spec.references001_hold
    (commit Sample001.db0
       (delete_vendor {| bypassrls := true; auth_uid := None |} 300 21%N
          Sample001.db0)).
Proof.
  apply (part001_statements_keep_the_references
           {| bypassrls := true; auth_uid := None |} 300 Sample001.db0
           sample001_references).
Defined.

(** X23.  In part_000 the references to profiles have no ON DELETE action:
    deleting an identity whose profile is named by a complaint or by a
    rating fails with a foreign-key violation. *)
Theorem part000_keeps_identities_that_are_referred_to
    (uid : UUID) (db : Part000.DB) (p : Part000.profiles.Row) :
  In uid (Part000.auth_users db) ->
  In p (Part000.profiles db) -> Part000.profiles.user_id p = uid ->
  (exists c, In c (Part000.complaints db)
             /\ Part000.complaints.complainant_id c = Part000.profiles.id p)
  \/ (exists r, In r (Part000.ratings db)
                /\ Part000.ratings.customer_id r = Part000.profiles.id p) ->
  Part000.delete_auth_user uid db = Err foreign_key_violation.
Proof.
  intros Hu Hin Hp Href. unfold Part000.delete_auth_user.
  replace (existsb (N.eqb uid) (Part000.auth_users db)) with true.
  2:{ symmetry. apply existsb_exists. exists uid. split; [exact Hu | apply N.eqb_refl]. }
  set (gone := map Part000.profiles.id
                 (filter (fun q => N.eqb (Part000.profiles.user_id q) uid)
                    (Part000.profiles db))).
  assert (Hg : forall x, x = Part000.profiles.id p -> existsb (N.eqb x) gone = true).
  { intros x ->. apply existsb_exists. exists (Part000.profiles.id p).
    split; [| apply N.eqb_refl]. unfold gone. apply in_map. apply filter_In.
    split; [exact Hin | now apply N.eqb_eq]. }
  destruct Href as [[c [Hc E]] | [r [Hr E]]].
  - replace (existsb _ (Part000.complaints db)) with true; [reflexivity |].
    symmetry. apply existsb_exists. exists c. split; [exact Hc |].
    rewrite (Hg _ E). reflexivity.
  - destruct (existsb _ (Part000.complaints db)); [reflexivity |].
    cbn [negb guard bind].
    replace (existsb _ (Part000.ratings db)) with true; [reflexivity |].
    symmetry. apply existsb_exists. exists r. split; [exact Hr |].
    rewrite (Hg _ E). reflexivity.
Qed.

(** User 2 of the sample has filed a complaint and cannot be deleted. *)
Lemma part000_keeps_identities_that_are_referred_to_witness :
  Part000.delete_auth_user 2%N Sample.db_complaint = Err foreign_key_violation.
Proof.
  apply (part000_keeps_identities_that_are_referred_to 2%N Sample.db_complaint
           (Sample.profile 12 2 Part000.consumer)).
  - cbn. tauto.
  - cbn. tauto.
  - reflexivity.
  - left. eexists. split; [left; reflexivity | reflexivity].
Defined.

End Cascades.
